(** * Bassa client libraries: a shallow embedding of the Go and JavaScript
    clients ([go_lib/bassa.go], [js_lib/bassa/bassa.js]) and the properties of
    their request construction, validation and response handling.

    Both clients are thin wrappers around an HTTP transport.  The transport,
    the JSON codecs and the URL parsers are libraries outside the repository;
    they appear here as the fields of an interface record, and every theorem
    holds for all implementations of that interface.  Each client operation
    is a function in a small monad that threads the client object and the
    list of requests handed to the transport. *)

From Stdlib Require Import ZArith Ascii String List Bool Lia.
From stdpp Require Import base decidable option list strings pretty gmap.

Local Open Scope string_scope.
Local Open Scope Z_scope.

(** ** Regular expressions

    Both clients validate an argument against a regular expression that is
    anchored at both ends ([^...$], no multi-line flag), so matching is
    membership of the whole string in the language of the pattern.  The
    patterns use character classes, concatenation, alternation and bounded or
    unbounded repetition only; the matcher below decides membership by
    derivatives. *)
Module Regexp.

Inductive regex : Type :=
| Void                                  (* no string *)
| Eps                                   (* the empty string *)
| Class (p : ascii -> bool)             (* one character of a class *)
| Cat (r1 r2 : regex)
| Alt (r1 r2 : regex)
| Star (r : regex).

Definition Opt (r : regex) : regex := Alt r Eps.             (* r?  *)
Definition Plus (r : regex) : regex := Cat r (Star r).       (* r+  *)

(** [r{0,n}] *)
Fixpoint UpTo (n : nat) (r : regex) : regex :=
  match n with
  | O => Eps
  | S n' => Opt (Cat r (UpTo n' r))
  end.

(** [r{m}] *)
Fixpoint Exactly (m : nat) (r : regex) : regex :=
  match m with
  | O => Eps
  | S m' => Cat r (Exactly m' r)
  end.

Definition Between (m n : nat) (r : regex) : regex :=        (* r{m,n} *)
  Cat (Exactly m r) (UpTo (n - m) r).
Definition AtLeast (m : nat) (r : regex) : regex :=          (* r{m,} *)
  Cat (Exactly m r) (Star r).

Fixpoint nullable (r : regex) : bool :=
  match r with
  | Void => false
  | Eps => true
  | Class _ => false
  | Cat r1 r2 => nullable r1 && nullable r2
  | Alt r1 r2 => nullable r1 || nullable r2
  | Star _ => true
  end.

Definition cat (r1 r2 : regex) : regex :=
  match r1, r2 with
  | Void, _ => Void
  | _, Void => Void
  | Eps, _ => r2
  | _, _ => Cat r1 r2
  end.

Definition alt (r1 r2 : regex) : regex :=
  match r1, r2 with
  | Void, _ => r2
  | _, Void => r1
  | _, _ => Alt r1 r2
  end.

Fixpoint deriv (c : ascii) (r : regex) : regex :=
  match r with
  | Void | Eps => Void
  | Class p => if p c then Eps else Void
  | Cat r1 r2 =>
      alt (cat (deriv c r1) r2) (if nullable r1 then deriv c r2 else Void)
  | Alt r1 r2 => alt (deriv c r1) (deriv c r2)
  | Star r1 => cat (deriv c r1) (Star r1)
  end.

Fixpoint matches (r : regex) (s : string) : bool :=
  match s with
  | EmptyString => nullable r
  | String c s' => matches (deriv c r) s'
  end.

(** Character classes over code points below 256. *)
Definition code (c : ascii) : Z := Z.of_nat (nat_of_ascii c).
Definition in_range (lo hi c : ascii) : bool :=
  (code lo <=? code c) && (code c <=? code hi).
Definition is_digit (c : ascii) : bool := in_range "0" "9" c.
Definition is_upper (c : ascii) : bool := in_range "A" "Z" c.
Definition is_lower (c : ascii) : bool := in_range "a" "z" c.
Definition is_alpha (c : ascii) : bool := is_upper c || is_lower c.
Definition is_alnum (c : ascii) : bool := is_alpha c || is_digit c.
Definition one_of (set : string) (c : ascii) : bool :=
  existsb (Ascii.eqb c) (list_ascii_of_string set).

(** A literal character, and the same under the [i] (ignore case) flag. *)
Definition Chr (a : ascii) : regex := Class (Ascii.eqb a).
Definition to_lower (c : ascii) : ascii :=
  if is_upper c then ascii_of_nat (nat_of_ascii c + 32) else c.
Definition ChrI (a : ascii) : regex :=
  Class (fun c => Ascii.eqb (to_lower a) (to_lower c)).

Fixpoint Lit (s : string) : regex :=
  match s with
  | EmptyString => Eps
  | String a s' => Cat (Chr a) (Lit s')
  end.
Fixpoint LitI (s : string) : regex :=
  match s with
  | EmptyString => Eps
  | String a s' => Cat (ChrI a) (LitI s')
  end.

(** The language of a pattern: the strings it matches as a whole. *)
Inductive lang : regex -> string -> Prop :=
| lang_Eps : lang Eps EmptyString
| lang_Class (p : ascii -> bool) (c : ascii) :
    p c = true -> lang (Class p) (String c EmptyString)
| lang_Cat (r1 r2 : regex) (s1 s2 : string) :
    lang r1 s1 -> lang r2 s2 -> lang (Cat r1 r2) (s1 +:+ s2)
| lang_Alt_l (r1 r2 : regex) (s : string) : lang r1 s -> lang (Alt r1 r2) s
| lang_Alt_r (r1 r2 : regex) (s : string) : lang r2 s -> lang (Alt r1 r2) s
| lang_Star_nil (r : regex) : lang (Star r) EmptyString
| lang_Star_cons (r : regex) (s1 s2 : string) :
    lang r s1 -> lang (Star r) s2 -> lang (Star r) (s1 +:+ s2).

(** Every character class of the pattern lies within [P]. *)
Fixpoint classes_within (P : ascii -> bool) (r : regex) : Prop :=
  match r with
  | Void | Eps => True
  | Class p => forall c, p c = true -> P c = true
  | Cat r1 r2 | Alt r1 r2 => classes_within P r1 /\ classes_within P r2
  | Star r1 => classes_within P r1
  end.

(** The characters of a string, and the string in lower case. *)
Definition chars (s : string) : list ascii := list_ascii_of_string s.
Definition lower (s : string) : string :=
  string_of_list_ascii (map to_lower (list_ascii_of_string s)).

End Regexp.

(** ** Text helpers shared by the two clients *)

(** The double-quote character (code 34). *)
Definition dquote : string := String (ascii_of_nat 34) EmptyString.

(** Decimal rendering of an integer: Go's [%d] verb, and JavaScript's
    [ToString] on an integral Number in the safe range. *)
Definition decimal (n : Z) : string := pretty n.

(** * The Go client ([go_lib/bassa.go]) *)
Module Go.

(** *** Errors and panics *)

(** The package declares two error values; every other error is produced by
    a library ([net/url], [net/http], the heimdall client, [encoding/json])
    and is kept as an opaque value. *)
Inductive error : Type :=
| errBadFormat                          (* errors.New("invalid format") *)
| errIncompleteParams                   (* errors.New("Some fields are not valid or empty") *)
| errLibrary (pkg msg : string).

Definition error_message (e : error) : string :=
  match e with
  | errBadFormat => "invalid format"
  | errIncompleteParams => "Some fields are not valid or empty"
  | errLibrary _ msg => msg
  end.

(** What a goroutine can panic with: an error passed to [panic], or one of
    the runtime's own panics. *)
Inductive panic_value : Type :=
| PanicError (e : error)
| PanicIndexOutOfRange (index len : nat)   (* runtime error: index out of range [i] with length n *)
| PanicNilDereference.                     (* runtime error: invalid memory address or nil pointer dereference *)

(** A Go [(value, err)] pair. *)
Inductive result (A : Type) : Type :=
| Ok (a : A)
| Err (e : error).
Arguments Ok {A} a.
Arguments Err {A} e.

(** *** HTTP data *)

(** [http.Header] and [url.Values] are [map[string][]string]. *)
Abbreviation Header := (gmap string (list string)).

(** A response body is a stream: the bytes that can be read, and the error
    the read ends with, if any. *)
Record Body : Type := { body_bytes : string; body_err : option error }.

Record Response : Type := {
  StatusCode : Z;
  RespHeader : Header;
  RespBody : Body
}.

(** The [io.Reader] handed to the request: nothing, the form of
    [http.PostForm] ([url.Values], pairs in the order they were added), or a
    [bytes.Buffer]. *)
Inductive Payload : Type :=
| NoPayload
| FormPayload (form : list (string * string))
| BufferPayload (bytes : string).

Record Request : Type := {
  Method : string;
  URL : string;
  ReqHeader : Header;
  ReqBody : Payload
}.

(** [time.Duration] is an [int64] count of nanoseconds, and its arithmetic
    wraps around. *)
Definition int64 (z : Z) : Z := (z + 2 ^ 63) mod 2 ^ 64 - 2 ^ 63.
Definition Millisecond : Z := 1000000.
(** [time.Duration(n) * time.Millisecond] *)
Definition milliseconds (n : Z) : Z := int64 (int64 n * Millisecond).

(** The heimdall client built by [Init]: its timeout, its retry count, and
    the interval and the maximum jitter of its constant backoff; the three
    times are [time.Duration]s. *)
Record HTTPClient : Type := {
  httpTimeout : Z;
  httpRetryCount : Z;
  backoffInterval : Z;
  backoffMaxJitter : Z
}.

(** Which client performs a round trip: [http.DefaultClient] (used by
    [http.PostForm]) or the client's own heimdall client. *)
Inductive Client : Type :=
| DefaultClient
| Heimdall (c : HTTPClient).

(** [type Bassa struct].  [httpClient] is a pointer, nil until [Init]. *)
Record Bassa : Type := {
  apiURL : string;
  token : string;
  timeout : Z;
  retryCount : Z;
  httpClient : option HTTPClient
}.

(** The zero value [Bassa{}]. *)
Definition zero_Bassa : Bassa :=
  {| apiURL := ""; token := ""; timeout := 0; retryCount := 0; httpClient := None |}.

(** *** The libraries the client calls *)
Record Libs : Type := {
  (** decoded JSON documents ([interface{}] filled by the decoder) *)
  JSON : Type;
  (** [url.Parse]: the error it reports, if any *)
  url_Parse : string -> option error;
  (** one call of [Client.Do] *)
  roundTrip : Client -> Request -> result Response;
  (** [json.Marshal] on a [map[string]string] *)
  json_Marshal : gmap string string -> result string;
  (** [json.NewDecoder(body).Decode(&r)] *)
  json_Decode : Body -> result JSON;
  (** [prettyjson.Marshal]; its error is dropped by every caller *)
  prettyjson_Marshal : JSON -> string
}.

(** *** The monad of client methods

    A method runs on the receiver [*Bassa] and the outside world: the calls
    made to a transport, oldest first, and the lines printed on standard
    output.  A panic keeps the state reached so far. *)
Record State : Type := {
  self : Bassa;
  sent : list (Client * Request);
  stdout : list string
}.

Inductive outcome (A : Type) : Type :=
| Returned (a : A)
| Panicked (p : panic_value).
Arguments Returned {A} a.
Arguments Panicked {A} p.

Definition M (A : Type) : Type := State -> outcome A * State.

Definition ret {A} (a : A) : M A := fun s => (Returned a, s).
Definition panic {A} (p : panic_value) : M A := fun s => (Panicked p, s).
Definition bind {A B} (m : M A) (k : A -> M B) : M B :=
  fun s => match m s with
           | (Returned a, s') => k a s'
           | (Panicked p, s') => (Panicked p, s')
           end.

Declare Scope go_scope.
Delimit Scope go_scope with go.
Notation "x <- m ;; k" := (bind m (fun x => k))
  (at level 100, m at next level, right associativity) : go_scope.
Notation "m ;;; k" := (bind m (fun _ => k))
  (at level 100, right associativity) : go_scope.
Local Open Scope go_scope.

Definition get_self : M Bassa := fun s => (Returned (self s), s).
Definition put_self (b : Bassa) : M unit :=
  fun s => (Returned tt, {| self := b; sent := sent s; stdout := stdout s |}).
Definition set_token (t : string) : M unit :=
  b <- get_self ;;
  put_self {| apiURL := apiURL b; token := t; timeout := timeout b;
              retryCount := retryCount b; httpClient := httpClient b |}.

(** [fmt.Println(x)] *)
Definition Println (line : string) : M unit :=
  fun s => (Returned tt,
            {| self := self s; sent := sent s; stdout := stdout s ++ [line] |}).

(** [if err != nil { panic(err) }] *)
Definition must {A} (r : result A) : M A :=
  match r with
  | Ok a => ret a
  | Err e => panic (PanicError e)
  end.

(** [xs[0]] on a slice *)
Definition index0 (xs : list string) : M string :=
  match xs with
  | x :: _ => ret x
  | [] => panic (PanicIndexOutOfRange 0 0)
  end.

(** [h[key]] on a map of slices: the nil slice when the key is absent. *)
Definition header_get (h : Header) (key : string) : list string :=
  default [] (h !! key).

(** *** Library calls, as the methods use them *)

(** [s == ""] *)
Definition is_empty (s : string) : bool := String.eqb s "".

(** [string(n)] on an [int]: the UTF-8 encoding of the code point [n], and
    of U+FFFD when [n] is not a valid code point. *)
Definition byte_string (bytes : list Z) : string :=
  string_of_list_ascii (map (fun b => ascii_of_N (Z.to_N b)) bytes).

Definition utf8_encode (r : Z) : string :=
  if (r <? 0) || (0x10FFFF <? r) || ((0xD800 <=? r) && (r <=? 0xDFFF)) then
    byte_string [0xEF; 0xBF; 0xBD]
  else if r <? 0x80 then
    byte_string [r]
  else if r <? 0x800 then
    byte_string [Z.lor 0xC0 (Z.shiftr r 6);
                 Z.lor 0x80 (Z.land r 0x3F)]
  else if r <? 0x10000 then
    byte_string [Z.lor 0xE0 (Z.shiftr r 12);
                 Z.lor 0x80 (Z.land (Z.shiftr r 6) 0x3F);
                 Z.lor 0x80 (Z.land r 0x3F)]
  else
    byte_string [Z.lor 0xF0 (Z.shiftr r 18);
                 Z.lor 0x80 (Z.land (Z.shiftr r 12) 0x3F);
                 Z.lor 0x80 (Z.land (Z.shiftr r 6) 0x3F);
                 Z.lor 0x80 (Z.land r 0x3F)].

Definition string_of_int (n : Z) : string := utf8_encode n.

(** [textproto.CanonicalMIMEHeaderKey]: the first letter and every letter
    after a hyphen in upper case, the others in lower case; a key with a
    byte that is not a header-field byte is left as it is. *)
Definition to_upper (c : ascii) : ascii :=
  if Regexp.is_lower c then ascii_of_nat (nat_of_ascii c - 32) else c.

Definition validHeaderFieldByte (c : ascii) : bool :=
  Regexp.is_alnum c || Regexp.one_of "!#$%&'*+-.^_`|~" c.

Fixpoint canonical_from (upper : bool) (s : string) : string :=
  match s with
  | EmptyString => EmptyString
  | String c s' =>
      String (if upper then to_upper c else Regexp.to_lower c)
             (canonical_from (Ascii.eqb c "-") s')
  end.

Definition CanonicalMIMEHeaderKey (s : string) : string :=
  if forallb validHeaderFieldByte (list_ascii_of_string s)
  then canonical_from true s else s.

(** [h.Set(key, value)] *)
Definition Header_Set (h : Header) (key value : string) : Header :=
  <[CanonicalMIMEHeaderKey key := [value]]> h.

Definition set_header (r : Request) (key value : string) : Request :=
  {| Method := Method r; URL := URL r;
     ReqHeader := Header_Set (ReqHeader r) key value; ReqBody := ReqBody r |}.

(** The pattern of [emailRegexp] (its classes are ASCII, so matching on
    bytes and on runes agree):
    [^[a-zA-Z0-9.!#$%&'*+/=?^_`{|}~-]+@LABEL(?:\.LABEL)*$] with
    [LABEL = [a-zA-Z0-9](?:[a-zA-Z0-9-]{0,61}[a-zA-Z0-9])?]. *)
Definition local_char (c : ascii) : bool :=
  Regexp.is_alnum c || Regexp.one_of ".!#$%&'*+/=?^_`{|}~-" c.
Definition label_char (c : ascii) : bool :=
  Regexp.is_alnum c || Ascii.eqb c "-".
Definition label : Regexp.regex :=
  Regexp.Cat (Regexp.Class Regexp.is_alnum)
    (Regexp.Opt (Regexp.Cat (Regexp.UpTo 61 (Regexp.Class label_char))
                            (Regexp.Class Regexp.is_alnum))).
Definition emailRegexp : Regexp.regex :=
  Regexp.Cat (Regexp.Plus (Regexp.Class local_char))
    (Regexp.Cat (Regexp.Chr "@")
       (Regexp.Cat label
          (Regexp.Star (Regexp.Cat (Regexp.Chr ".") label)))).

(** [validateFormat]: helper function to validate an email address. *)
Definition validateFormat (email : string) : option error :=
  if negb (Regexp.matches emailRegexp email) then Some errBadFormat else None.

Section Methods.
Context (L : Libs).

(** [http.NewRequest(method, url, body)]: fails when the URL does not
    parse (the methods used here are all valid). *)
Definition http_NewRequest (method url : string) (body : Payload)
  : result Request :=
  match url_Parse L url with
  | Some e => Err e
  | None => Ok {| Method := method; URL := url; ReqHeader := ∅; ReqBody := body |}
  end.

(** One call of [Do] on a client: the request is handed to the transport. *)
Definition client_Do (c : Client) (r : Request) : M (result Response) :=
  fun s => (Returned (roundTrip L c r),
            {| self := self s; sent := sent s ++ [(c, r)]; stdout := stdout s |}).

(** [b.httpClient.Do(request)] on the pointer held by the receiver. *)
Definition httpClient_Do (c : option HTTPClient) (r : Request)
  : M (result Response) :=
  match c with
  | Some c => client_Do (Heimdall c) r
  | None => panic PanicNilDereference
  end.

(** [http.PostForm(url, data)]: a POST by the default client with the form
    as body and the form content type. *)
Definition http_PostForm (url : string) (data : list (string * string))
  : M (result Response) :=
  match http_NewRequest "POST" url (FormPayload data) with
  | Err e => ret (Err e)
  | Ok req =>
      client_Do DefaultClient
        (set_header req "Content-Type" "application/x-www-form-urlencoded")
  end.

(** [respBody, err := ioutil.ReadAll(response.Body)] followed by
    [if err != nil { fmt.Println(string(respBody)); panic(err) }]. *)
Definition ReadAll_or_panic (body : Body) : M string :=
  match body_err body with
  | None => ret (body_bytes body)
  | Some e => Println (body_bytes body) ;;; panic (PanicError e)
  end.

(** [json.NewDecoder(response.Body).Decode(&r)], panicking on its error,
    then [prettyjson.Marshal(r)]. *)
Definition decode_pretty (response : Response) : M string :=
  r <- must (json_Decode L (RespBody response)) ;;
  ret (prettyjson_Marshal L r).

(** The request every method but [Login] sends: built by
    [http.NewRequest], given the [token] header, passed to the client's
    [Do]; each error panics. *)
Definition send (method url : string) (body : Payload) : M Response :=
  request <- must (http_NewRequest method url body) ;;
  b <- get_self ;;
  let request := set_header request "token" (token b) in
  r <- httpClient_Do (httpClient b) request ;;
  must r.

(** [Init]: initialization of Bassa. *)
Definition Init (apiURL : string) (timeout retryCount : Z) : M unit :=
  if is_empty apiURL || (timeout =? 0) then
    panic (PanicError errIncompleteParams)
  else
    match url_Parse L apiURL with
    | Some err => Println "<nil>" ;;; panic (PanicError err)
    | None =>
        put_self {| apiURL := apiURL;
                    token := "";
                    timeout := timeout;
                    retryCount := retryCount;
                    httpClient := Some {| httpTimeout := milliseconds timeout;
                                          httpRetryCount := retryCount;
                                          backoffInterval := milliseconds 10;
                                          backoffMaxJitter := milliseconds 50 |} |}
    end.

(** [Login]: function to login as a user. *)
Definition Login (userName password : string) : M unit :=
  if is_empty userName || is_empty password then
    panic (PanicError errIncompleteParams)
  else
    let endpoint := "/api/login" in
    b <- get_self ;;
    let apiURL := apiURL b +:+ endpoint in
    let form := [("user_name", userName); ("password", password)] in
    r <- http_PostForm apiURL form ;;
    response <- must r ;;
    tok <- index0 (header_get (RespHeader response) "Token") ;;
    set_token tok ;;;
    _ <- ReadAll_or_panic (RespBody response) ;;
    ret tt.

(** [AddRegularUserRequest] *)
Definition AddRegularUserRequest (userName password email : string) : M unit :=
  if is_empty userName || is_empty password || is_empty email then
    panic (PanicError errIncompleteParams)
  else
    match validateFormat email with
    | Some err => panic (PanicError err)
    | None =>
        let endpoint := "/api/regularuser" in
        b <- get_self ;;
        let apiURL := apiURL b +:+ endpoint in
        requestBody <- must (json_Marshal L
                               (list_to_map [("user_name", userName);
                                             ("password", password);
                                             ("email", email)])) ;;
        response <- send "POST" apiURL (BufferPayload requestBody) ;;
        _ <- ReadAll_or_panic (RespBody response) ;;
        ret tt
    end.

(** [AddUserRequest] *)
Definition AddUserRequest (userName password email : string) (authLevel : Z)
  : M unit :=
  if is_empty userName || is_empty password || is_empty email then
    panic (PanicError errIncompleteParams)
  else
    match validateFormat email with
    | Some err => panic (PanicError err)
    | None =>
        let endpoint := "/api/user" in
        b <- get_self ;;
        let apiURL := apiURL b +:+ endpoint in
        let requestBody :=
          "{user_name:" +:+ dquote +:+ userName +:+ dquote +:+
          ", password: " +:+ dquote +:+ password +:+ dquote +:+
          ", email: " +:+ dquote +:+ email +:+ dquote +:+
          ", auth: " +:+ decimal authLevel +:+ "}" in
        response <- send "POST" apiURL (BufferPayload requestBody) ;;
        out <- decode_pretty response ;;
        Println out
    end.

(** [RemoveUserRequest]: function to remove user. *)
Definition RemoveUserRequest (userName : string) : M string :=
  if is_empty userName then
    panic (PanicError errIncompleteParams)
  else
    let endpoint := "/api/user" +:+ "/" +:+ userName in
    b <- get_self ;;
    let apiURL := apiURL b +:+ endpoint in
    response <- send "DELETE" apiURL NoPayload ;;
    out <- decode_pretty response ;;
    ret out.

(** [UpdateUserRequest]: function to update user request. *)
Definition UpdateUserRequest (userName newUserName password : string)
  (authLevel : Z) (email : string) : M unit :=
  if is_empty userName || is_empty password || is_empty email
     || is_empty newUserName then
    panic (PanicError errIncompleteParams)
  else
    match validateFormat email with
    | Some err => panic (PanicError err)
    | None =>
        let endpoint := "/api/user" in
        b <- get_self ;;
        let apiURL := apiURL b +:+ endpoint +:+ "/" +:+ userName in
        let requestBody :=
          "{user_name:" +:+ dquote +:+ newUserName +:+ dquote +:+
          ", password: " +:+ dquote +:+ password +:+ dquote +:+
          ", email: " +:+ dquote +:+ email +:+ dquote +:+
          ", auth_level: " +:+ decimal authLevel +:+ "}" in
        response <- send "PUT" apiURL (BufferPayload requestBody) ;;
        out <- decode_pretty response ;;
        Println out
    end.

(** The body shared by the getters without arguments: GET [endpoint],
    decode, pretty-print, print and return the text. *)
Definition get_and_print (endpoint : string) : M string :=
  b <- get_self ;;
  let apiURL := apiURL b +:+ endpoint in
  response <- send "GET" apiURL NoPayload ;;
  out <- decode_pretty response ;;
  Println out ;;;
  ret out.

(** [GetUserRequest] *)
Definition GetUserRequest : M string := get_and_print "/api/user".

(** [GetUserSignupRequests] *)
Definition GetUserSignupRequests : M string := get_and_print "/api/user/requests".

(** The body shared by the three methods on one user name below. *)
Definition user_action (method endpoint userName : string) : M unit :=
  if is_empty userName then
    panic (PanicError errIncompleteParams)
  else
    b <- get_self ;;
    let apiURL := apiURL b +:+ endpoint +:+ "/" +:+ userName in
    response <- send method apiURL NoPayload ;;
    out <- decode_pretty response ;;
    Println out.

(** [ApproveUserRequest] *)
Definition ApproveUserRequest (userName : string) : M unit :=
  user_action "POST" "/api/user/approve" userName.

(** [GetBlockedUserRequests] *)
Definition GetBlockedUserRequests : M string := get_and_print "/api/user/blocked".

(** [BlockUserRequest] *)
Definition BlockUserRequest (userName : string) : M unit :=
  user_action "POST" "/api/user/blocked" userName.

(** [UnBlockUserRequest] *)
Definition UnBlockUserRequest (userName : string) : M unit :=
  user_action "DELETE" "/api/user/blocked" userName.

(** [GetDownloadUserRequests] *)
Definition GetDownloadUserRequests (limit : Z) : M string :=
  let limit := if limit =? 0 then 1 else limit in
  let endpoint := "/api/user/downloads" in
  b <- get_self ;;
  let apiURL := apiURL b +:+ endpoint +:+ "/" +:+ string_of_int limit in
  response <- send "GET" apiURL NoPayload ;;
  out <- decode_pretty response ;;
  Println out ;;;
  ret out.

(** [GetToptenHeaviestUsers] *)
Definition GetToptenHeaviestUsers : M string := get_and_print "/api/user/heavy".

(** Every exported method but [Init], as one call. *)
Inductive call : Type :=
| CLogin (userName password : string)
| CAddRegularUserRequest (userName password email : string)
| CAddUserRequest (userName password email : string) (authLevel : Z)
| CRemoveUserRequest (userName : string)
| CUpdateUserRequest (userName newUserName password : string)
    (authLevel : Z) (email : string)
| CGetUserRequest
| CGetUserSignupRequests
| CApproveUserRequest (userName : string)
| CGetBlockedUserRequests
| CBlockUserRequest (userName : string)
| CUnBlockUserRequest (userName : string)
| CGetDownloadUserRequests (limit : Z)
| CGetToptenHeaviestUsers.

(** What a call hands back: nothing, or the pretty-printed text. *)
Definition discard {A} (m : M A) : M (option string) := _ <- m ;; ret None.
Definition text (m : M string) : M (option string) := out <- m ;; ret (Some out).

Definition run (c : call) : M (option string) :=
  match c with
  | CLogin u p => discard (Login u p)
  | CAddRegularUserRequest u p e => discard (AddRegularUserRequest u p e)
  | CAddUserRequest u p e a => discard (AddUserRequest u p e a)
  | CRemoveUserRequest u => text (RemoveUserRequest u)
  | CUpdateUserRequest u n p a e => discard (UpdateUserRequest u n p a e)
  | CGetUserRequest => text GetUserRequest
  | CGetUserSignupRequests => text GetUserSignupRequests
  | CApproveUserRequest u => discard (ApproveUserRequest u)
  | CGetBlockedUserRequests => text GetBlockedUserRequests
  | CBlockUserRequest u => discard (BlockUserRequest u)
  | CUnBlockUserRequest u => discard (UnBlockUserRequest u)
  | CGetDownloadUserRequests l => text (GetDownloadUserRequests l)
  | CGetToptenHeaviestUsers => text GetToptenHeaviestUsers
  end.

End Methods.

(** The string arguments a call requires to be non-empty. *)
Definition required (c : call) : list string :=
  match c with
  | CLogin u p => [u; p]
  | CAddRegularUserRequest u p e => [u; p; e]
  | CAddUserRequest u p e _ => [u; p; e]
  | CRemoveUserRequest u => [u]
  | CUpdateUserRequest u n p _ e => [u; n; p; e]
  | CApproveUserRequest u | CBlockUserRequest u | CUnBlockUserRequest u => [u]
  | CGetUserRequest | CGetUserSignupRequests | CGetBlockedUserRequests
  | CGetDownloadUserRequests _ | CGetToptenHeaviestUsers => []
  end.

(** The email argument of a call that takes one. *)
Definition email_of (c : call) : option string :=
  match c with
  | CAddRegularUserRequest _ _ e | CAddUserRequest _ _ e _
  | CUpdateUserRequest _ _ _ _ e => Some e
  | _ => None
  end.

End Go.

(** * The JavaScript client ([js_lib/bassa/bassa.js]) *)
Module JS.

(** *** Values

    Arguments are untyped.  A Number is an integer here, standing for the
    safe integers ([Number.isSafeInteger]); a string is a sequence of code
    units below 256.  Floating-point values, [NaN], objects other than arrays
    and exceptions raised inside [URLSearchParams] and [JSON.stringify]
    themselves are outside the model. *)
#[warnings="-register-all"]
Inductive value : Type :=
| Undefined
| Null
| Bool (b : bool)
| Num (n : Z)
| Str (s : string)
| Arr (xs : list value).

Definition safe_integer (n : Z) : Prop := - (2 ^ 53 - 1) <= n <= 2 ^ 53 - 1.

(** A value whose Numbers are safe integers, the Numbers [ToString] below
    renders as JavaScript does. *)
Fixpoint safe (v : value) : bool :=
  match v with
  | Num n => (- (2 ^ 53 - 1) <=? n) && (n <=? 2 ^ 53 - 1)
  | Arr xs => forallb safe xs
  | _ => true
  end.

(** [!!v] *)
Definition truthy (v : value) : bool :=
  match v with
  | Undefined | Null => false
  | Bool b => b
  | Num n => negb (n =? 0)
  | Str s => negb (String.eqb s "")
  | Arr _ => true
  end.

(** [v === undefined || v === null], also [v == null] *)
Definition nullish (v : value) : bool :=
  match v with
  | Undefined | Null => true
  | _ => false
  end.

(** [ToString], as a template literal and [URLSearchParams.append] apply
    it; an array is joined with commas, its [undefined] and [null] elements
    rendered empty.  A Number is rendered by its decimal digits, which is
    what JavaScript does for a safe integer (beyond them it rounds, and from
    1e21 on it writes an exponent). *)
Fixpoint ToString (v : value) : string :=
  match v with
  | Undefined => "undefined"
  | Null => "null"
  | Bool true => "true"
  | Bool false => "false"
  | Num n => decimal n
  | Str s => s
  | Arr xs =>
      (fix join (xs : list value) : string :=
         match xs with
         | [] => ""
         | [x] => if nullish x then "" else ToString x
         | x :: rest => (if nullish x then "" else ToString x) +:+ "," +:+ join rest
         end) xs
  end.

(** [v.length === 0], evaluated only on a truthy [v] *)
Definition length_is_zero (v : value) : bool :=
  match v with
  | Arr xs => Nat.eqb (List.length xs) 0
  | Str s => Nat.eqb (String.length s) 0
  | _ => false
  end.

(** A parameter with a default value: the default replaces [undefined]. *)
Definition or_default (d v : value) : value :=
  match v with
  | Undefined => d
  | _ => v
  end.

(** *** Errors

    The classes of [./errors], [Error], and whatever a library rejects or
    throws with. *)
Inductive error : Type :=
| InvalidUrl (message : string)
| IncompleteParams
| ResponseError (message : string)
| Error (message : string)
| LibraryError (name message : string).

(** The [TypeError] of a library. *)
Abbreviation TypeError message := (LibraryError "TypeError" message).

Definition error_message (e : error) : option string :=
  match e with
  | InvalidUrl m | ResponseError m | Error m | LibraryError _ m => Some m
  | IncompleteParams => None
  end.

(** The error names the HTTP status: its message ends with the status. *)
Definition carries_status (e : error) (status : Z) : Prop :=
  exists prefix, error_message e = Some (prefix +:+ decimal status).

(** *** HTTP data *)

(** The object [new URL(input, base)] returns when it returns, with the
    pairs appended to its [searchParams]; requests are sent to its [href].
    The object is kept as its two inputs: the resolution of the input
    against the base is left to the library. *)
Record URL : Type := {
  url_input : string;
  url_base : string;
  url_searchParams : list (string * string)
}.
Definition URL_of (input base : string) : URL :=
  {| url_input := input; url_base := base; url_searchParams := [] |}.
Definition searchParams_append (u : URL) (name : string) (v : value) : URL :=
  {| url_input := url_input u; url_base := url_base u;
     url_searchParams := url_searchParams u ++ [(name, ToString v)] |}.

(** The [data] argument of a request. *)
Inductive Data : Type :=
| NoData                                         (* get, delete: no data argument *)
| NullData                                       (* null *)
| FormData (params : list (string * string))     (* a URLSearchParams *)
| TextData (text : string).                      (* a string *)

Record Request : Type := {
  method : string;
  url : URL;
  data : Data;
  headers : gmap string value
}.

Record Response : Type := {
  status : Z;
  response_headers : gmap string string;
  body : string
}.

(** [response.headers.token]: [undefined] when the header is absent. *)
Definition header_property (r : Response) (name : string) : value :=
  match response_headers r !! name with
  | Some v => Str v
  | None => Undefined
  end.

(** The instance made by [axios.create]. *)
Record RetryStrategy : Type := {
  total : Z;
  backoffFactor : Z;
  retry : list Z
}.
Record AxiosInstance : Type := {
  baseURL : string;
  axios_timeout : Z;
  httpAgent : RetryStrategy
}.

(** [class Bassa] *)
Record Bassa : Type := {
  apiUrl : string;
  this_headers : gmap string value;
  http : AxiosInstance
}.

(** *** The libraries the client calls *)
Record Libs : Type := {
  (** parsed JSON documents *)
  JSON : Type;
  (** [new URL(input, base)] on an input of the client: the message of the
      [TypeError] it throws, if it throws.  Every input of the client is a
      path that starts with [/api], which the URL class resolves against
      every base it can parse, so whether it throws is a matter of the base
      alone. *)
  URL_error : string -> option string;
  (** one request of the axios instance: the response it resolves with or
      the error it rejects with *)
  axios_request : AxiosInstance -> Request -> Response + error;
  (** [response.json()] *)
  response_json : Response -> JSON + error;
  (** [JSON.stringify] on an object literal, given as its properties *)
  JSON_stringify : list (string * value) -> string
}.

(** *** The monad of client methods

    A method throws, or returns a promise that is fulfilled or rejected; it
    runs on the client object and the list of requests made so far. *)
Record State : Type := {
  self : Bassa;
  sent : list Request
}.

Inductive completion (A : Type) : Type :=
| Fulfilled (a : A)
| Rejected (e : error)
| Thrown (e : error).
Arguments Fulfilled {A} a.
Arguments Rejected {A} e.
Arguments Thrown {A} e.

Definition M (A : Type) : Type := State -> completion A * State.

Definition ret {A} (a : A) : M A := fun s => (Fulfilled a, s).
Definition throw {A} (e : error) : M A := fun s => (Thrown e, s).
Definition reject {A} (e : error) : M A := fun s => (Rejected e, s).
Definition bind {A B} (m : M A) (k : A -> M B) : M B :=
  fun s => match m s with
           | (Fulfilled a, s') => k a s'
           | (Rejected e, s') => (Rejected e, s')
           | (Thrown e, s') => (Thrown e, s')
           end.

Declare Scope js_scope.
Delimit Scope js_scope with js.
Notation "x <- m ;; k" := (bind m (fun x => k))
  (at level 100, m at next level, right associativity) : js_scope.
Local Open Scope js_scope.

Definition this : M Bassa := fun s => (Fulfilled (self s), s).

(** [this.headers[name] = v] *)
Definition set_this_header (name : string) (v : value) : M unit :=
  fun s => (Fulfilled tt,
            {| self := {| apiUrl := apiUrl (self s);
                          this_headers := <[name := v]> (this_headers (self s));
                          http := http (self s) |};
               sent := sent s |}).

(** The pattern the constructor tests the base URL against, under the
    [i] flag:
    [^(?:http|ftp)s?://]
    [(?:(?:[A-Z0-9](?:[A-Z0-9-]{0,61}[A-Z0-9])?\.)+(?:[A-Z]{2,6}\.?|[A-Z0-9-]{2,}\.?)|]
    [localhost|]
    [\d{1,3}\.\d{1,3}\.\d{1,3}\.\d{1,3})]
    [(?::\d+)?]
    [(?:/?|[/?]\S+)$]. *)
Definition alnum_hyphen (c : ascii) : bool :=
  Regexp.is_alnum c || Ascii.eqb c "-".
(** [\s] on code units below 256: tab, line feed, vertical tab, form feed,
    carriage return, space, no-break space. *)
Definition is_space (c : ascii) : bool :=
  existsb (Z.eqb (Regexp.code c)) [9; 10; 11; 12; 13; 32; 160].

Definition scheme : Regexp.regex :=
  Regexp.Cat (Regexp.Alt (Regexp.LitI "http") (Regexp.LitI "ftp"))
    (Regexp.Cat (Regexp.Opt (Regexp.ChrI "s")) (Regexp.Lit "://")).
Definition domain_label : Regexp.regex :=
  Regexp.Cat (Regexp.Class Regexp.is_alnum)
    (Regexp.Cat
       (Regexp.Opt (Regexp.Cat (Regexp.UpTo 61 (Regexp.Class alnum_hyphen))
                               (Regexp.Class Regexp.is_alnum)))
       (Regexp.Chr ".")).
Definition top_level : Regexp.regex :=
  Regexp.Alt
    (Regexp.Cat (Regexp.Between 2 6 (Regexp.Class Regexp.is_alpha))
                (Regexp.Opt (Regexp.Chr ".")))
    (Regexp.Cat (Regexp.AtLeast 2 (Regexp.Class alnum_hyphen))
                (Regexp.Opt (Regexp.Chr "."))).
Definition octet : Regexp.regex := Regexp.Between 1 3 (Regexp.Class Regexp.is_digit).
Definition ip : Regexp.regex :=
  Regexp.Cat octet (Regexp.Cat (Regexp.Chr ".")
    (Regexp.Cat octet (Regexp.Cat (Regexp.Chr ".")
       (Regexp.Cat octet (Regexp.Cat (Regexp.Chr ".") octet))))).
Definition host : Regexp.regex :=
  Regexp.Alt (Regexp.Cat (Regexp.Plus domain_label) top_level)
    (Regexp.Alt (Regexp.LitI "localhost") ip).
Definition port : Regexp.regex :=
  Regexp.Opt (Regexp.Cat (Regexp.Chr ":") (Regexp.Plus (Regexp.Class Regexp.is_digit))).
Definition tail : Regexp.regex :=
  Regexp.Alt (Regexp.Opt (Regexp.Chr "/"))
    (Regexp.Cat (Regexp.Class (Regexp.one_of "/?"))
                (Regexp.Plus (Regexp.Class (fun c => negb (is_space c))))).
Definition reg : Regexp.regex :=
  Regexp.Cat scheme (Regexp.Cat host (Regexp.Cat port tail)).

(** [new Bassa(apiUrl, total = 1, backoffFactor = 1, timeout = 5)]: the
    object, or the error thrown. *)
Definition constructor (apiUrl : string) (total backoffFactor timeout : option Z)
  : error + Bassa :=
  let total := default 1 total in
  let backoffFactor := default 1 backoffFactor in
  let timeout := default 5 timeout in
  let headers : gmap string value :=
    {[ "Content-Type" := Str "application/x-www-form-urlencoded" ]} in
  if negb (Regexp.matches reg apiUrl) then
    inl (InvalidUrl "Invalid URL")
  else
    let retryStrategy :=
      {| total := total; backoffFactor := backoffFactor;
         retry := [429; 500; 502; 503; 504] |} in
    let instance :=
      {| baseURL := apiUrl; axios_timeout := timeout * 1000;
         httpAgent := retryStrategy |} in
    inr {| apiUrl := apiUrl; this_headers := headers; http := instance |}.

Section Methods.
Context (L : Libs).

(** [new URL(input, base)]: the object, or the [TypeError] thrown. *)
Definition new_URL (input base : string) : M URL :=
  match URL_error L base with
  | Some message => throw (TypeError message)
  | None => ret (URL_of input base)
  end.

(** [this.http.<method>(url.href, data, { headers: this.headers })] *)
Definition http_request (method : string) (url : URL) (data : Data)
  : M Response :=
  fun s =>
    let r := {| method := method; url := url; data := data;
                headers := this_headers (self s) |} in
    let s' := {| self := self s; sent := sent s ++ [r] |} in
    match axios_request L (http (self s)) r with
    | inl response => (Fulfilled response, s')
    | inr e => (Rejected e, s')
    end.

Definition http_get (url : URL) : M Response := http_request "GET" url NoData.
Definition http_delete (url : URL) : M Response := http_request "DELETE" url NoData.
Definition http_post (url : URL) (data : Data) : M Response :=
  http_request "POST" url data.
Definition http_put (url : URL) (data : Data) : M Response :=
  http_request "PUT" url data.

(** [return response.json()] inside a [then] callback *)
Definition json (response : Response) : M (JSON L) :=
  match response_json L response with
  | inl j => ret j
  | inr e => reject e
  end.

(** The callback
    [response => { if (response.status === 200) return response.json();
                   else throw new Error(`<what> ${response.status}`) }]. *)
Definition json_or_status (what : string) (response : Response) : M (JSON L) :=
  if status response =? 200 then json response
  else reject (Error (what +:+ decimal (status response))).

(** **** User functions *)

Definition login (user_name password : value) : M unit :=
  let endpoint := "/api/login" in
  b <- this ;;
  url <- new_URL endpoint (apiUrl b) ;;
  if negb (truthy user_name) || negb (truthy password) then
    throw IncompleteParams
  else
    let params := [("user_name", ToString user_name);
                   ("password", ToString password)] in
    response <- http_post url (FormData params) ;;
    if status response =? 200 then
      set_this_header "token" (header_property response "token")
    else
      reject (ResponseError ("API response: " +:+ decimal (status response))).

Definition addRegularUserRequest (user_name password email : value)
  : M Response :=
  let endpoint := "/api/regularuser" in
  b <- this ;;
  url <- new_URL endpoint (apiUrl b) ;;
  if negb (truthy user_name) || negb (truthy password) || negb (truthy email) then
    throw IncompleteParams
  else
    let params := [("user_name", ToString user_name);
                   ("password", ToString password);
                   ("email", ToString email)] in
    http_post url (FormData params).

Definition addUserRequest (user_name password email auth_level : value)
  : M Response :=
  let auth_level := or_default (Num 1) auth_level in
  let endpoint := "/api/user" in
  b <- this ;;
  url <- new_URL endpoint (apiUrl b) ;;
  if negb (truthy user_name) || negb (truthy password) || negb (truthy email) then
    throw IncompleteParams
  else
    let params := [("user_name", ToString user_name);
                   ("password", ToString password);
                   ("email", ToString email);
                   ("auth", ToString auth_level)] in
    http_post url (FormData params).

Definition removeUserRequest (user_name : value) : M Response :=
  if negb (truthy user_name) then
    throw IncompleteParams
  else
    let endpoint := "/api/user" in
    b <- this ;;
    url <- new_URL (endpoint +:+ "/" +:+ ToString user_name) (apiUrl b) ;;
    http_delete url.

Definition updateUserRequest
  (user_name new_user_name password auth_level email : value) : M Response :=
  if negb (truthy user_name) || negb (truthy new_user_name)
     || negb (truthy password) || nullish auth_level || negb (truthy email) then
    throw IncompleteParams
  else
    let endpoint := "/api/user" in
    b <- this ;;
    url <- new_URL (endpoint +:+ "/" +:+ ToString user_name) (apiUrl b) ;;
    let params := [("user_name", ToString new_user_name);
                   ("password", ToString password);
                   ("auth_level", ToString auth_level);
                   ("email", ToString email)] in
    http_put url (FormData params).

Definition getUserRequest : M (JSON L) :=
  let endpoint := "/api/user" in
  b <- this ;;
  url <- new_URL endpoint (apiUrl b) ;;
  response <- http_get url ;;
  json_or_status "Request failed with status " response.

Definition getUserSignupRequests : M (JSON L) :=
  let endpoint := "/api/user/requests" in
  b <- this ;;
  url <- new_URL endpoint (apiUrl b) ;;
  response <- http_get url ;;
  json_or_status "Request failed with status " response.

Definition approveUserRequest (user_name : value) : M Response :=
  if negb (truthy user_name) then
    throw IncompleteParams
  else
    let endpoint := "/api/user/approve" in
    b <- this ;;
    url <- new_URL (endpoint +:+ "/" +:+ ToString user_name) (apiUrl b) ;;
    http_post url NullData.

Definition getBlockedUsersRequest : M (JSON L) :=
  let endpoint := "/api/user/blocked" in
  b <- this ;;
  url <- new_URL endpoint (apiUrl b) ;;
  response <- http_get url ;;
  json_or_status "Request failed with status " response.

Definition blockUserRequest (user_name : value) : M Response :=
  if negb (truthy user_name) then
    throw IncompleteParams
  else
    let endpoint := "/api/user/blocked" in
    b <- this ;;
    url <- new_URL (endpoint +:+ "/" +:+ ToString user_name) (apiUrl b) ;;
    http_post url NullData.

Definition unblockUserRequest (user_name : value) : M Response :=
  if negb (truthy user_name) then
    throw IncompleteParams
  else
    let endpoint := "/api/user/blocked" in
    b <- this ;;
    url <- new_URL (endpoint +:+ "/" +:+ ToString user_name) (apiUrl b) ;;
    http_delete url.

Definition getDownloadsUserRequest (limit : value) : M (JSON L) :=
  let limit := or_default (Num 1) limit in
  let endpoint := "/api/user/downloads" in
  b <- this ;;
  url <- new_URL (endpoint +:+ "/" +:+ ToString limit) (apiUrl b) ;;
  response <- http_get url ;;
  json_or_status "Request failed with status " response.

Definition getToptenHeaviestUsers : M (JSON L) :=
  let endpoint := "/api/user/heavy" in
  b <- this ;;
  url <- new_URL endpoint (apiUrl b) ;;
  response <- http_get url ;;
  json_or_status "Request failed with status " response.

(** **** Download functions *)

Definition startDownload (server_key : value) : M (JSON L) :=
  let server_key := or_default (Str "123456789") server_key in
  let endpoint := "/api/download/start" in
  b <- this ;;
  url <- new_URL endpoint (apiUrl b) ;;
  _ <- set_this_header "key" server_key ;;
  response <- http_get url ;;
  json_or_status "Request failed with status " response.

Definition killDownload (server_key : value) : M (JSON L) :=
  let server_key := or_default (Str "123456789") server_key in
  let endpoint := "/api/download/kill" in
  b <- this ;;
  url <- new_URL endpoint (apiUrl b) ;;
  _ <- set_this_header "key" server_key ;;
  response <- http_get url ;;
  json_or_status "Request failed with status " response.

Definition addDownloadRequest (download_link : value) : M (JSON L) :=
  if negb (truthy download_link) then
    throw IncompleteParams
  else
    let endpoint := "/api/download" in
    b <- this ;;
    url <- new_URL endpoint (apiUrl b) ;;
    let params := [("link", download_link)] in
    response <- http_post url (TextData (JSON_stringify L params)) ;;
    if negb (status response =? 200) then
      reject (Error "Add download was not successful")
    else json response.

Definition removeDownloadRequest (id : value) : M (JSON L) :=
  if negb (truthy id) then
    throw (Error "ID is required to remove download")
  else
    let endpoint := "/api/download/" +:+ ToString id in
    b <- this ;;
    url <- new_URL endpoint (apiUrl b) ;;
    response <- http_delete url ;;
    if negb (status response =? 200) then
      reject (Error ("Remove download failed with status "
                     +:+ decimal (status response)))
    else json response.

Definition rateDownloadRequest (id rate : value) : M (JSON L) :=
  if negb (truthy id) || negb (truthy rate) then
    throw (Error "ID and rate are required to rate download")
  else
    let endpoint := "/api/download/" +:+ ToString id in
    b <- this ;;
    url <- new_URL endpoint (apiUrl b) ;;
    let params := [("rate", rate)] in
    response <- http_post url (TextData (JSON_stringify L params)) ;;
    if negb (status response =? 200) then
      reject (Error ("Rate download failed with status "
                     +:+ decimal (status response)))
    else json response.

Definition getDownloadsRequest (limit : value) : M (JSON L) :=
  if nullish limit then
    throw (Error "Limit is required to get downloads")
  else
    let endpoint := "/api/downloads/" +:+ ToString limit in
    b <- this ;;
    url <- new_URL endpoint (apiUrl b) ;;
    response <- http_get url ;;
    json_or_status "Get downloads failed with status " response.

Definition getDownload (id : value) : M (JSON L) :=
  if negb (truthy id) then
    throw (Error "ID is required to get download")
  else
    let endpoint := "/api/download/" +:+ ToString id in
    b <- this ;;
    url <- new_URL endpoint (apiUrl b) ;;
    response <- http_get url ;;
    json_or_status "Get download failed with status " response.

(** **** File functions *)

Definition startCompression (gidList : value) : M (JSON L) :=
  if negb (truthy gidList) || length_is_zero gidList then
    throw (Error "GID list is required to start compression")
  else
    let endpoint := "/api/compress" in
    b <- this ;;
    url <- new_URL endpoint (apiUrl b) ;;
    let params := [("gid", gidList)] in
    response <- http_post url (TextData (JSON_stringify L params)) ;;
    json_or_status "Start compression failed with status " response.

Definition getCompressionProgress (id : value) : M (JSON L) :=
  if negb (truthy id) then
    throw (Error "ID is required to get compression progress")
  else
    let endpoint := "/api/compression-progress/" +:+ ToString id in
    b <- this ;;
    url <- new_URL endpoint (apiUrl b) ;;
    response <- http_get url ;;
    json_or_status "Get compression progress failed with status " response.

Definition sendFileFromPath (id : value) : M (JSON L) :=
  if negb (truthy id) then
    throw (Error "ID is required to send file from path")
  else
    let endpoint := "/api/file" in
    b <- this ;;
    url <- new_URL endpoint (apiUrl b) ;;
    let url := searchParams_append url "gid" id in
    response <- http_get url ;;
    json_or_status "Send file from path failed with status " response.

(** **** Every method as one call *)
Inductive call : Type :=
| Clogin (user_name password : value)
| CaddRegularUserRequest (user_name password email : value)
| CaddUserRequest (user_name password email auth_level : value)
| CremoveUserRequest (user_name : value)
| CupdateUserRequest (user_name new_user_name password auth_level email : value)
| CgetUserRequest
| CgetUserSignupRequests
| CapproveUserRequest (user_name : value)
| CgetBlockedUsersRequest
| CblockUserRequest (user_name : value)
| CunblockUserRequest (user_name : value)
| CgetDownloadsUserRequest (limit : value)
| CgetToptenHeaviestUsers
| CstartDownload (server_key : value)
| CkillDownload (server_key : value)
| CaddDownloadRequest (download_link : value)
| CremoveDownloadRequest (id : value)
| CrateDownloadRequest (id rate : value)
| CgetDownloadsRequest (limit : value)
| CgetDownload (id : value)
| CstartCompression (gidList : value)
| CgetCompressionProgress (id : value)
| CsendFileFromPath (id : value).

(** What the promise of a call is fulfilled with: nothing ([login]), the
    response as the transport gave it, or the parsed body. *)
Inductive settled : Type :=
| Nothing
| TheResponse (r : Response)
| Parsed (j : JSON L).

Definition nothing (m : M unit) : M settled := _ <- m ;; ret Nothing.
Definition raw (m : M Response) : M settled := r <- m ;; ret (TheResponse r).
Definition parsed (m : M (JSON L)) : M settled := j <- m ;; ret (Parsed j).

Definition run (c : call) : M settled :=
  match c with
  | Clogin u p => nothing (login u p)
  | CaddRegularUserRequest u p e => raw (addRegularUserRequest u p e)
  | CaddUserRequest u p e a => raw (addUserRequest u p e a)
  | CremoveUserRequest u => raw (removeUserRequest u)
  | CupdateUserRequest u n p a e => raw (updateUserRequest u n p a e)
  | CgetUserRequest => parsed getUserRequest
  | CgetUserSignupRequests => parsed getUserSignupRequests
  | CapproveUserRequest u => raw (approveUserRequest u)
  | CgetBlockedUsersRequest => parsed getBlockedUsersRequest
  | CblockUserRequest u => raw (blockUserRequest u)
  | CunblockUserRequest u => raw (unblockUserRequest u)
  | CgetDownloadsUserRequest l => parsed (getDownloadsUserRequest l)
  | CgetToptenHeaviestUsers => parsed getToptenHeaviestUsers
  | CstartDownload k => parsed (startDownload k)
  | CkillDownload k => parsed (killDownload k)
  | CaddDownloadRequest l => parsed (addDownloadRequest l)
  | CremoveDownloadRequest i => parsed (removeDownloadRequest i)
  | CrateDownloadRequest i r => parsed (rateDownloadRequest i r)
  | CgetDownloadsRequest l => parsed (getDownloadsRequest l)
  | CgetDownload i => parsed (getDownload i)
  | CstartCompression g => parsed (startCompression g)
  | CgetCompressionProgress i => parsed (getCompressionProgress i)
  | CsendFileFromPath i => parsed (sendFileFromPath i)
  end.

End Methods.

Arguments Nothing {L}.
Arguments TheResponse {L} r.
Arguments Parsed {L} j.

End JS.

(** * Small library implementations

    Concrete implementations of the two library interfaces, for running the
    clients on examples: a transport that answers every request with one
    fixed response, a URL parser that accepts every string, and JSON codecs
    that cover the documents the examples use (strings without characters
    that need escaping; the documents [{}] and [[]]). *)
Module Demo.

Definition quote (s : string) : string := dquote +:+ s +:+ dquote.

Fixpoint insert_by_key (kv : string * string) (l : list (string * string))
  : list (string * string) :=
  match l with
  | [] => [kv]
  | x :: rest =>
      if String.leb (fst kv) (fst x) then kv :: l
      else x :: insert_by_key kv rest
  end.

Fixpoint members (l : list (string * string)) : string :=
  match l with
  | [] => ""
  | [(k, v)] => quote k +:+ ":" +:+ v
  | (k, v) :: rest => quote k +:+ ":" +:+ v +:+ "," +:+ members rest
  end.

(** **** Go *)

(** [json.Marshal] on a map of strings: an object, keys in sorted order. *)
Definition go_json_Marshal (m : gmap string string) : Go.result string :=
  Go.Ok ("{" +:+ members (foldr insert_by_key []
                            (map (fun kv => (fst kv, quote (snd kv)))
                                 (map_to_list m))) +:+ "}").

Definition known_document (text : string) : bool :=
  String.eqb text "{}" || String.eqb text "[]".

Definition go_json_Decode (body : Go.Body) : Go.result string :=
  match Go.body_err body with
  | Some e => Go.Err e
  | None =>
      if known_document (Go.body_bytes body) then Go.Ok (Go.body_bytes body)
      else Go.Err (Go.errLibrary "encoding/json" "invalid character")
  end.

Definition go_response (code : Z) (header : list (string * list string))
  (text : string) : Go.Response :=
  {| Go.StatusCode := code;
     Go.RespHeader := list_to_map header;
     Go.RespBody := {| Go.body_bytes := text; Go.body_err := None |} |}.

(** [url.Parse], as far as the examples need it: a URL that holds an ASCII
    control character is refused, every other is taken. *)
Definition go_url_Parse (u : string) : option Go.error :=
  if existsb (fun c => (Regexp.code c <? 32) || (Regexp.code c =? 127))
       (list_ascii_of_string u)
  then Some (Go.errLibrary "net/url" "invalid control character in URL")
  else None.

(** The libraries, with a server that answers [response] to everything. *)
Definition go_libs (response : Go.Response) : Go.Libs :=
  {| Go.JSON := string;
     Go.url_Parse := go_url_Parse;
     Go.roundTrip := fun _ _ => Go.Ok response;
     Go.json_Marshal := go_json_Marshal;
     Go.json_Decode := go_json_Decode;
     Go.prettyjson_Marshal := fun j => j |}.

(** A client as [Init("http://localhost:5000", 5000, 3)] leaves it, holding
    the session token [t], and a world in which nothing has happened. *)
Definition go_client (t : string) : Go.Bassa :=
  {| Go.apiURL := "http://localhost:5000";
     Go.token := t;
     Go.timeout := 5000;
     Go.retryCount := 3;
     Go.httpClient := Some {| Go.httpTimeout := 5000000000; Go.httpRetryCount := 3;
                              Go.backoffInterval := 10000000;
                              Go.backoffMaxJitter := 50000000 |} |}.
Definition go_state (t : string) : Go.State :=
  {| Go.self := go_client t; Go.sent := []; Go.stdout := [] |}.

(** **** JavaScript *)

(** [JSON.stringify] on an object literal: properties whose value is
    [undefined] are left out, array elements are rendered flat. *)
Definition js_scalar (v : JS.value) : string :=
  match v with
  | JS.Str s => quote s
  | JS.Undefined | JS.Null | JS.Arr _ => "null"
  | _ => JS.ToString v
  end.

Fixpoint js_elements (xs : list JS.value) : string :=
  match xs with
  | [] => ""
  | [x] => js_scalar x
  | x :: rest => js_scalar x +:+ "," +:+ js_elements rest
  end.

Definition js_render (v : JS.value) : string :=
  match v with
  | JS.Arr xs => "[" +:+ js_elements xs +:+ "]"
  | _ => js_scalar v
  end.

Definition js_JSON_stringify (props : list (string * JS.value)) : string :=
  "{" +:+ members (map (fun kv => (fst kv, js_render (snd kv)))
                       (List.filter
                          (fun kv => match snd kv with
                                     | JS.Undefined => false
                                     | _ => true
                                     end) props))
      +:+ "}".

Definition js_response_json (r : JS.Response) : string + JS.error :=
  if known_document (JS.body r) then inl (JS.body r)
  else inr (JS.LibraryError "SyntaxError" "Unexpected token").

Definition js_response (code : Z) (header : list (string * string))
  (text : string) : JS.Response :=
  {| JS.status := code; JS.response_headers := list_to_map header;
     JS.body := text |}.

(** [new URL] on a base, as far as the examples need it: a base whose port
    is above 65535 is refused with a [TypeError], every other is taken. *)
Fixpoint authority (s : string) : string :=
  match s with
  | EmptyString => EmptyString
  | String c s' =>
      if Regexp.one_of "/?#" c then EmptyString else String c (authority s')
  end.

Fixpoint port_from (seen : option Z) (s : string) : option Z :=
  match s with
  | EmptyString => seen
  | String c s' =>
      if Ascii.eqb c ":" then port_from (Some 0) s'
      else
        match seen with
        | Some n =>
            if Regexp.is_digit c
            then port_from (Some (10 * n + (Regexp.code c - 48))) s'
            else port_from None s'
        | None => port_from None s'
        end
  end.

Definition after_scheme (base : string) : string :=
  match String.index 0 "://" base with
  | Some i => String.substring (i + 3) (String.length base - (i + 3)) base
  | None => base
  end.

Definition js_URL_error (base : string) : option string :=
  match port_from None (authority (after_scheme base)) with
  | Some n => if 65535 <? n then Some "Invalid URL" else None
  | None => None
  end.

Definition js_libs (response : JS.Response) : JS.Libs :=
  {| JS.JSON := string;
     JS.URL_error := js_URL_error;
     JS.axios_request := fun _ _ => inl response;
     JS.response_json := js_response_json;
     JS.JSON_stringify := js_JSON_stringify |}.

(** The client [new Bassa("http://localhost:5000")] builds. *)
Definition js_client : JS.Bassa :=
  {| JS.apiUrl := "http://localhost:5000";
     JS.this_headers :=
       {[ "Content-Type" := JS.Str "application/x-www-form-urlencoded" ]};
     JS.http := {| JS.baseURL := "http://localhost:5000";
                   JS.axios_timeout := 5000;
                   JS.httpAgent := {| JS.total := 1; JS.backoffFactor := 1;
                                      JS.retry := [429; 500; 502; 503; 504] |} |} |}.
Definition js_state : JS.State := {| JS.self := js_client; JS.sent := [] |}.

(** The client [new Bassa("http://localhost:99999")] builds: the pattern of
    the constructor takes the base URL, [new URL] does not. *)
Definition js_client_99999 : JS.Bassa :=
  {| JS.apiUrl := "http://localhost:99999";
     JS.this_headers :=
       {[ "Content-Type" := JS.Str "application/x-www-form-urlencoded" ]};
     JS.http := {| JS.baseURL := "http://localhost:99999";
                   JS.axios_timeout := 5000;
                   JS.httpAgent := {| JS.total := 1; JS.backoffFactor := 1;
                                      JS.retry := [429; 500; 502; 503; 504] |} |} |}.

End Demo.

(** * Vocabulary of the properties

    The requests, states and classifications the statements below are
    written with. *)


(** The string arguments a JavaScript call requires (for [startCompression],
    the list of group identifiers). *)
Definition JS_required (c : JS.call) : list JS.value :=
  match c with
  | JS.Clogin u p => [u; p]
  | JS.CaddRegularUserRequest u p e => [u; p; e]
  | JS.CaddUserRequest u p e _ => [u; p; e]
  | JS.CremoveUserRequest u => [u]
  | JS.CupdateUserRequest u n p _ e => [u; n; p; e]
  | JS.CapproveUserRequest u | JS.CblockUserRequest u
  | JS.CunblockUserRequest u => [u]
  | JS.CaddDownloadRequest l => [l]
  | JS.CremoveDownloadRequest i => [i]
  | JS.CrateDownloadRequest i r => [i; r]
  | JS.CgetDownload i => [i]
  | JS.CstartCompression g => [g]
  | JS.CgetCompressionProgress i => [i]
  | JS.CsendFileFromPath i => [i]
  | JS.CgetUserRequest | JS.CgetUserSignupRequests
  | JS.CgetBlockedUsersRequest | JS.CgetDownloadsUserRequest _
  | JS.CgetToptenHeaviestUsers | JS.CstartDownload _ | JS.CkillDownload _
  | JS.CgetDownloadsRequest _ => []
  end.


(** The methods that build the request URL before they check their
    arguments. *)
Definition JS_url_first (c : JS.call) : bool :=
  match c with
  | JS.Clogin _ _ | JS.CaddRegularUserRequest _ _ _
  | JS.CaddUserRequest _ _ _ _ => true
  | _ => false
  end.

(** The arguments of a JavaScript call, and the calls whose Numbers are all
    safe integers. *)
Definition JS_arguments (c : JS.call) : list JS.value :=
  match c with
  | JS.Clogin u p => [u; p]
  | JS.CaddRegularUserRequest u p e => [u; p; e]
  | JS.CaddUserRequest u p e a => [u; p; e; a]
  | JS.CremoveUserRequest u => [u]
  | JS.CupdateUserRequest u n p a e => [u; n; p; a; e]
  | JS.CapproveUserRequest u | JS.CblockUserRequest u
  | JS.CunblockUserRequest u => [u]
  | JS.CgetDownloadsUserRequest l => [l]
  | JS.CstartDownload k | JS.CkillDownload k => [k]
  | JS.CaddDownloadRequest l => [l]
  | JS.CremoveDownloadRequest i => [i]
  | JS.CrateDownloadRequest i r => [i; r]
  | JS.CgetDownloadsRequest l => [l]
  | JS.CgetDownload i => [i]
  | JS.CstartCompression g => [g]
  | JS.CgetCompressionProgress i => [i]
  | JS.CsendFileFromPath i => [i]
  | JS.CgetUserRequest | JS.CgetUserSignupRequests
  | JS.CgetBlockedUsersRequest | JS.CgetToptenHeaviestUsers => []
  end.
Definition JS_safe (c : JS.call) : bool := forallb JS.safe (JS_arguments c).

(** The error a JavaScript call throws on a missing argument:
    [IncompleteParams] in the user functions and [addDownloadRequest], an
    [Error] naming the argument in the other download and file functions. *)
Definition JS_missing_argument_error (c : JS.call) : JS.error :=
  match c with
  | JS.CremoveDownloadRequest _ => JS.Error "ID is required to remove download"
  | JS.CrateDownloadRequest _ _ => JS.Error "ID and rate are required to rate download"
  | JS.CgetDownloadsRequest _ => JS.Error "Limit is required to get downloads"
  | JS.CgetDownload _ => JS.Error "ID is required to get download"
  | JS.CstartCompression _ => JS.Error "GID list is required to start compression"
  | JS.CgetCompressionProgress _ => JS.Error "ID is required to get compression progress"
  | JS.CsendFileFromPath _ => JS.Error "ID is required to send file from path"
  | _ => JS.IncompleteParams
  end.

(** What a JavaScript call whose argument check fails throws: the error of
    the check, or, in the methods that build the URL first, the error of
    [new URL] when the base URL is one it rejects. *)
Definition JS_thrown_on_invalid (L : JS.Libs) (b : JS.Bassa) (c : JS.call)
  : JS.error :=
  match JS.URL_error L (JS.apiUrl b) with
  | Some message =>
      if JS_url_first c then JS.TypeError message
      else JS_missing_argument_error c
  | None => JS_missing_argument_error c
  end.

(** The request [Login] passes to [http.PostForm]. *)
Definition Go_login_request (b : Go.Bassa) (userName password : string)
  : Go.Request :=
  {| Go.Method := "POST";
     Go.URL := Go.apiURL b +:+ "/api/login";
     Go.ReqHeader := {[ "Content-Type" := ["application/x-www-form-urlencoded"] ]};
     Go.ReqBody := Go.FormPayload [("user_name", userName); ("password", password)] |}.

(** The request [login] makes. *)
Definition JS_login_request (b : JS.Bassa) (user_name password : JS.value)
  : JS.Request :=
  {| JS.method := "POST";
     JS.url := JS.URL_of "/api/login" (JS.apiUrl b);
     JS.data := JS.FormData [("user_name", JS.ToString user_name);
                             ("password", JS.ToString password)];
     JS.headers := JS.this_headers b |}.

(** The client object with one more stored header. *)
Definition JS_with_header (b : JS.Bassa) (name : string) (v : JS.value)
  : JS.Bassa :=
  {| JS.apiUrl := JS.apiUrl b;
     JS.this_headers := <[name := v]> (JS.this_headers b);
     JS.http := JS.http b |}.

Definition Go_with_token (b : Go.Bassa) (t : string) : Go.Bassa :=
  {| Go.apiURL := Go.apiURL b; Go.token := t; Go.timeout := Go.timeout b;
     Go.retryCount := Go.retryCount b; Go.httpClient := Go.httpClient b |}.

(** The state after one more call to a transport. *)
Definition Go_after (s : Go.State) (b : Go.Bassa) (c : Go.Client)
  (r : Go.Request) (printed : list string) : Go.State :=
  {| Go.self := b; Go.sent := Go.sent s ++ [(c, r)];
     Go.stdout := Go.stdout s ++ printed |}.
Definition JS_after (s : JS.State) (b : JS.Bassa) (r : JS.Request) : JS.State :=
  {| JS.self := b; JS.sent := JS.sent s ++ [r] |}.

(** What a JavaScript method does with the response it is given. *)
Inductive JS_handler : Type :=
| LoginHandler                     (* stores the token, see above *)
| PassThrough                      (* no [then]: the transport's promise is returned *)
| StatusChecked (what : string)    (* 200: parse; otherwise Error(what + status) *)
| StatusCheckedSilently (message : string).  (* 200: parse; otherwise Error(message) *)

Definition JS_handler_of (c : JS.call) : JS_handler :=
  match c with
  | JS.Clogin _ _ => LoginHandler
  | JS.CaddRegularUserRequest _ _ _ | JS.CaddUserRequest _ _ _ _
  | JS.CremoveUserRequest _ | JS.CupdateUserRequest _ _ _ _ _
  | JS.CapproveUserRequest _ | JS.CblockUserRequest _
  | JS.CunblockUserRequest _ => PassThrough
  | JS.CgetUserRequest | JS.CgetUserSignupRequests
  | JS.CgetBlockedUsersRequest | JS.CgetDownloadsUserRequest _
  | JS.CgetToptenHeaviestUsers | JS.CstartDownload _ | JS.CkillDownload _ =>
      StatusChecked "Request failed with status "
  | JS.CaddDownloadRequest _ =>
      StatusCheckedSilently "Add download was not successful"
  | JS.CremoveDownloadRequest _ =>
      StatusChecked "Remove download failed with status "
  | JS.CrateDownloadRequest _ _ =>
      StatusChecked "Rate download failed with status "
  | JS.CgetDownloadsRequest _ =>
      StatusChecked "Get downloads failed with status "
  | JS.CgetDownload _ => StatusChecked "Get download failed with status "
  | JS.CstartCompression _ =>
      StatusChecked "Start compression failed with status "
  | JS.CgetCompressionProgress _ =>
      StatusChecked "Get compression progress failed with status "
  | JS.CsendFileFromPath _ =>
      StatusChecked "Send file from path failed with status "
  end.

(** The promise of [response.json()]. *)
Definition JS_parsed (L : JS.Libs) (response : JS.Response)
  : JS.completion (JS.settled L) :=
  match JS.response_json L response with
  | inl j => JS.Fulfilled (JS.Parsed j)
  | inr e => JS.Rejected e
  end.

(** The same Go libraries, with every response given status [k]. *)
Definition Go_set_status (k : Z) (r : Go.Response) : Go.Response :=
  {| Go.StatusCode := k; Go.RespHeader := Go.RespHeader r;
     Go.RespBody := Go.RespBody r |}.

Definition Go_answering_status (k : Z) (L : Go.Libs) : Go.Libs :=
  {| Go.JSON := Go.JSON L;
     Go.url_Parse := Go.url_Parse L;
     Go.roundTrip := fun c r =>
       match Go.roundTrip L c r with
       | Go.Ok response => Go.Ok (Go_set_status k response)
       | Go.Err e => Go.Err e
       end;
     Go.json_Marshal := Go.json_Marshal L;
     Go.json_Decode := Go.json_Decode L;
     Go.prettyjson_Marshal := Go.prettyjson_Marshal L |}.

(** The request a Go method other than [Login] sends. *)
Definition Go_request (b : Go.Bassa) (method url : string) (body : Go.Payload)
  : Go.Request :=
  {| Go.Method := method; Go.URL := url;
     Go.ReqHeader := {[ "Token" := [Go.token b] ]}; Go.ReqBody := body |}.

(** How a call with handler [h], answered [response], settles. *)
Definition JS_settles (L : JS.Libs) (h : JS_handler) (response : JS.Response)
  (result : JS.completion (JS.settled L)) : Prop :=
  match h with
  | LoginHandler => True
  | PassThrough => result = JS.Fulfilled (JS.TheResponse response)
  | StatusChecked what =>
      (JS.status response = 200 -> result = JS_parsed L response)
      /\ (JS.status response <> 200 ->
          result = JS.Rejected (JS.Error (what +:+ decimal (JS.status response)))
          /\ JS.carries_status
               (JS.Error (what +:+ decimal (JS.status response)))
               (JS.status response))
  | StatusCheckedSilently message =>
      (JS.status response = 200 -> result = JS_parsed L response)
      /\ (JS.status response <> 200 ->
          result = JS.Rejected (JS.Error message))
  end.

(** The request of each JavaScript method, as the table of the interface
    gives it: HTTP method, path, query and body.  The path is the input of
    [new URL] against the base URL. *)
Definition JS_path (prefix : string) (v : JS.value) : string :=
  prefix +:+ JS.ToString v.

Definition JS_wire (L : JS.Libs) (c : JS.call)
  : string * string * list (string * string) * JS.Data :=
  match c with
  | JS.Clogin u p =>
      ("POST", "/api/login", [],
       JS.FormData [("user_name", JS.ToString u); ("password", JS.ToString p)])
  | JS.CaddRegularUserRequest u p e =>
      ("POST", "/api/regularuser", [],
       JS.FormData [("user_name", JS.ToString u); ("password", JS.ToString p);
                    ("email", JS.ToString e)])
  | JS.CaddUserRequest u p e a =>
      ("POST", "/api/user", [],
       JS.FormData [("user_name", JS.ToString u); ("password", JS.ToString p);
                    ("email", JS.ToString e);
                    ("auth", JS.ToString (JS.or_default (JS.Num 1) a))])
  | JS.CremoveUserRequest u => ("DELETE", JS_path "/api/user/" u, [], JS.NoData)
  | JS.CupdateUserRequest u n p a e =>
      ("PUT", JS_path "/api/user/" u, [],
       JS.FormData [("user_name", JS.ToString n); ("password", JS.ToString p);
                    ("auth_level", JS.ToString a); ("email", JS.ToString e)])
  | JS.CgetUserRequest => ("GET", "/api/user", [], JS.NoData)
  | JS.CgetUserSignupRequests => ("GET", "/api/user/requests", [], JS.NoData)
  | JS.CapproveUserRequest u =>
      ("POST", JS_path "/api/user/approve/" u, [], JS.NullData)
  | JS.CgetBlockedUsersRequest => ("GET", "/api/user/blocked", [], JS.NoData)
  | JS.CblockUserRequest u =>
      ("POST", JS_path "/api/user/blocked/" u, [], JS.NullData)
  | JS.CunblockUserRequest u =>
      ("DELETE", JS_path "/api/user/blocked/" u, [], JS.NoData)
  | JS.CgetDownloadsUserRequest l =>
      ("GET", JS_path "/api/user/downloads/" (JS.or_default (JS.Num 1) l), [],
       JS.NoData)
  | JS.CgetToptenHeaviestUsers => ("GET", "/api/user/heavy", [], JS.NoData)
  | JS.CstartDownload _ => ("GET", "/api/download/start", [], JS.NoData)
  | JS.CkillDownload _ => ("GET", "/api/download/kill", [], JS.NoData)
  | JS.CaddDownloadRequest l =>
      ("POST", "/api/download", [],
       JS.TextData (JS.JSON_stringify L [("link", l)]))
  | JS.CremoveDownloadRequest i =>
      ("DELETE", JS_path "/api/download/" i, [], JS.NoData)
  | JS.CrateDownloadRequest i r =>
      ("POST", JS_path "/api/download/" i, [],
       JS.TextData (JS.JSON_stringify L [("rate", r)]))
  | JS.CgetDownloadsRequest l => ("GET", JS_path "/api/downloads/" l, [], JS.NoData)
  | JS.CgetDownload i => ("GET", JS_path "/api/download/" i, [], JS.NoData)
  | JS.CstartCompression g =>
      ("POST", "/api/compress", [],
       JS.TextData (JS.JSON_stringify L [("gid", g)]))
  | JS.CgetCompressionProgress i =>
      ("GET", JS_path "/api/compression-progress/" i, [], JS.NoData)
  | JS.CsendFileFromPath i =>
      ("GET", "/api/file", [("gid", JS.ToString i)], JS.NoData)
  end.

(** The headers the client holds once the synchronous part of a call is
    over: [startDownload] and [killDownload] store the server key. *)
Definition JS_headers_after (c : JS.call) (h : gmap string JS.value)
  : gmap string JS.value :=
  match c with
  | JS.CstartDownload k | JS.CkillDownload k =>
      <["key" := JS.or_default (JS.Str "123456789") k]> h
  | _ => h
  end.

Definition JS_request_of (L : JS.Libs) (b : JS.Bassa) (c : JS.call)
  : JS.Request :=
  match JS_wire L c with
  | (method, path, query, data) =>
      {| JS.method := method;
         JS.url := {| JS.url_input := path; JS.url_base := JS.apiUrl b;
                      JS.url_searchParams := query |};
         JS.data := data;
         JS.headers := JS_headers_after c (JS.this_headers b) |}
  end.

(** The argument checks of a JavaScript call, as one test. *)
Definition JS_valid (c : JS.call) : bool :=
  match c with
  | JS.CupdateUserRequest u n p a e =>
      JS.truthy u && JS.truthy n && JS.truthy p && negb (JS.nullish a)
      && JS.truthy e
  | JS.CgetDownloadsRequest l => negb (JS.nullish l)
  | JS.CstartCompression g => JS.truthy g && negb (JS.length_is_zero g)
  | _ => forallb JS.truthy (JS_required c)
  end.

(** The body the interface gives to the JavaScript methods that have one. *)
Definition JS_body (L : JS.Libs) (c : JS.call) : option JS.Data :=
  match c with
  | JS.Clogin u p =>
      Some (JS.FormData [("user_name", JS.ToString u);
                         ("password", JS.ToString p)])
  | JS.CaddRegularUserRequest u p e =>
      Some (JS.FormData [("user_name", JS.ToString u);
                         ("password", JS.ToString p);
                         ("email", JS.ToString e)])
  | JS.CaddUserRequest u p e a =>
      Some (JS.FormData [("user_name", JS.ToString u);
                         ("password", JS.ToString p);
                         ("email", JS.ToString e);
                         ("auth", JS.ToString (JS.or_default (JS.Num 1) a))])
  | JS.CupdateUserRequest u n p a e =>
      Some (JS.FormData [("user_name", JS.ToString n);
                         ("password", JS.ToString p);
                         ("auth_level", JS.ToString a);
                         ("email", JS.ToString e)])
  | JS.CaddDownloadRequest l =>
      Some (JS.TextData (JS.JSON_stringify L [("link", l)]))
  | JS.CrateDownloadRequest i r =>
      Some (JS.TextData (JS.JSON_stringify L [("rate", r)]))
  | JS.CstartCompression g =>
      Some (JS.TextData (JS.JSON_stringify L [("gid", g)]))
  | _ => None
  end.

(** The text [fmt.Sprintf] builds in [AddUserRequest] and
    [UpdateUserRequest]. *)
Definition Go_user_text (userName password email field : string) (level : Z)
  : string :=
  "{user_name:" +:+ dquote +:+ userName +:+ dquote +:+
  ", password: " +:+ dquote +:+ password +:+ dquote +:+
  ", email: " +:+ dquote +:+ email +:+ dquote +:+
  ", " +:+ field +:+ ": " +:+ decimal level +:+ "}".

(** The method, URL and body of the three Go methods that write a user. *)
Definition Go_user_write (L : Go.Libs) (b : Go.Bassa) (c : Go.call)
  : option (string * string * Go.result string) :=
  match c with
  | Go.CAddRegularUserRequest u p e =>
      Some ("POST", Go.apiURL b +:+ "/api/regularuser",
            Go.json_Marshal L (list_to_map [("user_name", u); ("password", p);
                                            ("email", e)]))
  | Go.CAddUserRequest u p e a =>
      Some ("POST", Go.apiURL b +:+ "/api/user",
            Go.Ok (Go_user_text u p e "auth" a))
  | Go.CUpdateUserRequest u n p a e =>
      Some ("PUT", Go.apiURL b +:+ "/api/user/" +:+ u,
            Go.Ok (Go_user_text n p e "auth_level" a))
  | _ => None
  end.

Definition JS_takes_email (c : JS.call) : bool :=
  match c with
  | JS.CaddRegularUserRequest _ _ _ | JS.CaddUserRequest _ _ _ _
  | JS.CupdateUserRequest _ _ _ _ _ => true
  | _ => false
  end.

(** The client [Init] leaves behind. *)
Definition Go_initialized (apiURL : string) (timeout retryCount : Z) : Go.Bassa :=
  {| Go.apiURL := apiURL; Go.token := ""; Go.timeout := timeout;
     Go.retryCount := retryCount;
     Go.httpClient := Some {| Go.httpTimeout := Go.milliseconds timeout;
                              Go.httpRetryCount := retryCount;
                              Go.backoffInterval := Go.milliseconds 10;
                              Go.backoffMaxJitter := Go.milliseconds 50 |} |}.

Definition JS_is_login (c : JS.call) : bool :=
  match c with JS.Clogin _ _ => true | _ => false end.
Definition Go_is_login (c : Go.call) : bool :=
  match c with Go.CLogin _ _ => true | _ => false end.

(** * Vocabulary of the further properties *)

(** A character of the domain of an email: a label character or a dot. *)
Definition domain_char (c : ascii) : bool := Go.label_char c || Ascii.eqb c ".".

(** The argument checks of a Go call, as one test: the required strings
    are non-empty and the email, if any, matches the pattern. *)
Definition Go_checked (c : Go.call) : bool :=
  forallb (fun a => negb (Go.is_empty a)) (Go.required c)
  && match Go.email_of c with
     | Some e => Regexp.matches Go.emailRegexp e
     | None => true
     end.

(** A request by the client's own HTTP client: made when the URL parses
    and the client has been initialised. *)
Definition Go_via (L : Go.Libs) (b : Go.Bassa) (method url : string)
  (body : Go.Payload) : option (Go.Client * Go.Request) :=
  match Go.url_Parse L url, Go.httpClient b with
  | None, Some hc => Some (Go.Heimdall hc, Go_request b method url body)
  | _, _ => None
  end.

(** The request of each Go method: the client that makes it, the HTTP
    method, the URL and the body; [None] when the call makes no request. *)
Definition Go_wire (L : Go.Libs) (b : Go.Bassa) (c : Go.call)
  : option (Go.Client * Go.Request) :=
  if negb (Go_checked c) then None
  else
    match c with
    | Go.CLogin u p =>
        match Go.url_Parse L (Go.apiURL b +:+ "/api/login") with
        | None => Some (Go.DefaultClient, Go_login_request b u p)
        | Some _ => None
        end
    | Go.CAddRegularUserRequest u p e =>
        match Go.json_Marshal L (list_to_map [("user_name", u); ("password", p);
                                              ("email", e)]) with
        | Go.Ok bytes =>
            Go_via L b "POST" (Go.apiURL b +:+ "/api/regularuser")
              (Go.BufferPayload bytes)
        | Go.Err _ => None
        end
    | Go.CAddUserRequest u p e a =>
        Go_via L b "POST" (Go.apiURL b +:+ "/api/user")
          (Go.BufferPayload (Go_user_text u p e "auth" a))
    | Go.CRemoveUserRequest u =>
        Go_via L b "DELETE" (Go.apiURL b +:+ "/api/user/" +:+ u) Go.NoPayload
    | Go.CUpdateUserRequest u n p a e =>
        Go_via L b "PUT" (Go.apiURL b +:+ "/api/user/" +:+ u)
          (Go.BufferPayload (Go_user_text n p e "auth_level" a))
    | Go.CGetUserRequest =>
        Go_via L b "GET" (Go.apiURL b +:+ "/api/user") Go.NoPayload
    | Go.CGetUserSignupRequests =>
        Go_via L b "GET" (Go.apiURL b +:+ "/api/user/requests") Go.NoPayload
    | Go.CApproveUserRequest u =>
        Go_via L b "POST" (Go.apiURL b +:+ "/api/user/approve/" +:+ u) Go.NoPayload
    | Go.CGetBlockedUserRequests =>
        Go_via L b "GET" (Go.apiURL b +:+ "/api/user/blocked") Go.NoPayload
    | Go.CBlockUserRequest u =>
        Go_via L b "POST" (Go.apiURL b +:+ "/api/user/blocked/" +:+ u) Go.NoPayload
    | Go.CUnBlockUserRequest u =>
        Go_via L b "DELETE" (Go.apiURL b +:+ "/api/user/blocked/" +:+ u) Go.NoPayload
    | Go.CGetDownloadUserRequests l =>
        Go_via L b "GET"
          (Go.apiURL b +:+ "/api/user/downloads/"
           +:+ Go.string_of_int (if l =? 0 then 1 else l)) Go.NoPayload
    | Go.CGetToptenHeaviestUsers =>
        Go_via L b "GET" (Go.apiURL b +:+ "/api/user/heavy") Go.NoPayload
    end.

(** The Go methods that decode the response body as JSON: all but
    [Login] and [AddRegularUserRequest]. *)
Definition Go_decodes (c : Go.call) : bool :=
  match c with
  | Go.CLogin _ _ | Go.CAddRegularUserRequest _ _ _ => false
  | _ => true
  end.

(** What a decoding method hands back and what it prints, given the
    pretty-printed text of the decoded body. *)
Definition Go_result (c : Go.call) (out : string) : option string :=
  match c with
  | Go.CRemoveUserRequest _ | Go.CGetUserRequest | Go.CGetUserSignupRequests
  | Go.CGetBlockedUserRequests | Go.CGetDownloadUserRequests _
  | Go.CGetToptenHeaviestUsers => Some out
  | _ => None
  end.

Definition Go_printed (c : Go.call) (out : string) : list string :=
  match c with
  | Go.CRemoveUserRequest _ => []
  | _ => [out]
  end.

(** The client with an HTTP client in place. *)
Definition Go_with_client (b : Go.Bassa) (hc : Go.HTTPClient) : Go.Bassa :=
  {| Go.apiURL := Go.apiURL b; Go.token := Go.token b;
     Go.timeout := Go.timeout b; Go.retryCount := Go.retryCount b;
     Go.httpClient := Some hc |}.

(** A character of a decimal rendering: a digit or the minus sign. *)
Definition sign_or_digit (c : ascii) : bool :=
  Regexp.is_digit c || Ascii.eqb c "-".

(** What separates the user name from the password in the text
    [AddUserRequest] and [UpdateUserRequest] build. *)
Definition Go_field_break : string := dquote +:+ ", password: " +:+ dquote.

(** The client object once the synchronous part of a call is over. *)
Definition JS_client_after (c : JS.call) (b : JS.Bassa) : JS.Bassa :=
  {| JS.apiUrl := JS.apiUrl b;
     JS.this_headers := JS_headers_after c (JS.this_headers b);
     JS.http := JS.http b |}.

(** Calls made one after the other, each settled before the next is made,
    whatever their outcome (the caller catches what is thrown). *)
Fixpoint JS_session (L : JS.Libs) (cs : list JS.call) (s : JS.State) : JS.State :=
  match cs with
  | [] => s
  | c :: cs' => JS_session L cs' (snd (JS.run L c s))
  end.

(** Calls made one after the other in a Go program: the first panic ends
    the program. *)
Fixpoint Go_session (L : Go.Libs) (cs : list Go.call) (s : Go.State) : Go.State :=
  match cs with
  | [] => s
  | c :: cs' =>
      match Go.run L c s with
      | (Go.Returned _, s') => Go_session L cs' s'
      | (Go.Panicked _, s') => s'
      end
  end.

(** The two kinds of request of the Go client. *)
Definition Go_login_shaped (b : Go.Bassa) (cr : Go.Client * Go.Request) : Prop :=
  fst cr = Go.DefaultClient /\ Go.Method (snd cr) = "POST"
  /\ Go.URL (snd cr) = Go.apiURL b +:+ "/api/login"
  /\ Go.ReqHeader (snd cr) !! "Token" = None.
Definition Go_session_shaped (b : Go.Bassa) (cr : Go.Client * Go.Request) : Prop :=
  exists hc t path,
    Go.httpClient b = Some hc /\ fst cr = Go.Heimdall hc
    /\ Go.URL (snd cr) = Go.apiURL b +:+ "/api/" +:+ path
    /\ Go.ReqHeader (snd cr) = {[ "Token" := [t] ]}.

(** The calls that store a server key. *)
Definition JS_stores_key (c : JS.call) : bool :=
  match c with
  | JS.CstartDownload _ | JS.CkillDownload _ => true
  | _ => false
  end.

(** * Properties *)

(** ** Tactics

    The methods are straight-line code behind a few guards; the proofs unfold
    them and split on the guards and on the answers of the libraries. *)


(** Case analysis on the truthiness tests that guard a JavaScript method. *)
Ltac js_guards :=
  repeat match goal with
         | H : JS.truthy ?v = _ |- context [JS.truthy ?v] => rewrite H; simpl
         | |- context [JS.truthy ?v] =>
             let E := fresh "E" in destruct (JS.truthy v) eqn:E; simpl
         | |- context [JS.nullish ?v] =>
             let E := fresh "E" in destruct (JS.nullish v) eqn:E; simpl
         end.

Ltac js_unfold :=
  unfold JS.run, JS.nothing, JS.raw, JS.parsed,
    JS.login, JS.addRegularUserRequest, JS.addUserRequest,
    JS.removeUserRequest, JS.updateUserRequest, JS.getUserRequest,
    JS.getUserSignupRequests, JS.approveUserRequest,
    JS.getBlockedUsersRequest, JS.blockUserRequest, JS.unblockUserRequest,
    JS.getDownloadsUserRequest, JS.getToptenHeaviestUsers, JS.startDownload,
    JS.killDownload, JS.addDownloadRequest, JS.removeDownloadRequest,
    JS.rateDownloadRequest, JS.getDownloadsRequest, JS.getDownload,
    JS.startCompression, JS.getCompressionProgress, JS.sendFileFromPath,
    JS.new_URL, JS.bind, JS.this, JS.throw, JS.reject, JS.ret.

Ltac js_helpers :=
  unfold JS.http_get, JS.http_post, JS.http_put, JS.http_delete,
    JS.http_request, JS.json_or_status, JS.json, JS.set_this_header,
    JS.reject, JS.ret;
  cbn [JS.self JS.sent JS.this_headers JS.http JS.apiUrl].

(** Case analysis on what the libraries answer to a JavaScript method. *)
Ltac js_cases :=
  repeat (cbn beta iota;
          match goal with
          | H : JS.URL_error ?l ?b = _
            |- context [match JS.URL_error ?l ?b with _ => _ end] => rewrite H
          | |- context [match JS.URL_error ?l ?b with _ => _ end] =>
              destruct (JS.URL_error l b) eqn:?
          | |- context [if ?b then _ else _] => destruct b eqn:?
          | |- context [match JS.axios_request ?l ?i ?r with _ => _ end] =>
              destruct (JS.axios_request l i r) eqn:?
          | |- context [match JS.response_json ?l ?r with _ => _ end] =>
              destruct (JS.response_json l r) eqn:?
          end).

Ltac go_unfold :=
  unfold Go.run, Go.discard, Go.text, Go.Login, Go.AddRegularUserRequest,
    Go.AddUserRequest, Go.RemoveUserRequest, Go.UpdateUserRequest,
    Go.GetUserRequest, Go.GetUserSignupRequests, Go.ApproveUserRequest,
    Go.GetBlockedUserRequests, Go.BlockUserRequest, Go.UnBlockUserRequest,
    Go.GetDownloadUserRequests, Go.GetToptenHeaviestUsers,
    Go.get_and_print, Go.user_action, Go.send, Go.decode_pretty,
    Go.http_PostForm, Go.http_NewRequest, Go.httpClient_Do, Go.client_Do,
    Go.ReadAll_or_panic, Go.must, Go.index0, Go.set_token, Go.Println,
    Go.get_self, Go.put_self, Go.bind, Go.panic, Go.ret.

Ltac go_cases L :=
  repeat (cbn beta iota;
          cbn [Go.url_Parse Go.roundTrip Go.json_Marshal Go.json_Decode
               Go.prettyjson_Marshal Go.JSON Go.self Go.sent Go.stdout
               Go.RespBody Go.RespHeader Go_set_status orb negb];
          match goal with
          | |- context [Go.is_empty ""] =>
              change (Go.is_empty "") with true
          | |- context [Go.is_empty ?a] => destruct (Go.is_empty a) eqn:?
          | |- context [Z.eqb ?a ?b] => destruct (Z.eqb a b) eqn:?
          | |- context [Go.validateFormat ?e] =>
              destruct (Go.validateFormat e) eqn:?
          | |- context [Go.url_Parse L ?u] => destruct (Go.url_Parse L u) eqn:?
          | |- context [Go.httpClient ?b] => destruct (Go.httpClient b) eqn:?
          | |- context [Go.roundTrip L ?c ?r] =>
              destruct (Go.roundTrip L c r) eqn:?
          | |- context [Go.json_Marshal L ?m] =>
              destruct (Go.json_Marshal L m) eqn:?
          | |- context [Go.json_Decode L ?b] =>
              destruct (Go.json_Decode L b) eqn:?
          | |- context [Go.body_err ?b] => destruct (Go.body_err b) eqn:?
          | |- context [Go.header_get ?h ?k] =>
              destruct (Go.header_get h k) eqn:?
          end).

(** ** Facts shared by the properties *)


Lemma Go_is_empty_iff (a : string) : Go.is_empty a = true <-> a = "".
Proof. unfold Go.is_empty. apply String.eqb_eq. Qed.

Lemma Go_is_empty_false (a : string) : a <> "" -> Go.is_empty a = false.
Proof.
  intros H. destruct (Go.is_empty a) eqn:E; [ | reflexivity ].
  apply Go_is_empty_iff in E. contradiction.
Qed.

Lemma Go_required_nonempty (c : Go.call) (a : string) :
  Forall (fun a => a <> "") (Go.required c) -> In a (Go.required c) ->
  Go.is_empty a = false.
Proof.
  intros Hall Hin. apply Go_is_empty_false.
  rewrite Forall_forall in Hall. apply Hall. apply list_elem_of_In. exact Hin.
Qed.

(** A call that does not throw makes exactly one request, the one of the
    table. *)
Lemma JS_run_sends (L : JS.Libs) (c : JS.call) (s : JS.State) :
  (forall e, fst (JS.run L c s) <> JS.Thrown e) ->
  JS.sent (snd (JS.run L c s)) = (JS.sent s ++ [JS_request_of L (JS.self s) c])%list.
Proof.
  destruct c; js_unfold; js_helpers; js_cases;
    cbn [fst snd JS.sent]; intros Hthrow;
    try reflexivity;
    exfalso; eapply Hthrow; reflexivity.
Qed.

(** A call whose arguments pass the checks, on a base URL [new URL] takes,
    does not throw. *)
Lemma JS_valid_not_thrown (L : JS.Libs) (c : JS.call) (s : JS.State) :
  JS_valid c = true -> JS.URL_error L (JS.apiUrl (JS.self s)) = None ->
  forall e, fst (JS.run L c s) <> JS.Thrown e.
Proof.
  intros Hv Hurl. revert Hv.
  destruct c; cbn [JS_valid JS_required forallb]; js_unfold; js_helpers;
    rewrite ?Hurl;
    repeat match goal with
           | |- context [JS.truthy ?v] => destruct (JS.truthy v)
           | |- context [JS.nullish ?v] => destruct (JS.nullish v)
           | |- context [JS.length_is_zero ?v] => destruct (JS.length_is_zero v)
           end;
    cbn [negb orb andb]; intros Hv e; try discriminate Hv;
    js_cases; cbn [fst]; discriminate.
Qed.

(** On a base URL [new URL] rejects, a call whose arguments pass the checks
    throws what [new URL] throws. *)
Lemma JS_valid_unparsed_thrown (L : JS.Libs) (c : JS.call) (s : JS.State)
  (message : string) :
  JS_valid c = true -> JS.URL_error L (JS.apiUrl (JS.self s)) = Some message ->
  fst (JS.run L c s) = JS.Thrown (JS.TypeError message).
Proof.
  intros Hv Hurl. revert Hv.
  destruct c; cbn [JS_valid JS_required forallb]; js_unfold; js_helpers;
    rewrite ?Hurl;
    repeat match goal with
           | |- context [JS.truthy ?v] => destruct (JS.truthy v)
           | |- context [JS.nullish ?v] => destruct (JS.nullish v)
           | |- context [JS.length_is_zero ?v] => destruct (JS.length_is_zero v)
           end;
    cbn [negb orb andb]; intros Hv; try discriminate Hv;
    rewrite ?Hurl; reflexivity.
Qed.

(** A call whose arguments fail the checks throws, and what it throws is
    [JS_thrown_on_invalid]. *)
Lemma JS_invalid_thrown (L : JS.Libs) (c : JS.call) (s : JS.State) :
  JS_valid c = false ->
  fst (JS.run L c s) = JS.Thrown (JS_thrown_on_invalid L (JS.self s) c).
Proof.
  unfold JS_thrown_on_invalid.
  destruct c;
    cbn [JS_valid JS_required forallb JS_missing_argument_error JS_url_first];
    js_unfold; js_helpers;
    repeat match goal with
           | |- context [JS.truthy ?v] => destruct (JS.truthy v)
           | |- context [JS.nullish ?v] => destruct (JS.nullish v)
           | |- context [JS.length_is_zero ?v] => destruct (JS.length_is_zero v)
           end;
    cbn [negb orb andb]; intros Hv; try discriminate Hv;
    destruct (JS.URL_error L _); reflexivity.
Qed.

(** A call that throws has made no request and changed nothing. *)
Lemma JS_thrown_unchanged (L : JS.Libs) (c : JS.call) (s : JS.State) (e : JS.error) :
  fst (JS.run L c s) = JS.Thrown e -> snd (JS.run L c s) = s.
Proof.
  destruct c; js_unfold; js_helpers; js_cases;
    cbn [fst snd]; intros Hthrow;
    try reflexivity; discriminate Hthrow.
Qed.

Lemma JS_valid_unparsed_run (L : JS.Libs) (c : JS.call) (s : JS.State)
  (message : string) :
  JS_valid c = true -> JS.URL_error L (JS.apiUrl (JS.self s)) = Some message ->
  JS.run L c s = (JS.Thrown (JS.TypeError message), s).
Proof.
  intros Hv Hurl.
  pose proof (JS_valid_unparsed_thrown L c s message Hv Hurl) as Hthrown.
  pose proof (JS_thrown_unchanged L c s _ Hthrown) as Hsame.
  destruct (JS.run L c s) as [result s']. cbn [fst snd] in *.
  subst. reflexivity.
Qed.

(** [login] builds its URL first: on a base URL [new URL] rejects it
    throws, whatever its arguments. *)
Lemma JS_login_unparsed (L : JS.Libs) (user_name password : JS.value)
  (s : JS.State) (message : string) :
  JS.URL_error L (JS.apiUrl (JS.self s)) = Some message ->
  JS.login L user_name password s = (JS.Thrown (JS.TypeError message), s).
Proof.
  intros Hurl. unfold JS.login, JS.bind, JS.this, JS.new_URL, JS.throw.
  cbn [JS.self]. rewrite Hurl. reflexivity.
Qed.

(** Every request a JavaScript call makes carries the headers stored in
    the client when the call starts, but for the [key] header that
    [startDownload] and [killDownload] store first. *)
Lemma JS_requests_carry_stored_headers (L : JS.Libs) (c : JS.call) (s : JS.State) :
  exists reqs : list JS.Request,
    JS.sent (snd (JS.run L c s)) = (JS.sent s ++ reqs)%list
    /\ (length reqs <= 1)%nat
    /\ Forall (fun r => forall name, name <> "key" ->
                 JS.headers r !! name = JS.this_headers (JS.self s) !! name) reqs.
Proof.
  assert (Hnone : exists reqs : list JS.Request,
             JS.sent s = (JS.sent s ++ reqs)%list /\ (length reqs <= 1)%nat
             /\ Forall (fun r => forall name, name <> "key" ->
                   JS.headers r !! name = JS.this_headers (JS.self s) !! name) reqs).
  { exists []. rewrite app_nil_r. repeat split; [ simpl; lia | constructor ]. }
  destruct c; js_unfold; js_helpers; js_cases;
    cbn [snd JS.sent JS.self JS.this_headers];
    try exact Hnone;
    (eexists [_]; split; [ reflexivity | ];
     split; [ simpl; lia | ];
     constructor; [ | constructor ];
     intros name Hname; cbn [JS.headers];
     try reflexivity; rewrite lookup_insert_ne by congruence; reflexivity).
Qed.

(** [Login] up to the header read: the form is posted by the default
    client, and a transport error panics. *)
Lemma Go_Login_posts (L : Go.Libs) (userName password : string) (s : Go.State)
  (response : Go.Response) :
  userName <> "" -> password <> "" ->
  Go.url_Parse L (Go.apiURL (Go.self s) +:+ "/api/login") = None ->
  Go.roundTrip L Go.DefaultClient
    (Go_login_request (Go.self s) userName password) = Go.Ok response ->
  Go.Login L userName password s =
  Go.bind (Go.index0 (Go.header_get (Go.RespHeader response) "Token"))
    (fun tok => Go.bind (Go.set_token tok)
       (fun _ => Go.bind (Go.ReadAll_or_panic (Go.RespBody response))
          (fun _ => Go.ret tt)))
    (Go_after s (Go.self s) Go.DefaultClient
       (Go_login_request (Go.self s) userName password) []).
Proof.
  intros Hu Hp Hurl Hrt.
  unfold Go.Login. rewrite (Go_is_empty_false _ Hu), (Go_is_empty_false _ Hp).
  cbn [orb].
  unfold Go.bind at 1. unfold Go.get_self at 1. cbn [Go.self].
  unfold Go.bind at 1.
  unfold Go.http_PostForm, Go.http_NewRequest. rewrite Hurl.
  unfold Go.client_Do.
  change (Go.set_header _ "Content-Type" "application/x-www-form-urlencoded")
    with (Go_login_request (Go.self s) userName password).
  rewrite Hrt. unfold Go.bind at 1. cbn [Go.must Go.ret].
  unfold Go_after. rewrite app_nil_r. reflexivity.
Qed.

Lemma Go_Login_sends (L : Go.Libs) (userName password : string) (s : Go.State) :
  userName <> "" -> password <> "" ->
  Go.url_Parse L (Go.apiURL (Go.self s) +:+ "/api/login") = None ->
  Go.sent (snd (Go.Login L userName password s))
  = (Go.sent s ++ [(Go.DefaultClient,
                    Go_login_request (Go.self s) userName password)])%list.
Proof.
  intros Hu Hp Hurl.
  go_unfold. rewrite (Go_is_empty_false _ Hu), (Go_is_empty_false _ Hp).
  cbn [orb]. cbn beta iota. cbn [Go.self]. rewrite Hurl.
  go_cases L; reflexivity.
Qed.

Lemma JS_login_resolved (L : JS.Libs) (user_name password : JS.value)
  (s : JS.State) (response : JS.Response) :
  JS.truthy user_name = true -> JS.truthy password = true ->
  JS.URL_error L (JS.apiUrl (JS.self s)) = None ->
  JS.axios_request L (JS.http (JS.self s))
    (JS_login_request (JS.self s) user_name password) = inl response ->
  JS.login L user_name password s =
  if JS.status response =? 200 then
    (JS.Fulfilled tt,
     JS_after s (JS_with_header (JS.self s) "token"
                   (JS.header_property response "token"))
       (JS_login_request (JS.self s) user_name password))
  else
    (JS.Rejected (JS.ResponseError
                    ("API response: " +:+ decimal (JS.status response))),
     JS_after s (JS.self s) (JS_login_request (JS.self s) user_name password)).
Proof.
  intros Hu Hp Hurl Hreq.
  unfold JS.login, JS.bind, JS.this, JS.new_URL, JS.ret, JS.http_post,
    JS.http_request.
  cbn [JS.self]. rewrite Hurl, Hu, Hp. cbn [negb orb JS.self].
  change {| JS.method := "POST";
            JS.url := JS.URL_of "/api/login" (JS.apiUrl (JS.self s));
            JS.data := JS.FormData [("user_name", JS.ToString user_name);
                                    ("password", JS.ToString password)];
            JS.headers := JS.this_headers (JS.self s) |}
    with (JS_login_request (JS.self s) user_name password).
  rewrite Hreq.
  destruct (JS.status response =? 200); reflexivity.
Qed.

(** ** The response contract (C1) *)

Lemma JS_response_contract (L : JS.Libs) (c : JS.call) (s : JS.State)
  (response : JS.Response) :
  JS_valid c = true ->
  JS.URL_error L (JS.apiUrl (JS.self s)) = None ->
  JS.axios_request L (JS.http (JS.self s)) (JS_request_of L (JS.self s) c)
  = inl response ->
  match JS_handler_of c with
  | LoginHandler => True
  | PassThrough => fst (JS.run L c s) = JS.Fulfilled (JS.TheResponse response)
  | StatusChecked what =>
      fst (JS.run L c s) =
      if JS.status response =? 200 then JS_parsed L response
      else JS.Rejected (JS.Error (what +:+ decimal (JS.status response)))
  | StatusCheckedSilently message =>
      fst (JS.run L c s) =
      if JS.status response =? 200 then JS_parsed L response
      else JS.Rejected (JS.Error message)
  end.
Proof.
  intros Hvalid Hurl Hreq.
  pose proof (JS_valid_not_thrown L c s Hvalid Hurl) as Hthrow.
  destruct c; cbn [JS_handler_of]; try exact I;
    revert Hthrow; js_unfold;
    unfold JS.http_get, JS.http_post, JS.http_put, JS.http_delete,
      JS.http_request, JS.json_or_status, JS.json, JS.set_this_header,
      JS_parsed, JS.reject, JS.ret;
    cbn [JS.self JS.sent JS.this_headers JS.http JS.apiUrl];
    rewrite ?Hurl;
    repeat (cbn beta iota;
            match goal with
            | |- context [match JS.URL_error ?l ?b with _ => _ end] =>
                rewrite Hurl
            | |- context [negb (Z.eqb ?x ?y)] =>
                destruct (Z.eqb x y) eqn:?; cbn [negb]
            | |- context [if ?b then _ else _] => destruct b eqn:?
            | |- context [match JS.axios_request ?l ?i ?r with _ => _ end] =>
                let E := fresh "E" in
                destruct (JS.axios_request l i r) eqn:E;
                [ injection (eq_trans (eq_sym Hreq) E) as <-
                | discriminate (eq_trans (eq_sym Hreq) E) ]
            | |- context [match JS.response_json ?l ?r with _ => _ end] =>
                destruct (JS.response_json l r) eqn:?
            end);
    cbn [fst]; intros Hthrow;
    try reflexivity;
    try (cbn [negb] in *; discriminate);
    exfalso; eapply Hthrow; reflexivity.
Qed.

Lemma Go_status_is_ignored (L : Go.Libs) (k : Z) (c : Go.call) (s : Go.State) :
  Go.run (Go_answering_status k L) c s = Go.run L c s.
Proof.
  destruct c; go_unfold; unfold Go_answering_status;
    go_cases L; reflexivity.
Qed.

Lemma Go_RemoveUserRequest_decodes (L : Go.Libs) (userName : string)
  (s : Go.State) (hc : Go.HTTPClient) (response : Go.Response) (j : Go.JSON L) :
  userName <> "" ->
  Go.url_Parse L (Go.apiURL (Go.self s) +:+ "/api/user/" +:+ userName) = None ->
  Go.httpClient (Go.self s) = Some hc ->
  Go.roundTrip L (Go.Heimdall hc)
    (Go_request (Go.self s) "DELETE"
       (Go.apiURL (Go.self s) +:+ "/api/user/" +:+ userName) Go.NoPayload)
  = Go.Ok response ->
  Go.json_Decode L (Go.RespBody response) = Go.Ok j ->
  Go.RemoveUserRequest L userName s =
  (Go.Returned (Go.prettyjson_Marshal L j),
   Go_after s (Go.self s) (Go.Heimdall hc)
     (Go_request (Go.self s) "DELETE"
        (Go.apiURL (Go.self s) +:+ "/api/user/" +:+ userName) Go.NoPayload) []).
Proof.
  intros Hu Hurl Hhc Hrt Hdec.
  unfold Go.RemoveUserRequest. rewrite (Go_is_empty_false _ Hu).
  go_unfold. cbn beta iota. cbn [Go.self].
  change ("/api/user" +:+ "/" +:+ userName) with ("/api/user/" +:+ userName).
  rewrite Hurl, Hhc. cbn beta iota.
  change (Go.set_header _ "token" (Go.token (Go.self s)))
    with (Go_request (Go.self s) "DELETE"
            (Go.apiURL (Go.self s) +:+ "/api/user/" +:+ userName) Go.NoPayload).
  rewrite Hrt. cbn beta iota. rewrite Hdec. cbn beta iota.
  unfold Go_after. rewrite app_nil_r. reflexivity.
Qed.

(** C1, as amended.  JavaScript: a call that passes its argument checks and
    is answered [response] settles by the handler of its method (on a base
    URL that [new URL] rejects there is no request to answer: the call
    throws the [TypeError] of [new URL]).  The
    methods with a status check fulfil with the parsed body on 200 and
    reject on any other status with an error whose message ends with the
    status ([addDownloadRequest]: with a fixed message); the user-writing
    methods return the transport's promise and fulfil with the response
    whatever its status.  Go: no method looks at the status code; on any
    status [RemoveUserRequest] decodes the body and returns its
    pretty-printed text. *)
Theorem response_contract_by_method :
  (forall (L : JS.Libs) (c : JS.call) (s : JS.State) (response : JS.Response),
      JS_valid c = true ->
      JS.axios_request L (JS.http (JS.self s)) (JS_request_of L (JS.self s) c)
      = inl response ->
      (JS.URL_error L (JS.apiUrl (JS.self s)) = None ->
       JS_settles L (JS_handler_of c) response (fst (JS.run L c s)))
      /\ (forall message,
            JS.URL_error L (JS.apiUrl (JS.self s)) = Some message ->
            JS.run L c s = (JS.Thrown (JS.TypeError message), s)))
  /\
  (forall (L : Go.Libs) (k : Z) (c : Go.call) (s : Go.State),
      Go.run (Go_answering_status k L) c s = Go.run L c s)
  /\
  (forall (L : Go.Libs) (userName : string) (s : Go.State)
          (hc : Go.HTTPClient) (response : Go.Response) (j : Go.JSON L),
      userName <> "" ->
      Go.url_Parse L (Go.apiURL (Go.self s) +:+ "/api/user/" +:+ userName) = None ->
      Go.httpClient (Go.self s) = Some hc ->
      Go.roundTrip L (Go.Heimdall hc)
        (Go_request (Go.self s) "DELETE"
           (Go.apiURL (Go.self s) +:+ "/api/user/" +:+ userName) Go.NoPayload)
      = Go.Ok response ->
      Go.json_Decode L (Go.RespBody response) = Go.Ok j ->
      Go.RemoveUserRequest L userName s =
      (Go.Returned (Go.prettyjson_Marshal L j),
       Go_after s (Go.self s) (Go.Heimdall hc)
         (Go_request (Go.self s) "DELETE"
            (Go.apiURL (Go.self s) +:+ "/api/user/" +:+ userName)
            Go.NoPayload) [])).
Proof.
  split; [ | split ].
  - intros L c s response Hvalid Hreq.
    split; [ | exact (fun m Hm => JS_valid_unparsed_run L c s m Hvalid Hm) ].
    intros Hurl.
    pose proof (JS_response_contract L c s response Hvalid Hurl Hreq) as H.
    unfold JS_settles.
    destruct (JS_handler_of c) as [ | | what | message ]; try exact H.
    + split; intros Hst.
      * apply Z.eqb_eq in Hst. rewrite Hst in H. exact H.
      * apply Z.eqb_neq in Hst. rewrite Hst in H.
        split; [ exact H | eexists; reflexivity ].
    + split; intros Hst.
      * apply Z.eqb_eq in Hst. rewrite Hst in H. exact H.
      * apply Z.eqb_neq in Hst. rewrite Hst in H. exact H.
  - exact Go_status_is_ignored.
  - exact Go_RemoveUserRequest_decodes.
Qed.

Lemma response_contract_witness :
  fst (JS.run (Demo.js_libs (Demo.js_response 404 [] "{}"))
         (JS.CgetDownloadsRequest (JS.Num 5)) Demo.js_state)
  = JS.Rejected (JS.Error "Get downloads failed with status 404")
  /\
  Go.RemoveUserRequest (Demo.go_libs (Demo.go_response 200 [] "{}")) "bob"
    (Demo.go_state "t0")
  = (Go.Returned "{}",
     Go_after (Demo.go_state "t0") (Demo.go_client "t0")
       (Go.Heimdall {| Go.httpTimeout := 5000000000; Go.httpRetryCount := 3;
                       Go.backoffInterval := 10000000;
                       Go.backoffMaxJitter := 50000000 |})
       (Go_request (Demo.go_client "t0") "DELETE"
          "http://localhost:5000/api/user/bob" Go.NoPayload) []).
Proof.
  split.
  - apply (proj2 (proj1 (proj1 response_contract_by_method
             (Demo.js_libs (Demo.js_response 404 [] "{}"))
             (JS.CgetDownloadsRequest (JS.Num 5)) Demo.js_state
             (Demo.js_response 404 [] "{}") eq_refl eq_refl) eq_refl)).
    discriminate.
  - apply (proj2 (proj2 response_contract_by_method)
             (Demo.go_libs (Demo.go_response 200 [] "{}")) "bob"
             (Demo.go_state "t0")
             {| Go.httpTimeout := 5000000000; Go.httpRetryCount := 3;
                Go.backoffInterval := 10000000;
                Go.backoffMaxJitter := 50000000 |}
             (Demo.go_response 200 [] "{}") "{}");
      first [ discriminate | reflexivity ].
Defined.

(** Against C1 as stated: the Go [RemoveUserRequest], answered 404 with a
    JSON body, returns the pretty-printed body; nothing is raised. *)
Lemma Go_RemoveUserRequest_404_returns :
  Go.RemoveUserRequest (Demo.go_libs (Demo.go_response 404 [] "{}")) "bob"
    (Demo.go_state "t0")
  = (Go.Returned "{}",
     Go_after (Demo.go_state "t0") (Demo.go_client "t0")
       (Go.Heimdall {| Go.httpTimeout := 5000000000; Go.httpRetryCount := 3;
                       Go.backoffInterval := 10000000;
                       Go.backoffMaxJitter := 50000000 |})
       (Go_request (Demo.go_client "t0") "DELETE"
          "http://localhost:5000/api/user/bob" Go.NoPayload) []).
Proof. vm_compute. reflexivity. Qed.

(** ** Login stores the token (C2) *)

(** C2, as amended.  JavaScript: for truthy user name and password, a 200
    answer stores the [token] response header among the client's headers,
    and every request of every later call carries it; any other status
    leaves the client as it was and rejects with a [ResponseError] whose
    message ends with the status (on a base URL that [new URL] rejects
    there is no request to answer: [login] throws the [TypeError] of
    [new URL] and stores nothing).  Go: [Login] does not look at the status;
    whenever the answer has a [Token] header and a readable body, the first
    value of that header becomes the session token and [Login] returns. *)
Theorem login_stores_token_js_on_200_go_on_any_status :
  (forall (L : JS.Libs) (user_name password : JS.value) (s : JS.State)
          (response : JS.Response),
      JS.truthy user_name = true -> JS.truthy password = true ->
      JS.axios_request L (JS.http (JS.self s))
        (JS_login_request (JS.self s) user_name password) = inl response ->
      (JS.URL_error L (JS.apiUrl (JS.self s)) = None ->
      (JS.status response = 200 ->
       JS.login L user_name password s =
       (JS.Fulfilled tt,
        JS_after s (JS_with_header (JS.self s) "token"
                      (JS.header_property response "token"))
          (JS_login_request (JS.self s) user_name password))
       /\ forall (c : JS.call),
           Forall (fun r => JS.headers r !! "token"
                            = Some (JS.header_property response "token"))
             (drop (length (JS.sent (snd (JS.login L user_name password s))))
                (JS.sent (snd (JS.run L c
                                 (snd (JS.login L user_name password s)))))))
      /\
      (JS.status response <> 200 ->
       JS.login L user_name password s =
       (JS.Rejected (JS.ResponseError
                       ("API response: " +:+ decimal (JS.status response))),
        JS_after s (JS.self s) (JS_login_request (JS.self s) user_name password))
       /\ JS.carries_status
            (JS.ResponseError ("API response: " +:+ decimal (JS.status response)))
            (JS.status response)))
      /\ (forall message,
            JS.URL_error L (JS.apiUrl (JS.self s)) = Some message ->
            JS.login L user_name password s
            = (JS.Thrown (JS.TypeError message), s)))
  /\
  (forall (L : Go.Libs) (userName password : string) (s : Go.State)
          (response : Go.Response) (t : string) (rest : list string),
      userName <> "" -> password <> "" ->
      Go.url_Parse L (Go.apiURL (Go.self s) +:+ "/api/login") = None ->
      Go.roundTrip L Go.DefaultClient
        (Go_login_request (Go.self s) userName password) = Go.Ok response ->
      Go.RespHeader response !! "Token" = Some (t :: rest) ->
      Go.body_err (Go.RespBody response) = None ->
      Go.Login L userName password s =
      (Go.Returned tt,
       Go_after s (Go_with_token (Go.self s) t) Go.DefaultClient
         (Go_login_request (Go.self s) userName password) [])).
Proof.
  split.
  - intros L u p s response Hu Hp Hreq.
    split; [ | exact (fun m Hm => JS_login_unparsed L u p s m Hm) ].
    intros Hurl.
    pose proof (JS_login_resolved L u p s response Hu Hp Hurl Hreq) as Hlogin.
    split; intros Hst.
    + apply Z.eqb_eq in Hst. rewrite Hst in Hlogin. rewrite Hlogin.
      split; [ reflexivity | ].
      intros c. cbn [snd].
      destruct (JS_requests_carry_stored_headers L c
                  (JS_after s (JS_with_header (JS.self s) "token"
                                 (JS.header_property response "token"))
                     (JS_login_request (JS.self s) u p)))
        as (reqs & Hsent & _ & Hall).
      rewrite Hsent, drop_app_length.
      eapply Forall_impl; [ exact Hall | ].
      intros r Hr. cbn beta in Hr. rewrite Hr by discriminate.
      cbn [JS_after JS.self JS_with_header JS.this_headers].
      apply lookup_insert_eq.
    + apply Z.eqb_neq in Hst. rewrite Hst in Hlogin.
      split; [ exact Hlogin | ].
      eexists. reflexivity.
  - intros L u p s response t rest Hu Hp Hurl Hrt Htok Hbody.
    rewrite (Go_Login_posts L u p s response Hu Hp Hurl Hrt).
    unfold Go.header_get. rewrite Htok. cbn [default Go.index0].
    unfold Go.bind, Go.ret, Go.set_token, Go.get_self, Go.put_self,
      Go.ReadAll_or_panic.
    rewrite Hbody. reflexivity.
Qed.

Lemma login_stores_token_witness :
  JS.login (Demo.js_libs (Demo.js_response 200 [("token", "abc123")] "{}"))
    (JS.Str "alice") (JS.Str "secret") Demo.js_state =
  (JS.Fulfilled tt,
   JS_after Demo.js_state
     (JS_with_header Demo.js_client "token" (JS.Str "abc123"))
     (JS_login_request Demo.js_client (JS.Str "alice") (JS.Str "secret")))
  /\
  Go.Login (Demo.go_libs (Demo.go_response 200 [("Token", ["abc123"])] ""))
    "alice" "secret" (Demo.go_state "") =
  (Go.Returned tt,
   Go_after (Demo.go_state "") (Go_with_token (Demo.go_client "") "abc123")
     Go.DefaultClient (Go_login_request (Demo.go_client "") "alice" "secret") []).
Proof.
  split.
  - apply (proj1 (proj1 login_stores_token_js_on_200_go_on_any_status
             (Demo.js_libs (Demo.js_response 200 [("token", "abc123")] "{}"))
             (JS.Str "alice") (JS.Str "secret") Demo.js_state
             (Demo.js_response 200 [("token", "abc123")] "{}")
             eq_refl eq_refl eq_refl) eq_refl); reflexivity.
  - apply (proj2 login_stores_token_js_on_200_go_on_any_status
             (Demo.go_libs (Demo.go_response 200 [("Token", ["abc123"])] ""))
             "alice" "secret" (Demo.go_state "")
             (Demo.go_response 200 [("Token", ["abc123"])] "") "abc123" []);
      first [ discriminate | reflexivity ].
Defined.

(** Against C2 as stated: the Go [Login], answered 401 with a [Token]
    header, replaces the session token and returns without an error. *)
Lemma Go_Login_401_replaces_token :
  Go.Login (Demo.go_libs (Demo.go_response 401 [("Token", ["t401"])] ""))
    "alice" "secret" (Demo.go_state "t0") =
  (Go.Returned tt,
   Go_after (Demo.go_state "t0") (Go_with_token (Demo.go_client "t0") "t401")
     Go.DefaultClient (Go_login_request (Demo.go_client "t0") "alice" "secret") [])
  /\ Go.token (Go.self (Demo.go_state "t0")) = "t0"
  /\ Go.token (Go.self (snd (Go.Login
        (Demo.go_libs (Demo.go_response 401 [("Token", ["t401"])] ""))
        "alice" "secret" (Demo.go_state "t0")))) = "t401".
Proof. repeat split; vm_compute; reflexivity. Qed.

(** ** Required arguments are checked before any request (C3) *)



Lemma JS_invalid_run (L : JS.Libs) (c : JS.call) (s : JS.State) :
  JS_valid c = false ->
  JS.run L c s = (JS.Thrown (JS_thrown_on_invalid L (JS.self s) c), s).
Proof.
  intros Hv. pose proof (JS_invalid_thrown L c s Hv) as Hthrown.
  pose proof (JS_thrown_unchanged L c s _ Hthrown) as Hsame.
  destruct (JS.run L c s) as [result s']. cbn [fst snd] in *.
  subst. reflexivity.
Qed.




(** ** Email validation (C4) *)

Lemma Go_bad_email_checked (L : Go.Libs) (c : Go.call) (s : Go.State)
  (email : string) :
  Go.email_of c = Some email ->
  Forall (fun a => a <> "") (Go.required c) ->
  Regexp.matches Go.emailRegexp email = false ->
  Go.run L c s = (Go.Panicked (Go.PanicError Go.errBadFormat), s).
Proof.
  intros He Hreq Hm.
  destruct c; try discriminate He; cbn [Go.email_of] in He;
    injection He as ->;
    go_unfold; unfold Go.validateFormat; rewrite Hm; cbn [negb];
    repeat match goal with
           | |- context [Go.is_empty ?a] =>
               rewrite (Go_required_nonempty _ a Hreq)
                 by (cbn [Go.required In]; tauto)
           end;
    reflexivity.
Qed.

(** C4, as amended.  Go: an email-accepting method whose required arguments
    are all non-empty and whose email does not match the email pattern (as
    [not-an-email] does not) panics with the format error, and no request
    has been made.  JavaScript: the email is not validated; an
    email-accepting method whose arguments pass the emptiness checks (their
    Numbers being safe integers) and whose URL [new URL] gives makes its
    request with the email as it is. *)
Theorem email_format_checked_in_go_only :
  (forall (L : Go.Libs) (c : Go.call) (s : Go.State) (email : string),
      Go.email_of c = Some email ->
      Forall (fun a => a <> "") (Go.required c) ->
      Regexp.matches Go.emailRegexp email = false ->
      Go.run L c s = (Go.Panicked (Go.PanicError Go.errBadFormat), s)
      /\ Go.sent (snd (Go.run L c s)) = Go.sent s)
  /\
  Regexp.matches Go.emailRegexp "not-an-email" = false
  /\
  (forall (L : JS.Libs) (c : JS.call) (s : JS.State),
      JS_takes_email c = true ->
      JS_valid c = true -> JS_safe c = true ->
      JS.URL_error L (JS.apiUrl (JS.self s)) = None ->
      (forall e, fst (JS.run L c s) <> JS.Thrown e)
      /\ JS.sent (snd (JS.run L c s))
         = (JS.sent s ++ [JS_request_of L (JS.self s) c])%list
      /\ JS_body L c = Some (JS.data (JS_request_of L (JS.self s) c))).
Proof.
  split; [ | split ].
  - intros L c s email He Hreq Hm.
    rewrite (Go_bad_email_checked L c s email He Hreq Hm). split; reflexivity.
  - vm_compute. reflexivity.
  - intros L c s Hc Hv _ Hurl.
    pose proof (JS_valid_not_thrown L c s Hv Hurl) as Hok.
    split; [ exact Hok | ]. split; [ exact (JS_run_sends L c s Hok) | ].
    destruct c; try discriminate Hc; reflexivity.
Qed.

Lemma email_format_witness :
  Go.run (Demo.go_libs (Demo.go_response 200 [] "{}"))
    (Go.CAddRegularUserRequest "alice" "secret" "not-an-email")
    (Demo.go_state "t0")
  = (Go.Panicked (Go.PanicError Go.errBadFormat), Demo.go_state "t0")
  /\
  JS.sent (snd (JS.run (Demo.js_libs (Demo.js_response 200 [] "{}"))
                  (JS.CaddUserRequest (JS.Str "alice") (JS.Str "secret")
                     (JS.Str "not-an-email") JS.Undefined) Demo.js_state))
  = [{| JS.method := "POST";
        JS.url := JS.URL_of "/api/user" "http://localhost:5000";
        JS.data := JS.FormData [("user_name", "alice"); ("password", "secret");
                                ("email", "not-an-email"); ("auth", "1")];
        JS.headers := JS.this_headers Demo.js_client |}].
Proof.
  split.
  - apply (proj1 email_format_checked_in_go_only
             (Demo.go_libs (Demo.go_response 200 [] "{}"))
             (Go.CAddRegularUserRequest "alice" "secret" "not-an-email")
             (Demo.go_state "t0") "not-an-email").
    + reflexivity.
    + repeat constructor; discriminate.
    + vm_compute. reflexivity.
  - exact (proj1 (proj2 (proj2 (proj2 email_format_checked_in_go_only)
             (Demo.js_libs (Demo.js_response 200 [] "{}"))
             (JS.CaddUserRequest (JS.Str "alice") (JS.Str "secret")
                (JS.Str "not-an-email") JS.Undefined) Demo.js_state
             eq_refl eq_refl eq_refl eq_refl))).
Defined.

(** Against C4 as stated: the JavaScript [addRegularUserRequest] posts the
    form with the email [not-an-email]; no format error is raised. *)
Lemma JS_addRegularUserRequest_sends_malformed_email :
  JS.run (Demo.js_libs (Demo.js_response 200 [] "{}"))
    (JS.CaddRegularUserRequest (JS.Str "alice") (JS.Str "secret")
       (JS.Str "not-an-email")) Demo.js_state
  = (JS.Fulfilled (JS.TheResponse (Demo.js_response 200 [] "{}")),
     JS_after Demo.js_state Demo.js_client
       {| JS.method := "POST";
          JS.url := JS.URL_of "/api/regularuser" "http://localhost:5000";
          JS.data := JS.FormData [("user_name", "alice"); ("password", "secret");
                                  ("email", "not-an-email")];
          JS.headers := JS.this_headers Demo.js_client |})
  /\ Regexp.matches Go.emailRegexp "not-an-email" = false.
Proof. split; vm_compute; reflexivity. Qed.

(** ** Construction (C5) *)

Lemma Go_Init_cases (L : Go.Libs) (apiURL : string) (timeout retryCount : Z)
  (s : Go.State) :
  Go.Init L apiURL timeout retryCount s =
  if Go.is_empty apiURL || (timeout =? 0) then
    (Go.Panicked (Go.PanicError Go.errIncompleteParams), s)
  else
    match Go.url_Parse L apiURL with
    | Some err =>
        (Go.Panicked (Go.PanicError err),
         {| Go.self := Go.self s; Go.sent := Go.sent s;
            Go.stdout := Go.stdout s ++ ["<nil>"] |})
    | None =>
        (Go.Returned tt,
         {| Go.self := Go_initialized apiURL timeout retryCount;
            Go.sent := Go.sent s; Go.stdout := Go.stdout s |})
    end.
Proof.
  unfold Go.Init.
  destruct (Go.is_empty apiURL || (timeout =? 0)); [ reflexivity | ].
  destruct (Go.url_Parse L apiURL); reflexivity.
Qed.

(** C5, as amended.  JavaScript: construction with a base URL that does not
    match the URL pattern (a missing scheme, an invalid host) throws
    [InvalidUrl], and with a matching one it succeeds.  Go: [Init] panics
    with [errIncompleteParams] when the base URL is empty or the timeout is
    zero; otherwise it fails exactly when [url.Parse] reports an error,
    panicking with that error, and no URL pattern is applied. *)
Theorem construction_validates_base_url :
  (forall (apiUrl : string) (total backoffFactor timeout : option Z),
      Regexp.matches JS.reg apiUrl = false ->
      JS.constructor apiUrl total backoffFactor timeout
      = inl (JS.InvalidUrl "Invalid URL"))
  /\
  (forall (apiUrl : string) (total backoffFactor timeout : option Z),
      Regexp.matches JS.reg apiUrl = true ->
      exists b, JS.constructor apiUrl total backoffFactor timeout = inr b
                /\ JS.apiUrl b = apiUrl)
  /\
  (Regexp.matches JS.reg "example.com" = false
   /\ Regexp.matches JS.reg "http://-bad-.com" = false
   /\ Regexp.matches JS.reg "http://localhost:5000" = true)
  /\
  (forall (L : Go.Libs) (apiURL : string) (timeout retryCount : Z) (s : Go.State),
      (apiURL = "" \/ timeout = 0 ->
       Go.Init L apiURL timeout retryCount s
       = (Go.Panicked (Go.PanicError Go.errIncompleteParams), s))
      /\ (apiURL <> "" -> timeout <> 0 ->
          forall err, Go.url_Parse L apiURL = Some err ->
          fst (Go.Init L apiURL timeout retryCount s)
          = Go.Panicked (Go.PanicError err))
      /\ (apiURL <> "" -> timeout <> 0 ->
          Go.url_Parse L apiURL = None ->
          Go.Init L apiURL timeout retryCount s
          = (Go.Returned tt,
             {| Go.self := Go_initialized apiURL timeout retryCount;
                Go.sent := Go.sent s; Go.stdout := Go.stdout s |}))).
Proof.
  split; [ | split; [ | split ] ].
  - intros apiUrl t b to H. unfold JS.constructor. rewrite H. reflexivity.
  - intros apiUrl t b to H. unfold JS.constructor. rewrite H.
    eexists. split; reflexivity.
  - repeat split; vm_compute; reflexivity.
  - intros L apiURL timeout retryCount s.
    rewrite Go_Init_cases. repeat split.
    + intros [-> | ->].
      * reflexivity.
      * rewrite orb_true_r. reflexivity.
    + intros Hu Ht err Herr.
      rewrite (Go_is_empty_false _ Hu), (proj2 (Z.eqb_neq _ _) Ht), Herr.
      reflexivity.
    + intros Hu Ht Hok.
      rewrite (Go_is_empty_false _ Hu), (proj2 (Z.eqb_neq _ _) Ht), Hok.
      reflexivity.
Qed.

Lemma construction_witness :
  JS.constructor "example.com" None None None = inl (JS.InvalidUrl "Invalid URL")
  /\
  Go.Init (Demo.go_libs (Demo.go_response 200 [] "{}"))
    "http://localhost:5000" 5000 3
    {| Go.self := Go.zero_Bassa; Go.sent := []; Go.stdout := [] |}
  = (Go.Returned tt, Demo.go_state "").
Proof.
  split.
  - apply (proj1 construction_validates_base_url "example.com" None None None).
    vm_compute. reflexivity.
  - apply (proj2 (proj2 (proj2 (proj2 (proj2 construction_validates_base_url))
             (Demo.go_libs (Demo.go_response 200 [] "{}"))
             "http://localhost:5000" 5000 3
             {| Go.self := Go.zero_Bassa; Go.sent := []; Go.stdout := [] |})));
      first [ discriminate | reflexivity ].
Defined.

(** Against C5 as stated: the empty string does not match the URL pattern,
    and in Go [Init] answers it with [errIncompleteParams], the error of a
    missing parameter, not with an error for an invalid URL; a base URL
    without scheme, which the pattern rejects too, is accepted by [Init]
    when [url.Parse] accepts it. *)
Lemma Go_Init_does_not_apply_the_URL_pattern :
  (Regexp.matches JS.reg "" = false
   /\ Go.Init (Demo.go_libs (Demo.go_response 200 [] "{}")) "" 5000 3
        {| Go.self := Go.zero_Bassa; Go.sent := []; Go.stdout := [] |}
      = (Go.Panicked (Go.PanicError Go.errIncompleteParams),
         {| Go.self := Go.zero_Bassa; Go.sent := []; Go.stdout := [] |}))
  /\
  (Regexp.matches JS.reg "example.com" = false
   /\ Go.Init (Demo.go_libs (Demo.go_response 200 [] "{}")) "example.com" 5000 3
        {| Go.self := Go.zero_Bassa; Go.sent := []; Go.stdout := [] |}
      = (Go.Returned tt,
         {| Go.self := Go_initialized "example.com" 5000 3;
            Go.sent := []; Go.stdout := [] |})).
Proof. repeat split; vm_compute; reflexivity. Qed.

(** ** Body encodings (C6) *)

Lemma Go_user_write_sends (L : Go.Libs) (c : Go.call) (s : Go.State)
  (method url bytes : string) (hc : Go.HTTPClient) :
  Go_user_write L (Go.self s) c = Some (method, url, Go.Ok bytes) ->
  Forall (fun a => a <> "") (Go.required c) ->
  (forall e, Go.email_of c = Some e -> Regexp.matches Go.emailRegexp e = true) ->
  Go.url_Parse L url = None ->
  Go.httpClient (Go.self s) = Some hc ->
  Go.sent (snd (Go.run L c s))
  = (Go.sent s ++ [(Go.Heimdall hc,
                    Go_request (Go.self s) method url (Go.BufferPayload bytes))])%list.
Proof.
  intros Hw Hreq Hemail Hurl Hhc.
  destruct c; try discriminate Hw; unfold Go_user_write in Hw;
    injection Hw as <- <- Hbytes;
    pose proof (Hemail _ eq_refl) as Hm; cbn [Go.email_of] in Hm;
    go_unfold; unfold Go.validateFormat; rewrite Hm; cbn [negb];
    repeat match goal with
           | |- context [Go.is_empty ?a] =>
               rewrite (Go_required_nonempty _ a Hreq)
                 by (cbn [Go.required In]; tauto)
           end;
    cbn [orb];
    change ("/api/user" +:+ "/" +:+ userName) with ("/api/user/" +:+ userName);
    go_cases L;
    cbn [snd Go.sent];
    repeat match goal with
           | H : Some _ = Some _ |- _ => injection H as H; subst
           | H : Go.Ok _ = Go.Ok _ |- _ => injection H as H; subst
           | H : ?x = Some _, H' : ?x = Some _ |- _ => rewrite H in H'
           | H : ?x = Some _, H' : ?x = None |- _ => rewrite H in H'
           | H : ?x = Go.Ok _, H' : ?x = Go.Ok _ |- _ => rewrite H in H'
           | H : ?x = Go.Ok _, H' : ?x = Go.Err _ |- _ => rewrite H in H'
           | H : Go.json_Marshal L ?m = _, H' : Go.json_Marshal L ?m' = _ |- _ =>
               change m' with m in H'; rewrite H in H'
           end;
    try discriminate; reflexivity.
Qed.

(** C6, as amended.  JavaScript, for a call whose arguments pass the checks
    (their Numbers being safe integers) and whose URL [new URL] gives:
    [login] and the user-writing methods send a [URLSearchParams] form of
    key/value pairs; [addDownloadRequest], [rateDownloadRequest] and
    [startCompression] send the text [JSON.stringify] makes of their
    object.  Go: only [Login] posts a form
    (with the form content type); [AddRegularUserRequest] sends the bytes
    [json.Marshal] makes of its map, and [AddUserRequest] and
    [UpdateUserRequest] send a byte buffer of formatted text. *)
Theorem body_encoding_by_method :
  (forall (L : JS.Libs) (c : JS.call) (s : JS.State) (d : JS.Data),
      JS_body L c = Some d -> JS_valid c = true -> JS_safe c = true ->
      JS.URL_error L (JS.apiUrl (JS.self s)) = None ->
      JS.data <$> last (JS.sent (snd (JS.run L c s))) = Some d)
  /\
  (forall (L : Go.Libs) (userName password : string) (s : Go.State),
      userName <> "" -> password <> "" ->
      Go.url_Parse L (Go.apiURL (Go.self s) +:+ "/api/login") = None ->
      Go.sent (snd (Go.Login L userName password s))
      = (Go.sent s ++ [(Go.DefaultClient,
                        Go_login_request (Go.self s) userName password)])%list
      /\ Go.ReqBody (Go_login_request (Go.self s) userName password)
         = Go.FormPayload [("user_name", userName); ("password", password)]
      /\ Go.ReqHeader (Go_login_request (Go.self s) userName password)
           !! "Content-Type"
         = Some ["application/x-www-form-urlencoded"])
  /\
  (forall (L : Go.Libs) (c : Go.call) (s : Go.State)
          (method url bytes : string) (hc : Go.HTTPClient),
      Go_user_write L (Go.self s) c = Some (method, url, Go.Ok bytes) ->
      Forall (fun a => a <> "") (Go.required c) ->
      (forall e, Go.email_of c = Some e ->
                 Regexp.matches Go.emailRegexp e = true) ->
      Go.url_Parse L url = None ->
      Go.httpClient (Go.self s) = Some hc ->
      Go.sent (snd (Go.run L c s))
      = (Go.sent s ++
           [(Go.Heimdall hc,
             Go_request (Go.self s) method url (Go.BufferPayload bytes))])%list).
Proof.
  split; [ | split ].
  - intros L c s d Hbody Hvalid _ Hurl.
    rewrite (JS_run_sends L c s (JS_valid_not_thrown L c s Hvalid Hurl)).
    rewrite last_snoc. cbn [fmap option_fmap option_map]. f_equal.
    destruct c; try discriminate Hbody; cbn [JS_body] in Hbody;
      injection Hbody as <-; reflexivity.
  - intros L u p s Hu Hp Hurl.
    split; [ exact (Go_Login_sends L u p s Hu Hp Hurl) | ].
    split; reflexivity.
  - exact Go_user_write_sends.
Qed.

Lemma body_encoding_witness :
  JS.data <$> last (JS.sent (snd (JS.run
     (Demo.js_libs (Demo.js_response 200 [] "{}"))
     (JS.CaddDownloadRequest (JS.Str "http://example.com/file.iso"))
     Demo.js_state)))
  = Some (JS.TextData ("{" +:+ Demo.quote "link" +:+ ":"
                       +:+ Demo.quote "http://example.com/file.iso" +:+ "}"))
  /\
  Go.sent (snd (Go.run (Demo.go_libs (Demo.go_response 200 [] "{}"))
                  (Go.CAddUserRequest "alice" "secret" "alice@example.com" 1)
                  (Demo.go_state "t0")))
  = [(Go.Heimdall {| Go.httpTimeout := 5000000000; Go.httpRetryCount := 3;
                     Go.backoffInterval := 10000000;
                     Go.backoffMaxJitter := 50000000 |},
      Go_request (Demo.go_client "t0") "POST" "http://localhost:5000/api/user"
        (Go.BufferPayload
           (Go_user_text "alice" "secret" "alice@example.com" "auth" 1)))].
Proof.
  split.
  - apply (proj1 body_encoding_by_method
             (Demo.js_libs (Demo.js_response 200 [] "{}"))
             (JS.CaddDownloadRequest (JS.Str "http://example.com/file.iso"))
             Demo.js_state); reflexivity.
  - apply (proj2 (proj2 body_encoding_by_method)
             (Demo.go_libs (Demo.go_response 200 [] "{}"))
             (Go.CAddUserRequest "alice" "secret" "alice@example.com" 1)
             (Demo.go_state "t0")).
    + reflexivity.
    + repeat constructor; discriminate.
    + intros e H. injection H as <-. vm_compute. reflexivity.
    + reflexivity.
    + reflexivity.
Defined.

(** Against C6 as stated: the Go [AddRegularUserRequest], a user-write
    operation, sends a JSON object in a byte buffer, not a form. *)
Lemma Go_AddRegularUserRequest_sends_json :
  map (fun cr => Go.ReqBody (snd cr))
    (Go.sent (snd (Go.AddRegularUserRequest
                     (Demo.go_libs (Demo.go_response 200 [] "{}"))
                     "alice" "secret" "alice@example.com" (Demo.go_state "t0"))))
  = [Go.BufferPayload
       ("{" +:+ Demo.quote "email" +:+ ":" +:+ Demo.quote "alice@example.com"
        +:+ "," +:+ Demo.quote "password" +:+ ":" +:+ Demo.quote "secret"
        +:+ "," +:+ Demo.quote "user_name" +:+ ":" +:+ Demo.quote "alice"
        +:+ "}")]
  /\ (forall form bytes, Go.BufferPayload bytes <> Go.FormPayload form).
Proof. split; [ vm_compute; reflexivity | discriminate ]. Qed.

(** ** The path of the user downloads (C7) *)

(** [getDownloadsUserRequest] has no argument check. *)
Lemma JS_getDownloadsUserRequest_sends (L : JS.Libs) (limit : JS.value)
  (s : JS.State) :
  JS.URL_error L (JS.apiUrl (JS.self s)) = None ->
  JS.sent (snd (JS.run L (JS.CgetDownloadsUserRequest limit) s))
  = (JS.sent s ++
       [{| JS.method := "GET";
           JS.url := JS.URL_of
                       ("/api/user/downloads/"
                        +:+ JS.ToString (JS.or_default (JS.Num 1) limit))
                       (JS.apiUrl (JS.self s));
           JS.data := JS.NoData;
           JS.headers := JS.this_headers (JS.self s) |}])%list.
Proof.
  intros Hurl.
  rewrite (JS_run_sends L _ s
             (JS_valid_not_thrown L (JS.CgetDownloadsUserRequest limit) s
                eq_refl Hurl)).
  reflexivity.
Qed.

(** C7, as amended.  JavaScript, on a base URL that [new URL] takes:
    [getDownloadsUserRequest] makes one GET whose path is
    [/api/user/downloads/] followed by the decimal digits of the limit, for
    every safe integer limit, zero included; the limit is 1 when it is
    absent ([undefined]).  Go: a zero limit is replaced by 1. *)
Theorem user_downloads_path_by_limit :
  (forall (L : JS.Libs) (s : JS.State) (n : Z),
      JS.safe_integer n ->
      JS.URL_error L (JS.apiUrl (JS.self s)) = None ->
      JS.sent (snd (JS.run L (JS.CgetDownloadsUserRequest (JS.Num n)) s))
      = (JS.sent s ++
           [{| JS.method := "GET";
               JS.url := JS.URL_of ("/api/user/downloads/" +:+ decimal n)
                           (JS.apiUrl (JS.self s));
               JS.data := JS.NoData;
               JS.headers := JS.this_headers (JS.self s) |}])%list)
  /\
  (forall (L : JS.Libs) (s : JS.State),
      JS.URL_error L (JS.apiUrl (JS.self s)) = None ->
      JS.sent (snd (JS.run L (JS.CgetDownloadsUserRequest JS.Undefined) s))
      = (JS.sent s ++
           [{| JS.method := "GET";
               JS.url := JS.URL_of "/api/user/downloads/1"
                           (JS.apiUrl (JS.self s));
               JS.data := JS.NoData;
               JS.headers := JS.this_headers (JS.self s) |}])%list)
  /\
  (forall (L : Go.Libs) (s : Go.State),
      Go.GetDownloadUserRequests L 0 s = Go.GetDownloadUserRequests L 1 s).
Proof.
  split; [ | split ].
  - intros L s n _ Hurl. apply JS_getDownloadsUserRequest_sends. exact Hurl.
  - intros L s Hurl. apply JS_getDownloadsUserRequest_sends. exact Hurl.
  - intros L s. reflexivity.
Qed.

Lemma user_downloads_path_witness :
  JS.sent (snd (JS.run (Demo.js_libs (Demo.js_response 200 [] "{}"))
                  (JS.CgetDownloadsUserRequest (JS.Num 5)) Demo.js_state))
  = [{| JS.method := "GET";
        JS.url := JS.URL_of "/api/user/downloads/5" "http://localhost:5000";
        JS.data := JS.NoData;
        JS.headers := JS.this_headers Demo.js_client |}].
Proof.
  apply (proj1 user_downloads_path_by_limit
           (Demo.js_libs (Demo.js_response 200 [] "{}")) Demo.js_state 5);
    [ unfold JS.safe_integer; lia | reflexivity ].
Defined.

(** Against C7 as stated: in JavaScript a zero limit is sent as it is, not
    replaced by the default 1. *)
Lemma JS_user_downloads_zero_is_not_defaulted :
  map (fun r => JS.url_input (JS.url r))
    (JS.sent (snd (JS.run (Demo.js_libs (Demo.js_response 200 [] "{}"))
                     (JS.CgetDownloadsUserRequest (JS.Num 0)) Demo.js_state)))
  = ["/api/user/downloads/0"]
  /\ "/api/user/downloads/0" <> "/api/user/downloads/1".
Proof. split; [ vm_compute; reflexivity | discriminate ]. Qed.

(** ** What a call changes in the client (C8) *)

Lemma JS_state_after_call (L : JS.Libs) (c : JS.call) (s : JS.State) :
  JS_is_login c = false ->
  JS.self (snd (JS.run L c s))
  = {| JS.apiUrl := JS.apiUrl (JS.self s);
       JS.this_headers :=
         match JS.URL_error L (JS.apiUrl (JS.self s)) with
         | None => JS_headers_after c (JS.this_headers (JS.self s))
         | Some _ => JS.this_headers (JS.self s)
         end;
       JS.http := JS.http (JS.self s) |}.
Proof.
  intros Hc. destruct s as [[url h i] sent].
  destruct c; try discriminate Hc; js_unfold; js_helpers;
    cbn [JS_headers_after];
    repeat (cbn beta iota;
            match goal with
            | |- context [JS.URL_error ?l ?b] => destruct (JS.URL_error l b) eqn:?
            | |- context [if ?b then _ else _] => destruct b eqn:?
            | |- context [match JS.axios_request ?l ?i ?r with _ => _ end] =>
                destruct (JS.axios_request l i r) eqn:?
            | |- context [match JS.response_json ?l ?r with _ => _ end] =>
                destruct (JS.response_json l r) eqn:?
            end);
    reflexivity.
Qed.

Lemma JS_state_after_login (L : JS.Libs) (user_name password : JS.value)
  (s : JS.State) :
  JS.self (snd (JS.login L user_name password s)) = JS.self s
  \/ exists response,
       JS.axios_request L (JS.http (JS.self s))
         (JS_login_request (JS.self s) user_name password) = inl response
       /\ JS.status response = 200
       /\ JS.self (snd (JS.login L user_name password s))
          = JS_with_header (JS.self s) "token"
              (JS.header_property response "token").
Proof.
  destruct (JS.URL_error L (JS.apiUrl (JS.self s))) as [message | ] eqn:Hurl.
  { left. unfold JS.login, JS.bind, JS.this, JS.new_URL, JS.throw.
    cbn [JS.self]. rewrite Hurl. reflexivity. }
  destruct (negb (JS.truthy user_name) || negb (JS.truthy password)) eqn:Hg.
  - left. unfold JS.login, JS.bind, JS.this, JS.new_URL, JS.ret.
    cbn [JS.self]. rewrite Hurl, Hg. reflexivity.
  - apply orb_false_elim in Hg. destruct Hg as [Hu Hp].
    apply negb_false_iff in Hu, Hp.
    destruct (JS.axios_request L (JS.http (JS.self s))
                (JS_login_request (JS.self s) user_name password))
      as [response | e] eqn:Hreq.
    + rewrite (JS_login_resolved L user_name password s response
                 Hu Hp Hurl Hreq).
      destruct (JS.status response =? 200) eqn:Hst.
      * right. exists response. apply Z.eqb_eq in Hst. auto.
      * left. reflexivity.
    + left. unfold JS.login, JS.bind, JS.this, JS.new_URL, JS.ret,
        JS.http_post, JS.http_request.
      cbn [JS.self]. rewrite Hurl, Hu, Hp. cbn [negb orb JS.self].
      change {| JS.method := "POST";
                JS.url := JS.URL_of "/api/login" (JS.apiUrl (JS.self s));
                JS.data := JS.FormData [("user_name", JS.ToString user_name);
                                        ("password", JS.ToString password)];
                JS.headers := JS.this_headers (JS.self s) |}
        with (JS_login_request (JS.self s) user_name password).
      rewrite Hreq. reflexivity.
Qed.

Lemma Go_state_after_call (L : Go.Libs) (c : Go.call) (s : Go.State) :
  Go_is_login c = false -> Go.self (snd (Go.run L c s)) = Go.self s.
Proof.
  intros Hc. destruct c; try discriminate Hc; go_unfold;
    go_cases L; reflexivity.
Qed.

Lemma Go_state_after_Login (L : Go.Libs) (userName password : string)
  (s : Go.State) :
  exists t, Go.self (snd (Go.Login L userName password s))
            = Go_with_token (Go.self s) t.
Proof.
  assert (Hsame : forall b, b = Go_with_token b (Go.token b)).
  { intros b. destruct b. reflexivity. }
  go_unfold; go_cases L; cbn [snd Go.self];
    first [ exists (Go.token (Go.self s)); apply Hsame
          | eexists; reflexivity
          | eexists; unfold Go_with_token; f_equal;
            first [ reflexivity | congruence ] ].
Qed.

(** C8, as amended.  JavaScript: a call other than [login] leaves the base
    URL and the transport settings as they were, and the stored headers too,
    except that [startDownload] and [killDownload], once [new URL] has
    given their URL, store the server key under [key] (on a base URL that
    [new URL] rejects they throw before, and store nothing); the [token]
    entry is never touched; [login] changes nothing but the [token] entry,
    and only on a 200 answer.  Go: a call other than [Login] leaves the
    client as it was, and [Login] changes nothing but the token. *)
Theorem only_login_changes_the_token :
  (forall (L : JS.Libs) (c : JS.call) (s : JS.State),
      JS_is_login c = false ->
      (JS.URL_error L (JS.apiUrl (JS.self s)) = None ->
       JS.self (snd (JS.run L c s))
       = {| JS.apiUrl := JS.apiUrl (JS.self s);
            JS.this_headers := JS_headers_after c (JS.this_headers (JS.self s));
            JS.http := JS.http (JS.self s) |})
      /\ (forall message,
            JS.URL_error L (JS.apiUrl (JS.self s)) = Some message ->
            JS.self (snd (JS.run L c s)) = JS.self s)
      /\ JS.this_headers (JS.self (snd (JS.run L c s))) !! "token"
         = JS.this_headers (JS.self s) !! "token"
      /\ (match c with
          | JS.CstartDownload _ | JS.CkillDownload _ => True
          | _ => JS.self (snd (JS.run L c s)) = JS.self s
          end))
  /\
  (forall (L : JS.Libs) (user_name password : JS.value) (s : JS.State),
      JS.self (snd (JS.login L user_name password s)) = JS.self s
      \/ exists response,
           JS.axios_request L (JS.http (JS.self s))
             (JS_login_request (JS.self s) user_name password) = inl response
           /\ JS.status response = 200
           /\ JS.self (snd (JS.login L user_name password s))
              = JS_with_header (JS.self s) "token"
                  (JS.header_property response "token"))
  /\
  (forall (L : Go.Libs) (c : Go.call) (s : Go.State),
      Go_is_login c = false -> Go.self (snd (Go.run L c s)) = Go.self s)
  /\
  (forall (L : Go.Libs) (userName password : string) (s : Go.State),
      exists t, Go.self (snd (Go.Login L userName password s))
                = Go_with_token (Go.self s) t).
Proof.
  split; [ | split; [ | split ] ].
  - intros L c s Hc.
    pose proof (JS_state_after_call L c s Hc) as H.
    split; [ intros Hurl; rewrite H, Hurl; reflexivity | ].
    split; [ intros message Hurl; rewrite H, Hurl;
             destruct (JS.self s); reflexivity | ].
    split.
    + rewrite H. cbn [JS.this_headers].
      destruct (JS.URL_error L _); [ reflexivity | ].
      destruct c; cbn [JS_headers_after]; try reflexivity;
        apply lookup_insert_ne; discriminate.
    + rewrite H.
      destruct c; try exact I; cbn [JS_headers_after];
        destruct (JS.URL_error L _); destruct (JS.self s); reflexivity.
  - exact JS_state_after_login.
  - exact Go_state_after_call.
  - exact Go_state_after_Login.
Qed.

Lemma only_login_changes_the_token_witness :
  JS.self (snd (JS.run (Demo.js_libs (Demo.js_response 200 [] "{}"))
                  (JS.CgetDownload (JS.Num 7)) Demo.js_state))
  = Demo.js_client
  /\
  Go.self (snd (Go.run (Demo.go_libs (Demo.go_response 200 [] "{}"))
                  (Go.CRemoveUserRequest "bob") (Demo.go_state "t0")))
  = Demo.go_client "t0".
Proof.
  split.
  - exact (proj2 (proj2 (proj2 (proj1 only_login_changes_the_token
                           (Demo.js_libs (Demo.js_response 200 [] "{}"))
                           (JS.CgetDownload (JS.Num 7)) Demo.js_state
                           eq_refl)))).
  - exact (proj1 (proj2 (proj2 only_login_changes_the_token))
             (Demo.go_libs (Demo.go_response 200 [] "{}"))
             (Go.CRemoveUserRequest "bob") (Demo.go_state "t0") eq_refl).
Defined.

(** Against C8 as stated: [startDownload], which is not [login], adds the
    [key] header to the headers the client stores, and the next call sends
    it along. *)
Lemma JS_startDownload_changes_stored_headers :
  JS.this_headers (JS.self Demo.js_state) !! "key" = None
  /\ JS.this_headers
       (JS.self (snd (JS.run (Demo.js_libs (Demo.js_response 200 [] "{}"))
                        (JS.CstartDownload JS.Undefined) Demo.js_state)))
     !! "key" = Some (JS.Str "123456789")
  /\ map (fun r => JS.headers r !! "key")
       (JS.sent (snd (JS.run (Demo.js_libs (Demo.js_response 200 [] "{}"))
                        JS.CgetUserRequest
                        (snd (JS.run (Demo.js_libs (Demo.js_response 200 [] "{}"))
                                (JS.CstartDownload JS.Undefined)
                                Demo.js_state)))))
     = [Some (JS.Str "123456789"); Some (JS.Str "123456789")].
Proof. repeat split; vm_compute; reflexivity. Qed.

(** ** A zero limit in [getDownloadsRequest] (C9) *)

(** C9, as amended.  [getDownloadsRequest(0)] never throws the
    required-parameter error, and on a base URL that [new URL] takes it
    does not throw at all and makes exactly one request, a GET of
    [/api/downloads/0]; the call throws its required-parameter error
    exactly when the limit is [undefined] or [null], and then makes no
    request; whatever else it throws is the [TypeError] of [new URL]. *)
Theorem getDownloads_accepts_zero_rejects_absent :
  (forall (L : JS.Libs) (s : JS.State),
      fst (JS.run L (JS.CgetDownloadsRequest (JS.Num 0)) s)
      <> JS.Thrown (JS.Error "Limit is required to get downloads"))
  /\
  (forall (L : JS.Libs) (s : JS.State),
      JS.URL_error L (JS.apiUrl (JS.self s)) = None ->
      (forall e, fst (JS.run L (JS.CgetDownloadsRequest (JS.Num 0)) s)
                 <> JS.Thrown e)
      /\ JS.sent (snd (JS.run L (JS.CgetDownloadsRequest (JS.Num 0)) s))
         = (JS.sent s ++
              [{| JS.method := "GET";
                  JS.url := JS.URL_of "/api/downloads/0" (JS.apiUrl (JS.self s));
                  JS.data := JS.NoData;
                  JS.headers := JS.this_headers (JS.self s) |}])%list)
  /\
  (forall (L : JS.Libs) (limit : JS.value) (s : JS.State),
      (limit = JS.Undefined \/ limit = JS.Null) <->
      JS.run L (JS.CgetDownloadsRequest limit) s
      = (JS.Thrown (JS.Error "Limit is required to get downloads"), s))
  /\
  (forall (L : JS.Libs) (limit : JS.value) (s : JS.State) (e : JS.error),
      fst (JS.run L (JS.CgetDownloadsRequest limit) s) = JS.Thrown e ->
      limit = JS.Undefined \/ limit = JS.Null
      \/ exists message,
           JS.URL_error L (JS.apiUrl (JS.self s)) = Some message
           /\ e = JS.TypeError message).
Proof.
  assert (Hnullish : forall limit,
             JS.nullish limit = true <-> limit = JS.Undefined \/ limit = JS.Null).
  { intros limit. destruct limit; cbn; split; intros H;
      solve [ auto | discriminate | destruct H; discriminate ]. }
  assert (Hthrown : forall (L : JS.Libs) limit s e,
             fst (JS.run L (JS.CgetDownloadsRequest limit) s) = JS.Thrown e ->
             JS.nullish limit = true
             \/ exists message,
                  JS.URL_error L (JS.apiUrl (JS.self s)) = Some message
                  /\ e = JS.TypeError message).
  { intros L limit s e He.
    destruct (JS.nullish limit) eqn:Hn; [ left; reflexivity | right ].
    assert (Hv : JS_valid (JS.CgetDownloadsRequest limit) = true)
      by (cbn [JS_valid]; rewrite Hn; reflexivity).
    destruct (JS.URL_error L (JS.apiUrl (JS.self s))) as [message | ] eqn:Hurl.
    - exists message. split; [ reflexivity | ].
      rewrite (JS_valid_unparsed_thrown L _ s message Hv Hurl) in He.
      injection He as <-. reflexivity.
    - exfalso. exact (JS_valid_not_thrown L _ s Hv Hurl e He). }
  split; [ | split; [ | split ] ].
  - intros L s He.
    destruct (Hthrown L (JS.Num 0) s _ He) as [Hn | (message & _ & Hm)];
      discriminate.
  - intros L s Hurl.
    pose proof (JS_valid_not_thrown L (JS.CgetDownloadsRequest (JS.Num 0)) s
                  eq_refl Hurl) as Hok.
    split; [ exact Hok | ].
    rewrite (JS_run_sends L _ s Hok). reflexivity.
  - intros L limit s. split.
    + intros [-> | ->]; reflexivity.
    + intros Hrun. apply Hnullish.
      destruct (Hthrown L limit s
                  (JS.Error "Limit is required to get downloads"))
        as [Hn | (message & _ & Hm)];
        [ rewrite Hrun; reflexivity | exact Hn | discriminate Hm ].
  - intros L limit s e He.
    destruct (Hthrown L limit s e He) as [Hn | Hm].
    + apply Hnullish in Hn. tauto.
    + right. right. exact Hm.
Qed.

Lemma getDownloads_zero_witness :
  JS.sent (snd (JS.run (Demo.js_libs (Demo.js_response 200 [] "{}"))
                  (JS.CgetDownloadsRequest (JS.Num 0)) Demo.js_state))
  = [{| JS.method := "GET";
        JS.url := JS.URL_of "/api/downloads/0" "http://localhost:5000";
        JS.data := JS.NoData;
        JS.headers := JS.this_headers Demo.js_client |}].
Proof.
  exact (proj2 (proj1 (proj2 getDownloads_accepts_zero_rejects_absent)
                  (Demo.js_libs (Demo.js_response 200 [] "{}")) Demo.js_state
                  eq_refl)).
Defined.

(** Against C9 as stated: on the client the constructor builds for
    [http://localhost:99999], [getDownloadsRequest(0)] throws the
    [TypeError] of [new URL] and makes no request. *)
Lemma JS_getDownloads_zero_makes_no_request_on_rejected_base :
  JS.constructor "http://localhost:99999" None None None
  = inr Demo.js_client_99999
  /\ JS.run (Demo.js_libs (Demo.js_response 200 [] "{}"))
       (JS.CgetDownloadsRequest (JS.Num 0))
       {| JS.self := Demo.js_client_99999; JS.sent := [] |}
     = (JS.Thrown (JS.TypeError "Invalid URL"),
        {| JS.self := Demo.js_client_99999; JS.sent := [] |}).
Proof. split; vm_compute; reflexivity. Qed.

(** ** The header read of the Go [Login] (C10) *)

(** C10.  In the Go client, when the server's answer to the login request
    has no [Token] header, whatever its status code, [Login] panics with the
    runtime's index-out-of-range error at the read of element 0 of the
    header's (empty) slice. *)
Theorem Login_without_Token_header_panics_out_of_range
  (L : Go.Libs) (userName password : string) (s : Go.State)
  (response : Go.Response) :
  userName <> "" -> password <> "" ->
  Go.url_Parse L (Go.apiURL (Go.self s) +:+ "/api/login") = None ->
  Go.roundTrip L Go.DefaultClient
    (Go_login_request (Go.self s) userName password) = Go.Ok response ->
  Go.RespHeader response !! "Token" = None ->
  Go.header_get (Go.RespHeader response) "Token" = []
  /\ Go.Login L userName password s =
     (Go.Panicked (Go.PanicIndexOutOfRange 0 0),
      Go_after s (Go.self s) Go.DefaultClient
        (Go_login_request (Go.self s) userName password) []).
Proof.
  intros Hu Hp Hurl Hrt Hnone.
  assert (Hget : Go.header_get (Go.RespHeader response) "Token" = []).
  { unfold Go.header_get. rewrite Hnone. reflexivity. }
  split; [ exact Hget | ].
  rewrite (Go_Login_posts L userName password s response Hu Hp Hurl Hrt).
  rewrite Hget. reflexivity.
Qed.

Lemma Login_without_Token_header_witness :
  Go.Login (Demo.go_libs (Demo.go_response 200 [] "")) "alice" "secret"
    (Demo.go_state "") =
  (Go.Panicked (Go.PanicIndexOutOfRange 0 0),
   Go_after (Demo.go_state "") (Demo.go_client "") Go.DefaultClient
     (Go_login_request (Demo.go_client "") "alice" "secret") []).
Proof.
  apply (Login_without_Token_header_panics_out_of_range
           (Demo.go_libs (Demo.go_response 200 [] "")) "alice" "secret"
           (Demo.go_state "") (Demo.go_response 200 [] ""));
    first [ discriminate | reflexivity ].
Defined.

(** ** The interface table of the JavaScript client *)

(** Every JavaScript method follows the table of the interface.  A call
    whose arguments pass the checks of its method (their Numbers being safe
    integers), on a base URL that [new URL] takes, does not throw and makes
    exactly one request, with the method, path, query and body of the table
    and the headers the client stores; on a base URL that [new URL]
    rejects, it throws the [TypeError] of [new URL], makes no request and
    changes nothing.  A call whose arguments fail the checks throws, makes
    no request and changes nothing: it throws the missing-argument error of
    its method, or, in the three methods that build the URL first, the
    [TypeError] of [new URL] on a base URL that is rejected.  So
    [removeUserRequest("bob")] makes exactly one DELETE of
    [/api/user/bob]. *)
Theorem JS_calls_follow_the_interface_table :
  forall (L : JS.Libs) (c : JS.call) (s : JS.State),
    (JS_valid c = true -> JS_safe c = true ->
     JS.URL_error L (JS.apiUrl (JS.self s)) = None ->
     (forall e, fst (JS.run L c s) <> JS.Thrown e)
     /\ JS.sent (snd (JS.run L c s))
        = (JS.sent s ++ [JS_request_of L (JS.self s) c])%list)
    /\ (JS_valid c = true ->
        forall message,
          JS.URL_error L (JS.apiUrl (JS.self s)) = Some message ->
          JS.run L c s = (JS.Thrown (JS.TypeError message), s))
    /\ (JS_valid c = false ->
        JS.run L c s = (JS.Thrown (JS_thrown_on_invalid L (JS.self s) c), s)).
Proof.
  intros L c s. split; [ | split ].
  - intros Hv _ Hurl. pose proof (JS_valid_not_thrown L c s Hv Hurl) as Hok.
    split; [ exact Hok | exact (JS_run_sends L c s Hok) ].
  - intros Hv message Hurl.
    pose proof (JS_valid_unparsed_thrown L c s message Hv Hurl) as Hthrown.
    pose proof (JS_thrown_unchanged L c s _ Hthrown) as Hsame.
    destruct (JS.run L c s) as [result s']. cbn [fst snd] in *.
    subst. reflexivity.
  - exact (JS_invalid_run L c s).
Qed.

Lemma JS_removeUser_bob_witness :
  JS.sent (snd (JS.run (Demo.js_libs (Demo.js_response 200 [] "{}"))
                  (JS.CremoveUserRequest (JS.Str "bob")) Demo.js_state))
  = [{| JS.method := "DELETE";
        JS.url := JS.URL_of "/api/user/bob" "http://localhost:5000";
        JS.data := JS.NoData;
        JS.headers := JS.this_headers Demo.js_client |}].
Proof.
  exact (proj2 (proj1 (JS_calls_follow_the_interface_table
                         (Demo.js_libs (Demo.js_response 200 [] "{}"))
                         (JS.CremoveUserRequest (JS.Str "bob")) Demo.js_state)
                  eq_refl eq_refl eq_refl)).
Defined.

(** * Further properties *)

(** ** The matcher decides the language of the pattern *)

Module RegexpFacts.
Import Regexp.

Lemma append_nil_inv (s1 s2 : string) :
  s1 +:+ s2 = EmptyString -> s1 = EmptyString /\ s2 = EmptyString.
Proof. destruct s1; simpl; [ auto | discriminate ]. Qed.

Lemma append_cons_inv (s1 s2 : string) (c : ascii) (s : string) :
  s1 +:+ s2 = String c s ->
  (s1 = EmptyString /\ s2 = String c s)
  \/ exists s1', s1 = String c s1' /\ s = s1' +:+ s2.
Proof.
  destruct s1 as [ | a s1']; simpl; intros H.
  - left. auto.
  - right. injection H as -> <-. eauto.
Qed.

Lemma lang_nil_nullable (r : regex) (s : string) :
  lang r s -> s = EmptyString -> nullable r = true.
Proof.
  induction 1; intros Hs; simpl; try reflexivity; try discriminate.
  - apply append_nil_inv in Hs as [H1 H2]. rewrite IHlang1, IHlang2; auto.
  - rewrite IHlang; auto.
  - rewrite IHlang; auto using orb_true_r.
Qed.

Lemma nullable_lang (r : regex) : nullable r = true -> lang r EmptyString.
Proof.
  induction r; simpl; intros H; try discriminate.
  - constructor.
  - apply andb_true_iff in H as [H1 H2].
    change EmptyString with (EmptyString +:+ EmptyString). constructor; auto.
  - apply orb_true_iff in H as [H | H];
      [ apply lang_Alt_l | apply lang_Alt_r ]; auto.
  - constructor.
Qed.

Lemma lang_Void (s : string) : ~ lang Void s.
Proof. intros H. inversion H. Qed.

Lemma lang_Eps_inv (s : string) : lang Eps s -> s = EmptyString.
Proof. intros H. inversion H. reflexivity. Qed.

Lemma lang_cat (r1 r2 : regex) (s : string) :
  lang (cat r1 r2) s <-> lang (Cat r1 r2) s.
Proof.
  split.
  - destruct r1, r2; simpl; intros H;
      try (exfalso; exact (lang_Void _ H)); try exact H;
      change s with (EmptyString +:+ s); constructor;
      solve [ constructor | exact H ].
  - intros H. inversion H as [ | | ? ? s1 s2 H1 H2 | | | | ]; subst.
    destruct r1, r2; simpl;
      try (exfalso; eapply lang_Void; eassumption);
      try (constructor; assumption);
      apply lang_Eps_inv in H1; subst; exact H2.
Qed.

Lemma lang_alt (r1 r2 : regex) (s : string) :
  lang (alt r1 r2) s <-> lang (Alt r1 r2) s.
Proof.
  split.
  - destruct r1, r2; simpl; intros H;
      try (exfalso; exact (lang_Void _ H)); try exact H;
      solve [ apply lang_Alt_l; exact H | apply lang_Alt_r; exact H ].
  - intros H.
    inversion H; subst; destruct r1, r2; simpl;
      try (exfalso; eapply lang_Void; eassumption);
      try assumption;
      solve [ apply lang_Alt_l; assumption | apply lang_Alt_r; assumption ].
Qed.

Lemma deriv_sound (c : ascii) (r : regex) :
  forall s, lang (deriv c r) s -> lang r (String c s).
Proof.
  induction r as [ | | p | r1 IH1 r2 IH2 | r1 IH1 r2 IH2 | r1 IH1 ];
    simpl; intros s H.
  - exfalso. exact (lang_Void _ H).
  - exfalso. exact (lang_Void _ H).
  - destruct (p c) eqn:Hp; [ | exfalso; exact (lang_Void _ H) ].
    apply lang_Eps_inv in H. subst. constructor. exact Hp.
  - apply lang_alt in H. inversion H as [ | | | ? ? ? Hl | ? ? ? Hr | | ]; subst.
    + apply lang_cat in Hl.
      inversion Hl as [ | | ? ? s1 s2 H1 H2 | | | | ]; subst.
      change (String c (s1 +:+ s2)) with (String c s1 +:+ s2).
      constructor; auto.
    + destruct (nullable r1) eqn:Hn; [ | exfalso; exact (lang_Void _ Hr) ].
      change (String c s) with (EmptyString +:+ String c s).
      constructor; [ apply nullable_lang; exact Hn | auto ].
  - apply lang_alt in H. inversion H; subst;
      [ apply lang_Alt_l | apply lang_Alt_r ]; auto.
  - apply lang_cat in H.
    inversion H as [ | | ? ? s1 s2 H1 H2 | | | | ]; subst.
    change (String c (s1 +:+ s2)) with (String c s1 +:+ s2).
    constructor; auto.
Qed.

Lemma deriv_complete (r : regex) (s' : string) :
  lang r s' -> forall c s, s' = String c s -> lang (deriv c r) s.
Proof.
  induction 1 as [ | p a Hp | r1 r2 s1 s2 H1 IH1 H2 IH2 | r1 r2 s0 H1 IH1
                 | r1 r2 s0 H2 IH2 | r1 | r1 s1 s2 H1 IH1 H2 IH2 ];
    intros c s Hs; simpl.
  - discriminate.
  - injection Hs as -> <-. rewrite Hp. constructor.
  - apply lang_alt.
    apply append_cons_inv in Hs as [[-> ->] | (s1' & -> & ->)].
    + apply lang_Alt_r.
      rewrite (lang_nil_nullable r1 EmptyString H1 eq_refl). auto.
    + apply lang_Alt_l. apply lang_cat. constructor; auto.
  - apply lang_alt. apply lang_Alt_l. auto.
  - apply lang_alt. apply lang_Alt_r. auto.
  - discriminate.
  - apply append_cons_inv in Hs as [[-> ->] | (s1' & -> & ->)].
    + exact (IH2 c s eq_refl).
    + apply lang_cat. constructor; auto.
Qed.

(** The matcher is sound and complete for the language. *)
Lemma matches_lang (s : string) :
  forall r, matches r s = true <-> lang r s.
Proof.
  induction s as [ | c s IH ]; intros r; simpl.
  - split; [ apply nullable_lang | intros H; exact (lang_nil_nullable r _ H eq_refl) ].
  - rewrite IH. split; [ apply deriv_sound | intros H; exact (deriv_complete r _ H c s eq_refl) ].
Qed.

End RegexpFacts.

(** ** What the two patterns accept *)

Module PatternFacts.
Import Regexp RegexpFacts.

Lemma chars_app (s1 s2 : string) : chars (s1 +:+ s2) = (chars s1 ++ chars s2)%list.
Proof. induction s1 as [ | c s1 IH ]; simpl; [ | unfold chars in *; simpl; rewrite IH ]; reflexivity. Qed.

(** The characters of a matched string are in the classes of the pattern. *)
Lemma lang_chars (P : ascii -> bool) (r : regex) (s : string) :
  lang r s -> classes_within P r ->
  Forall (fun c => P c = true) (chars s).
Proof.
  induction 1; simpl; intros Hw;
    try (rewrite chars_app; apply Forall_app; split);
    try solve [ constructor ]; try tauto.
  repeat constructor. auto.
Qed.

Lemma classes_within_Opt P r : classes_within P r -> classes_within P (Opt r).
Proof. simpl. tauto. Qed.
Lemma classes_within_Plus P r : classes_within P r -> classes_within P (Plus r).
Proof. simpl. tauto. Qed.
Lemma classes_within_UpTo P n r : classes_within P r -> classes_within P (UpTo n r).
Proof. intros H. induction n; simpl; tauto. Qed.
Lemma classes_within_Exactly P n r :
  classes_within P r -> classes_within P (Exactly n r).
Proof. intros H. induction n; simpl; tauto. Qed.
Lemma classes_within_Between P m n r :
  classes_within P r -> classes_within P (Between m n r).
Proof.
  intros H. split; [ apply classes_within_Exactly | apply classes_within_UpTo ]; exact H.
Qed.
Lemma classes_within_AtLeast P m r :
  classes_within P r -> classes_within P (AtLeast m r).
Proof. intros H. split; [ apply classes_within_Exactly | ]; exact H. Qed.

(** A literal matches itself only; under the [i] flag, up to case. *)
Lemma lang_Lit (t s : string) : lang (Lit t) s -> s = t.
Proof.
  revert s. induction t as [ | a t IH ]; simpl; intros s H.
  - apply lang_Eps_inv. exact H.
  - inversion H as [ | | ? ? s1 s2 H1 H2 | | | | ]; subst.
    inversion H1 as [ | ? c Hc | | | | | ]; subst.
    apply Ascii.eqb_eq in Hc. subst. simpl. f_equal. apply IH. exact H2.
Qed.

Lemma lang_LitI (t s : string) : lang (LitI t) s -> lower s = lower t.
Proof.
  revert s. induction t as [ | a t IH ]; simpl; intros s H.
  - apply lang_Eps_inv in H. subst. reflexivity.
  - inversion H as [ | | ? ? s1 s2 H1 H2 | | | | ]; subst.
    inversion H1 as [ | ? c Hc | | | | | ]; subst.
    apply Ascii.eqb_eq in Hc. unfold lower in *. simpl. rewrite Hc.
    f_equal. apply IH. exact H2.
Qed.

Lemma append_assoc (s1 s2 s3 : string) :
  (s1 +:+ s2) +:+ s3 = s1 +:+ (s2 +:+ s3).
Proof.
  induction s1 as [ | c s1 IH ]; [ reflexivity | ].
  change (String c ((s1 +:+ s2) +:+ s3) = String c (s1 +:+ (s2 +:+ s3))).
  rewrite IH. reflexivity.
Qed.

Lemma lower_app (s1 s2 : string) : lower (s1 +:+ s2) = lower s1 +:+ lower s2.
Proof.
  unfold lower. induction s1 as [ | c s1 IH ]; simpl; [ | rewrite IH ]; reflexivity.
Qed.

(** A pattern that is not nullable matches no empty string. *)
Lemma lang_nonempty (r : regex) (s : string) :
  nullable r = false -> lang r s -> s <> EmptyString.
Proof.
  intros Hn H Hs. rewrite (lang_nil_nullable r s H Hs) in Hn. discriminate.
Qed.

(** One fact about a character class, by running through the characters. *)
Ltac by_characters :=
  let c := fresh "c" in
  let Hc := fresh "Hc" in
  intros c; destruct c as [[] [] [] [] [] [] [] []];
  vm_compute; intros Hc; solve [ reflexivity | discriminate Hc ].

Ltac classes :=
  lazymatch goal with
  | |- classes_within _ (UpTo _ _) => apply classes_within_UpTo; classes
  | |- classes_within _ (Exactly _ _) => apply classes_within_Exactly; classes
  | |- classes_within _ (Between _ _ _) => apply classes_within_Between; classes
  | |- classes_within _ (AtLeast _ _) => apply classes_within_AtLeast; classes
  | |- classes_within _ (Opt _) => apply classes_within_Opt; classes
  | |- classes_within _ (Plus _) => apply classes_within_Plus; classes
  | |- classes_within _ (Cat _ _) => split; classes
  | |- classes_within _ (Alt _ _) => split; classes
  | |- classes_within ?P (Star ?r) => change (classes_within P r); classes
  | |- classes_within _ (Class _) => cbn [classes_within]; by_characters
  | |- classes_within _ Eps => exact I
  | |- classes_within _ Void => exact I
  | |- classes_within ?P ?r =>
      let r' := eval red in r in change (classes_within P r'); classes
  end.

Lemma email_domain_classes :
  classes_within domain_char
    (Cat Go.label (Star (Cat (Chr ".") Go.label))).
Proof. classes. Qed.

Lemma url_classes : classes_within (fun c => negb (JS.is_space c)) JS.reg.
Proof. classes. Qed.

(** An email [validateFormat] accepts is a non-empty local part of
    permitted characters, one [@], and a domain of letters, digits, hyphens
    and dots that starts with a letter or digit; no other [@] occurs. *)
Theorem accepted_email_shape (email : string) :
  Go.validateFormat email = None ->
  exists (local domain : string) (d : ascii) (rest : string),
    email = local +:+ "@" +:+ domain
    /\ local <> EmptyString
    /\ Forall (fun c => Go.local_char c = true) (chars local)
    /\ domain = String d rest
    /\ is_alnum d = true
    /\ Forall (fun c => domain_char c = true) (chars domain)
    /\ ~ In "@"%char (chars local) /\ ~ In "@"%char (chars domain).
Proof.
  unfold Go.validateFormat. intros H.
  destruct (matches Go.emailRegexp email) eqn:Hm; [ | discriminate H ].
  apply matches_lang in Hm. unfold Go.emailRegexp in Hm.
  inversion Hm as [ | | ? ? local s2 Hlocal H2 | | | | ]; subst.
  inversion H2 as [ | | ? ? at_ domain Hat Hdomain | | | | ]; subst.
  inversion Hat as [ | ? c Hc | | | | | ]; subst.
  apply Ascii.eqb_eq in Hc. subst c.
  assert (Hl : Forall (fun c => Go.local_char c = true) (chars local)).
  { apply (lang_chars _ _ _ Hlocal). classes. }
  assert (Hd : Forall (fun c => domain_char c = true) (chars domain)).
  { apply (lang_chars _ _ _ Hdomain). exact email_domain_classes. }
  inversion Hdomain as [ | | ? ? s3 s4 Hlabel Hmore | | | | ]; subst.
  unfold Go.label in Hlabel.
  inversion Hlabel as [ | | ? ? s5 s6 Hfirst Hafter | | | | ]; subst.
  inversion Hfirst as [ | ? d Hdig | | | | | ]; subst.
  exists local, ((String d EmptyString +:+ s6) +:+ s4), d, (s6 +:+ s4).
  split; [ reflexivity | ].
  split; [ exact (lang_nonempty (Plus (Class Go.local_char)) local eq_refl Hlocal) | ].
  split; [ exact Hl | ].
  split; [ reflexivity | ].
  split; [ assumption | ].
  split; [ exact Hd | ].
  split.
  - intros Hin. rewrite Forall_forall in Hl.
    apply list_elem_of_In in Hin. specialize (Hl _ Hin). discriminate Hl.
  - intros Hin. rewrite Forall_forall in Hd.
    apply list_elem_of_In in Hin. specialize (Hd _ Hin). discriminate Hd.
Qed.

Lemma accepted_email_witness :
  exists (local domain : string) (d : ascii) (rest : string),
    "alice@example.com" = local +:+ "@" +:+ domain
    /\ local <> EmptyString
    /\ Forall (fun c => Go.local_char c = true) (chars local)
    /\ domain = String d rest
    /\ is_alnum d = true
    /\ Forall (fun c => domain_char c = true) (chars domain)
    /\ ~ In "@"%char (chars local) /\ ~ In "@"%char (chars domain).
Proof. apply (accepted_email_shape "alice@example.com"). vm_compute. reflexivity. Defined.

(** A base URL the constructor accepts starts with [http], [https], [ftp]
    or [ftps] in any case, then [://] and a non-empty rest, and contains no
    white space. *)
Theorem constructed_base_url_shape
  (apiUrl : string) (total backoffFactor timeout : option Z) (b : JS.Bassa) :
  JS.constructor apiUrl total backoffFactor timeout = inr b ->
  exists (scheme rest : string),
    apiUrl = scheme +:+ "://" +:+ rest
    /\ In (lower scheme) ["http"; "https"; "ftp"; "ftps"]
    /\ rest <> EmptyString
    /\ Forall (fun c => JS.is_space c = false) (chars apiUrl).
Proof.
  unfold JS.constructor. intros H.
  destruct (matches JS.reg apiUrl) eqn:Hm; [ | discriminate H ].
  apply matches_lang in Hm.
  assert (Hsp : Forall (fun c => JS.is_space c = false) (chars apiUrl)).
  { eapply Forall_impl; [ exact (lang_chars _ _ _ Hm url_classes) | ].
    intros c Hc. cbn beta in Hc. apply negb_true_iff in Hc. exact Hc. }
  unfold JS.reg in Hm.
  inversion Hm as [ | | ? ? s1 rest Hscheme Hrest | | | | ]; subst.
  unfold JS.scheme in Hscheme.
  inversion Hscheme as [ | | ? ? name s2 Hname Hs2 | | | | ]; subst.
  inversion Hs2 as [ | | ? ? s sep Hs Hsep | | | | ]; subst.
  apply (lang_Lit "://") in Hsep. subst sep.
  assert (Hlow : lower name = "http" \/ lower name = "ftp").
  { inversion Hname as [ | | | ? ? ? Hh | ? ? ? Hf | | ]; subst;
      [ left; exact (lang_LitI "http" _ Hh)
      | right; exact (lang_LitI "ftp" _ Hf) ]. }
  assert (Hopt : lower s = "" \/ lower s = "s").
  { inversion Hs as [ | | | ? ? ? Hl | ? ? ? Hr | | ]; subst.
    - right. inversion Hl as [ | ? c Hc | | | | | ]; subst.
      assert (Hc' : Ascii.eqb (to_lower "s") (to_lower c) = true) by exact Hc.
      apply Ascii.eqb_eq in Hc'. unfold lower. simpl. rewrite <- Hc'. reflexivity.
    - left. apply lang_Eps_inv in Hr. subst. reflexivity. }
  exists (name +:+ s), rest.
  split; [ | split; [ | split ] ].
  - rewrite !append_assoc. reflexivity.
  - rewrite lower_app.
    destruct Hlow as [-> | ->], Hopt as [-> | ->]; simpl; tauto.
  - exact (lang_nonempty (Cat JS.host (Cat JS.port JS.tail)) rest eq_refl Hrest).
  - exact Hsp.
Qed.

Lemma constructed_base_url_witness :
  exists (scheme rest : string),
    "HTTPS://Example.com/api" = scheme +:+ "://" +:+ rest
    /\ In (lower scheme) ["http"; "https"; "ftp"; "ftps"]
    /\ rest <> EmptyString
    /\ Forall (fun c => JS.is_space c = false) (chars "HTTPS://Example.com/api").
Proof.
  destruct (JS.constructor "HTTPS://Example.com/api" None None None)
    as [e | b] eqn:Hb; [ vm_compute in Hb; discriminate Hb | ].
  exact (constructed_base_url_shape _ None None None b Hb).
Defined.

End PatternFacts.

(** ** The interface table of the Go client *)

(** Case analysis for a Go call set against its table entry: the string
    concatenations are brought to one form first. *)
Ltac go_table L :=
  go_unfold;
  unfold Go_wire, Go_checked, Go_via, Go.validateFormat;
  cbn [Go.required Go.email_of forallb];
  cbv [String.append];
  repeat match goal with
         | |- context [Go.is_empty ?a] => destruct (Go.is_empty a) eqn:?
         | |- context [Regexp.matches Go.emailRegexp ?e] =>
             destruct (Regexp.matches Go.emailRegexp e) eqn:?
         end;
  cbn [negb orb andb];
  go_cases L;
  repeat match goal with
         | H : Some _ = Some _ |- _ => injection H as H; subst
         | H : Some _ = None |- _ => discriminate H
         | H : None = Some _ |- _ => discriminate H
         | H : ?x = Some _, H' : ?x = _ |- _ => rewrite H in H'
         | H : ?x = None, H' : ?x = _ |- _ => rewrite H in H'
         end.

Lemma Go_run_table (L : Go.Libs) (c : Go.call) (s : Go.State) :
  Go.sent (snd (Go.run L c s))
  = (Go.sent s ++ option_list (Go_wire L (Go.self s) c))%list
  /\ (Go_wire L (Go.self s) c = None ->
      exists p, Go.run L c s = (Go.Panicked p, s)).
Proof.
  assert (Hnil : forall l : list (Go.Client * Go.Request), l = (l ++ [])%list)
    by (intros l; rewrite app_nil_r; reflexivity).
  split.
  - destruct c; go_table L; cbn [snd Go.sent option_list];
      first [ reflexivity | apply Hnil ].
  - destruct c; go_table L; intros Hnone;
      first [ discriminate Hnone | eexists; reflexivity ].
Qed.

(** Every Go method follows its table entry: a call makes the request of
    the table and no other; a call that makes none (a failed argument check,
    a URL that does not parse, a client that was not initialised) panics and
    changes nothing. *)
Theorem Go_calls_follow_the_interface_table :
  forall (L : Go.Libs) (c : Go.call) (s : Go.State),
    Go.sent (snd (Go.run L c s))
    = (Go.sent s ++ option_list (Go_wire L (Go.self s) c))%list
    /\ (Go_wire L (Go.self s) c = None ->
        exists p, Go.run L c s = (Go.Panicked p, s)).
Proof. exact Go_run_table. Qed.

Lemma Go_removeUser_bob_witness :
  Go.sent (snd (Go.run (Demo.go_libs (Demo.go_response 200 [] "{}"))
                  (Go.CRemoveUserRequest "bob") (Demo.go_state "t0")))
  = [(Go.Heimdall {| Go.httpTimeout := 5000000000; Go.httpRetryCount := 3;
                     Go.backoffInterval := 10000000;
                     Go.backoffMaxJitter := 50000000 |},
      Go_request (Demo.go_client "t0") "DELETE"
        "http://localhost:5000/api/user/bob" Go.NoPayload)].
Proof.
  exact (proj1 (Go_calls_follow_the_interface_table
                  (Demo.go_libs (Demo.go_response 200 [] "{}"))
                  (Go.CRemoveUserRequest "bob") (Demo.go_state "t0"))).
Defined.

(** ** What the Go methods do with the answer *)

Ltac go_tidy :=
  repeat match goal with
         | H : Go.roundTrip ?L ?c ?r1 = ?x, H' : Go.roundTrip ?L ?c ?r2 = ?y
           |- _ =>
             let E := fresh "E" in
             pose proof (eq_trans (eq_sym H) H' : x = y) as E; clear H'
         | H : Some _ = Some _ |- _ => injection H as H; subst
         | H : Go.Ok _ = Go.Ok _ |- _ => injection H as H; subst
         | H : Go.Err _ = Go.Err _ |- _ => injection H as H; subst
         | H : (_, _) = (_, _) |- _ => injection H as H; subst
         | H : Some _ = None |- _ => discriminate H
         | H : None = Some _ |- _ => discriminate H
         | H : Go.Ok _ = Go.Err _ |- _ => discriminate H
         | H : Go.Err _ = Go.Ok _ |- _ => discriminate H
         | H : ?x = Some _, H' : ?x = _ |- _ => rewrite H in H'
         | H : ?x = None, H' : ?x = _ |- _ => rewrite H in H'
         | H : ?x = Go.Ok _, H' : ?x = _ |- _ => rewrite H in H'
         | H : ?x = Go.Err _, H' : ?x = _ |- _ => rewrite H in H'
         end.

(** A transport error makes every Go method panic with that error: the
    request has been handed over, the client is as it was, nothing has been
    printed. *)
Theorem Go_transport_error_panics
  (L : Go.Libs) (c : Go.call) (s : Go.State)
  (cl : Go.Client) (r : Go.Request) (e : Go.error) :
  Go_wire L (Go.self s) c = Some (cl, r) ->
  Go.roundTrip L cl r = Go.Err e ->
  Go.run L c s = (Go.Panicked (Go.PanicError e), Go_after s (Go.self s) cl r []).
Proof.
  assert (Hnil : forall l : list string, (l ++ [])%list = l)
    by (intros l; apply app_nil_r).
  unfold Go_after; rewrite Hnil.
  destruct c; go_table L; intros Hw Hrt; go_tidy;
    cbv [String.append] in *; go_tidy;
    try reflexivity; try discriminate.
Qed.

Lemma Go_transport_error_witness :
  Go.run {| Go.JSON := string;
            Go.url_Parse := fun _ => None;
            Go.roundTrip := fun _ _ => Go.Err (Go.errLibrary "net/http" "timeout");
            Go.json_Marshal := Demo.go_json_Marshal;
            Go.json_Decode := Demo.go_json_Decode;
            Go.prettyjson_Marshal := fun j => j |}
    Go.CGetUserRequest (Demo.go_state "t0")
  = (Go.Panicked (Go.PanicError (Go.errLibrary "net/http" "timeout")),
     Go_after (Demo.go_state "t0") (Demo.go_client "t0")
       (Go.Heimdall {| Go.httpTimeout := 5000000000; Go.httpRetryCount := 3;
                       Go.backoffInterval := 10000000;
                       Go.backoffMaxJitter := 50000000 |})
       (Go_request (Demo.go_client "t0") "GET"
          "http://localhost:5000/api/user" Go.NoPayload) []).
Proof.
  apply Go_transport_error_panics; reflexivity.
Defined.

(** The answer of a decoding Go method, whatever its status: when the body
    decodes, the method returns (the pretty-printed text, for the methods
    that return a string) and prints that text, except [RemoveUserRequest],
    which prints nothing; when the body does not decode, the method panics
    with the decoder's error, after the request has been carried out. *)
Theorem Go_decoding_methods_answer
  (L : Go.Libs) (c : Go.call) (s : Go.State)
  (cl : Go.Client) (r : Go.Request) (response : Go.Response) :
  Go_decodes c = true ->
  Go_wire L (Go.self s) c = Some (cl, r) ->
  Go.roundTrip L cl r = Go.Ok response ->
  Go.run L c s =
  match Go.json_Decode L (Go.RespBody response) with
  | Go.Ok j =>
      (Go.Returned (Go_result c (Go.prettyjson_Marshal L j)),
       Go_after s (Go.self s) cl r (Go_printed c (Go.prettyjson_Marshal L j)))
  | Go.Err e =>
      (Go.Panicked (Go.PanicError e), Go_after s (Go.self s) cl r [])
  end.
Proof.
  assert (Hnil : forall l : list string, (l ++ [])%list = l)
    by (intros l; apply app_nil_r).
  unfold Go_after.
  destruct c; intros Hd; try discriminate Hd; clear Hd;
    go_table L; intros Hw Hrt; go_tidy;
    cbv [String.append] in *; go_tidy;
    cbn [Go_result Go_printed]; rewrite ?Hnil;
    try reflexivity; try discriminate.
Qed.

Lemma Go_decoding_methods_witness :
  Go.run (Demo.go_libs (Demo.go_response 204 [] "")) (Go.CBlockUserRequest "bob")
    (Demo.go_state "t0")
  = (Go.Panicked (Go.PanicError
                    (Go.errLibrary "encoding/json" "invalid character")),
     Go_after (Demo.go_state "t0") (Demo.go_client "t0")
       (Go.Heimdall {| Go.httpTimeout := 5000000000; Go.httpRetryCount := 3;
                       Go.backoffInterval := 10000000;
                       Go.backoffMaxJitter := 50000000 |})
       (Go_request (Demo.go_client "t0") "POST"
          "http://localhost:5000/api/user/blocked/bob" Go.NoPayload) []).
Proof.
  exact (Go_decoding_methods_answer
           (Demo.go_libs (Demo.go_response 204 [] "")) (Go.CBlockUserRequest "bob")
           (Demo.go_state "t0") _ _ (Demo.go_response 204 [] "")
           eq_refl eq_refl eq_refl).
Defined.

(** [Login] is not all-or-nothing: when the answer has a [Token] header
    but its body cannot be read, [Login] prints what was read and panics
    with the read error, and the session token has been replaced all the
    same. *)
Theorem Go_Login_body_error_keeps_new_token
  (L : Go.Libs) (userName password : string) (s : Go.State)
  (response : Go.Response) (t : string) (rest : list string) (e : Go.error) :
  userName <> "" -> password <> "" ->
  Go.url_Parse L (Go.apiURL (Go.self s) +:+ "/api/login") = None ->
  Go.roundTrip L Go.DefaultClient
    (Go_login_request (Go.self s) userName password) = Go.Ok response ->
  Go.RespHeader response !! "Token" = Some (t :: rest) ->
  Go.body_err (Go.RespBody response) = Some e ->
  Go.Login L userName password s =
  (Go.Panicked (Go.PanicError e),
   Go_after s (Go_with_token (Go.self s) t) Go.DefaultClient
     (Go_login_request (Go.self s) userName password)
     [Go.body_bytes (Go.RespBody response)]).
Proof.
  intros Hu Hp Hurl Hrt Htok Hbody.
  rewrite (Go_Login_posts L userName password s response Hu Hp Hurl Hrt).
  unfold Go.header_get. rewrite Htok. cbn [default Go.index0].
  unfold Go.bind, Go.ret, Go.set_token, Go.get_self, Go.put_self,
    Go.ReadAll_or_panic, Go.Println, Go.panic.
  rewrite Hbody. cbn. unfold Go_after. cbn. rewrite app_nil_r. reflexivity.
Qed.

Lemma Go_Login_body_error_witness :
  Go.token (Go.self (snd (Go.Login
     (Demo.go_libs
        {| Go.StatusCode := 200;
           Go.RespHeader := {[ "Token" := ["abc123"] ]};
           Go.RespBody := {| Go.body_bytes := "{";
                             Go.body_err := Some (Go.errLibrary "io" "unexpected EOF") |} |})
     "alice" "secret" (Demo.go_state "old")))) = "abc123".
Proof.
  rewrite (Go_Login_body_error_keeps_new_token _ "alice" "secret"
             (Demo.go_state "old")
             {| Go.StatusCode := 200;
                Go.RespHeader := {[ "Token" := ["abc123"] ]};
                Go.RespBody := {| Go.body_bytes := "{";
                                  Go.body_err := Some (Go.errLibrary "io" "unexpected EOF") |} |}
             "abc123" [] (Go.errLibrary "io" "unexpected EOF"));
    first [ reflexivity | discriminate ].
Defined.

(** A client that was never initialised has no HTTP client: a call other
    than [Login] that would make a request on an initialised client panics
    on the nil pointer instead, after its checks, and makes no request. *)
Theorem Go_uninitialised_client_panics
  (L : Go.Libs) (c : Go.call) (s : Go.State)
  (hc : Go.HTTPClient) (r : Go.Request) :
  Go.httpClient (Go.self s) = None ->
  Go_wire L (Go_with_client (Go.self s) hc) c = Some (Go.Heimdall hc, r) ->
  Go.run L c s = (Go.Panicked Go.PanicNilDereference, s).
Proof.
  assert (Hs : forall s : Go.State,
             {| Go.self := Go.self s; Go.sent := Go.sent s;
                Go.stdout := Go.stdout s |} = s)
    by (intros []; reflexivity).
  intros Hnone.
  destruct c; go_unfold;
    unfold Go_wire, Go_checked, Go_via, Go_with_client, Go.validateFormat;
    cbn [Go.required Go.email_of forallb Go.apiURL Go.httpClient];
    cbv [String.append];
    repeat match goal with
           | |- context [Go.is_empty ?a] => destruct (Go.is_empty a) eqn:?
           | |- context [Regexp.matches Go.emailRegexp ?e] =>
               destruct (Regexp.matches Go.emailRegexp e) eqn:?
           end;
    cbn [negb orb andb]; rewrite ?Hnone;
    go_cases L; intros Hw; go_tidy;
    try discriminate; try reflexivity; try apply f_equal; try apply Hs.
Qed.

Lemma Go_uninitialised_client_witness :
  Go.run (Demo.go_libs (Demo.go_response 200 [] "{}")) Go.CGetUserRequest
    {| Go.self := Go.zero_Bassa; Go.sent := []; Go.stdout := [] |}
  = (Go.Panicked Go.PanicNilDereference,
     {| Go.self := Go.zero_Bassa; Go.sent := []; Go.stdout := [] |}).
Proof.
  apply (Go_uninitialised_client_panics
           (Demo.go_libs (Demo.go_response 200 [] "{}")) Go.CGetUserRequest
           {| Go.self := Go.zero_Bassa; Go.sent := []; Go.stdout := [] |}
           {| Go.httpTimeout := 1; Go.httpRetryCount := 0;
              Go.backoffInterval := 10000000;
              Go.backoffMaxJitter := 50000000 |}
           (Go_request Go.zero_Bassa "GET" "/api/user" Go.NoPayload));
    reflexivity.
Defined.

(** ** Calls in sequence on the Go client *)

(** A request of a method other than [Login] is made by the client's own
    HTTP client and carries the session token as its only header. *)
Lemma Go_wire_carries_token (L : Go.Libs) (b : Go.Bassa) (c : Go.call)
  (cl : Go.Client) (r : Go.Request) :
  Go_is_login c = false ->
  Go_wire L b c = Some (cl, r) ->
  exists hc, Go.httpClient b = Some hc /\ cl = Go.Heimdall hc
             /\ Go.ReqHeader r = {[ "Token" := [Go.token b] ]}.
Proof.
  intros Hc.
  destruct c; try discriminate Hc; unfold Go_wire, Go_via;
    destruct (negb (Go_checked _)); try discriminate;
    repeat match goal with
           | |- context [match ?x with _ => _ end] => destruct x eqn:?
           end;
    intros Hw; try discriminate Hw; injection Hw as <- <-;
    eexists; repeat split; reflexivity.
Qed.

Lemma Go_int64_small (z : Z) : - 2 ^ 63 <= z < 2 ^ 63 -> Go.int64 z = z.
Proof.
  intros Hz. unfold Go.int64.
  change (2 ^ 63) with 9223372036854775808 in *.
  change (2 ^ 64) with 18446744073709551616.
  rewrite Z.mod_small by lia. lia.
Qed.

Lemma Go_milliseconds_exact (n : Z) :
  - 9223372036854 <= n <= 9223372036854 ->
  Go.milliseconds n = n * 1000000.
Proof.
  intros Hn. unfold Go.milliseconds, Go.Millisecond.
  rewrite (Go_int64_small n)
    by (change (2 ^ 63) with 9223372036854775808; lia).
  apply Go_int64_small. change (2 ^ 63) with 9223372036854775808. lia.
Qed.

(** [Init], then [Login], then another method: the method's request is made
    by the HTTP client [Init] configured and carries the token the login
    answer gave, after the login request of the default client.  The client
    has the retry count given, a constant backoff of 10 ms with at most
    50 ms of jitter, and as timeout the [time.Duration] that
    [time.Duration(timeout) * time.Millisecond] computes in [int64]: that
    many milliseconds for a timeout of at most 9223372036854 in absolute
    value, a wrapped number beyond. *)
Theorem Go_Init_Login_then_call
  (L : Go.Libs) (apiURL : string) (timeout retryCount : Z)
  (userName password : string) (c : Go.call) (s : Go.State)
  (response : Go.Response) (t : string) (rest : list string)
  (cl : Go.Client) (r : Go.Request) :
  apiURL <> "" -> timeout <> 0 -> Go.url_Parse L apiURL = None ->
  userName <> "" -> password <> "" ->
  Go.url_Parse L (apiURL +:+ "/api/login") = None ->
  Go.roundTrip L Go.DefaultClient
    (Go_login_request (Go_initialized apiURL timeout retryCount)
       userName password) = Go.Ok response ->
  Go.RespHeader response !! "Token" = Some (t :: rest) ->
  Go.body_err (Go.RespBody response) = None ->
  Go_is_login c = false ->
  Go_wire L (Go_with_token (Go_initialized apiURL timeout retryCount) t) c
  = Some (cl, r) ->
  Go.sent (snd (Go.bind (Go.Init L apiURL timeout retryCount)
                  (fun _ => Go.bind (Go.Login L userName password)
                              (fun _ => Go.run L c)) s))
  = (Go.sent s ++
       [(Go.DefaultClient,
         Go_login_request (Go_initialized apiURL timeout retryCount)
           userName password);
        (cl, r)])%list
  /\ cl = Go.Heimdall {| Go.httpTimeout := Go.milliseconds timeout;
                         Go.httpRetryCount := retryCount;
                         Go.backoffInterval := 10000000;
                         Go.backoffMaxJitter := 50000000 |}
  /\ (- 9223372036854 <= timeout <= 9223372036854 ->
      Go.milliseconds timeout = timeout * 1000000)
  /\ Go.ReqHeader r !! "Token" = Some [t].
Proof.
  intros Hurl Ht Hparse Hu Hp Hlogin Hrt Htok Hbody Hc Hw.
  destruct (Go_wire_carries_token L _ c cl r Hc Hw) as (hc & Hhc & -> & Hhdr).
  cbn [Go_with_token Go_initialized Go.httpClient] in Hhc.
  injection Hhc as <-.
  split; [ | split; [ reflexivity | split;
             [ apply Go_milliseconds_exact
             | rewrite Hhdr; apply lookup_singleton_eq ] ] ].
  unfold Go.bind at 1. rewrite Go_Init_cases.
  rewrite (Go_is_empty_false _ Hurl), (proj2 (Z.eqb_neq _ _) Ht), Hparse.
  cbn [orb]. cbv beta iota.
  unfold Go.bind at 1.
  pose (s1 := {| Go.self := Go_initialized apiURL timeout retryCount;
                 Go.sent := Go.sent s; Go.stdout := Go.stdout s |}).
  fold s1.
  rewrite (Go_Login_posts L userName password s1 response Hu Hp Hlogin Hrt).
  unfold Go.header_get. cbn [Go.self s1]. rewrite Htok.
  unfold Go.bind, Go.ret, Go.set_token, Go.get_self, Go.put_self,
    Go.ReadAll_or_panic.
  rewrite Hbody. cbn [default id Go.index0]. unfold Go.ret. cbv beta iota.
  unfold Go.bind. cbv beta iota.
  cbn [Go.self Go.sent Go.stdout Go_after s1].
  match goal with
  | |- Go.sent (snd (Go.run L c ?s2)) = _ =>
      rewrite (proj1 (Go_run_table L c s2)); cbn [Go.self Go.sent]
  end.
  match goal with
  | |- context [Go_wire L ?b c] =>
      change b with (Go_with_token (Go_initialized apiURL timeout retryCount) t)
  end.
  rewrite Hw. cbn [option_list]. rewrite <- app_assoc. reflexivity.
Qed.

Lemma Go_Init_Login_then_call_witness :
  map (fun cr => (Go.Method (snd cr), Go.URL (snd cr),
                  Go.ReqHeader (snd cr) !! "Token"))
    (Go.sent (snd (Go.bind
       (Go.Init (Demo.go_libs (Demo.go_response 200 [("Token", ["abc123"])] "{}"))
          "http://localhost:5000" 5000 3)
       (fun _ => Go.bind
          (Go.Login (Demo.go_libs (Demo.go_response 200 [("Token", ["abc123"])] "{}"))
             "alice" "secret")
          (fun _ => Go.run (Demo.go_libs (Demo.go_response 200 [("Token", ["abc123"])] "{}"))
                      (Go.CRemoveUserRequest "bob")))
       {| Go.self := Go.zero_Bassa; Go.sent := []; Go.stdout := [] |})))
  = [("POST", "http://localhost:5000/api/login", None);
     ("DELETE", "http://localhost:5000/api/user/bob", Some ["abc123"])].
Proof.
  rewrite (proj1 (Go_Init_Login_then_call
             (Demo.go_libs (Demo.go_response 200 [("Token", ["abc123"])] "{}"))
             "http://localhost:5000" 5000 3 "alice" "secret"
             (Go.CRemoveUserRequest "bob")
             {| Go.self := Go.zero_Bassa; Go.sent := []; Go.stdout := [] |}
             (Demo.go_response 200 [("Token", ["abc123"])] "{}") "abc123" []
             (Go.Heimdall {| Go.httpTimeout := 5000000000; Go.httpRetryCount := 3;
                             Go.backoffInterval := 10000000;
                             Go.backoffMaxJitter := 50000000 |})
             (Go_request (Go_with_token (Go_initialized "http://localhost:5000" 5000 3) "abc123")
                "DELETE" "http://localhost:5000/api/user/bob" Go.NoPayload)
             ltac:(discriminate) ltac:(discriminate) eq_refl
             ltac:(discriminate) ltac:(discriminate) eq_refl eq_refl eq_refl
             eq_refl eq_refl eq_refl)).
  vm_compute. reflexivity.
Defined.

(** ** The limit in the path of the Go client *)

Lemma append_inj_l (s a b : string) : s +:+ a = s +:+ b -> a = b.
Proof.
  induction s as [ | c s IH ]; simpl; intros H; [ exact H | ].
  injection H as H. exact (IH H).
Qed.

Lemma pretty_N_char_digit (x : N) : sign_or_digit (pretty_N_char x) = true.
Proof. unfold pretty_N_char. repeat case_match; reflexivity. Qed.

Lemma pretty_N_go_head (x : N) :
  forall s : string,
    (exists c rest, s = String c rest /\ sign_or_digit c = true) ->
    exists c rest, pretty_N_go x s = String c rest /\ sign_or_digit c = true.
Proof.
  induction (N.lt_wf_0 x) as [x _ IH]. intros s Hs.
  destruct (N.eq_dec x 0%N) as [-> | Hx].
  - rewrite pretty_N_go_0. exact Hs.
  - rewrite pretty_N_go_step by lia.
    apply IH; [ apply N.div_lt; lia | ].
    eexists _, _. split; [ reflexivity | apply pretty_N_char_digit ].
Qed.

(** A decimal rendering starts with a digit or a minus sign. *)
Lemma decimal_head (n : Z) :
  exists c rest, decimal n = String c rest /\ sign_or_digit c = true.
Proof.
  unfold decimal, pretty, pretty_Z.
  destruct n as [ | p | p ].
  - eexists _, _. split; reflexivity.
  - unfold pretty, pretty_positive, pretty, pretty_N.
    destruct (decide (N.pos p = 0%N)) as [H | _]; [ discriminate H | ].
    rewrite pretty_N_go_step by lia.
    apply pretty_N_go_head.
    eexists _, _. split; [ reflexivity | apply pretty_N_char_digit ].
  - eexists _, _. split; reflexivity.
Qed.

Lemma lead_byte_not_a_digit (lead y : Z) :
  In lead [0xC0; 0xE0; 0xF0] -> 0 <= y < 32 ->
  sign_or_digit (ascii_of_N (Z.to_N (Z.lor lead y))) = false.
Proof.
  intros Hlead Hy.
  assert (Hall : forallb (fun l =>
            forallb (fun k => negb (sign_or_digit
                       (ascii_of_N (Z.to_N (Z.lor l (Z.of_nat k))))))
              (seq 0 32)) [0xC0; 0xE0; 0xF0] = true) by (vm_compute; reflexivity).
  rewrite forallb_forall in Hall. specialize (Hall lead Hlead).
  rewrite forallb_forall in Hall. specialize (Hall (Z.to_nat y)).
  rewrite Z2Nat.id in Hall by lia.
  apply negb_true_iff. apply Hall. apply in_seq. lia.
Qed.

(** Outside 0..127, [string(n)] starts with a byte that is no digit. *)
Lemma string_of_int_head (n : Z) :
  n < 0 \/ 128 <= n ->
  exists c rest, Go.string_of_int n = String c rest /\ sign_or_digit c = false.
Proof.
  intros Hn. unfold Go.string_of_int, Go.utf8_encode.
  destruct ((n <? 0) || (0x10FFFF <? n) || ((0xD800 <=? n) && (n <=? 0xDFFF)))
    eqn:Hbad.
  - eexists _, _. split; vm_compute; reflexivity.
  - apply orb_false_elim in Hbad as [Hbad _].
    apply orb_false_elim in Hbad as [Hneg Hbig].
    apply Z.ltb_ge in Hneg, Hbig.
    destruct (n <? 0x80) eqn:H1; [ apply Z.ltb_lt in H1; lia | ].
    apply Z.ltb_ge in H1.
    destruct (n <? 0x800) eqn:H2; [ | destruct (n <? 0x10000) eqn:H3 ];
      unfold Go.byte_string; cbn [map string_of_list_ascii];
      eexists _, _; (split; [ reflexivity | ]);
      apply lead_byte_not_a_digit; cbn [In]; try tauto;
      rewrite Z.shiftr_div_pow2 by lia.
    + apply Z.ltb_lt in H2. change (2 ^ 6) with 64.
      split; [ apply Z.div_pos; lia | apply Z.div_lt_upper_bound; lia ].
    + apply Z.ltb_lt in H3. change (2 ^ 12) with 4096.
      split; [ apply Z.div_pos; lia | apply Z.div_lt_upper_bound; lia ].
    + change (2 ^ 18) with 262144.
      split; [ apply Z.div_pos; lia | apply Z.div_lt_upper_bound; lia ].
Qed.

(** [string(n)] is never the decimal rendering of [n]. *)
Lemma string_of_int_is_not_decimal (n : Z) : Go.string_of_int n <> decimal n.
Proof.
  destruct (Z_lt_dec n 0) as [Hneg | Hpos];
    [ | destruct (Z_le_dec 128 n) as [Hbig | Hsmall] ].
  - destruct (string_of_int_head n (or_introl Hneg)) as (c & r & -> & Hc).
    destruct (decimal_head n) as (c' & r' & -> & Hc').
    intros H. injection H as -> _. rewrite Hc in Hc'. discriminate Hc'.
  - destruct (string_of_int_head n (or_intror Hbig)) as (c & r & -> & Hc).
    destruct (decimal_head n) as (c' & r' & -> & Hc').
    intros H. injection H as -> _. rewrite Hc in Hc'. discriminate Hc'.
  - assert (Hall : forallb (fun k => negb (String.eqb
                               (Go.string_of_int (Z.of_nat k))
                               (decimal (Z.of_nat k)))) (seq 0 128) = true)
      by (vm_compute; reflexivity).
    rewrite forallb_forall in Hall. specialize (Hall (Z.to_nat n)).
    rewrite Z2Nat.id in Hall by lia.
    apply String.eqb_neq. apply negb_true_iff. apply Hall. apply in_seq. lia.
Qed.

(** For no limit does [GetDownloadUserRequests] request the path
    [/api/user/downloads/] followed by the decimal digits of the limit (of 1
    for a zero limit): the limit is rendered as a code point. *)
Theorem Go_user_downloads_path_is_never_decimal
  (L : Go.Libs) (limit : Z) (s : Go.State) :
  Forall (fun cr => Go.URL (snd cr)
                    <> Go.apiURL (Go.self s) +:+ "/api/user/downloads/"
                       +:+ decimal (if limit =? 0 then 1 else limit))
    (drop (length (Go.sent s))
       (Go.sent (snd (Go.run L (Go.CGetDownloadUserRequests limit) s)))).
Proof.
  rewrite (proj1 (Go_run_table L _ s)), drop_app_length.
  unfold Go_wire, Go_via. cbn [Go_checked Go.required Go.email_of forallb andb negb].
  destruct (Go.url_Parse L _); [ constructor | ].
  destruct (Go.httpClient (Go.self s)); [ | constructor ].
  cbn [option_list]. constructor; [ | constructor ].
  cbn [snd Go_request Go.URL]. intros H.
  apply append_inj_l in H. apply (append_inj_l "/api/user/downloads/") in H.
  exact (string_of_int_is_not_decimal _ H).
Qed.

(** ** Arguments are spliced in as they are *)

Lemma Go_is_empty_app (a b : string) :
  Go.is_empty (a +:+ b) = Go.is_empty a && Go.is_empty b.
Proof. destruct a; reflexivity. Qed.

(** The text [AddUserRequest] and [UpdateUserRequest] send does not escape
    its arguments: a user name that ends with the start of a password field
    gives, byte for byte, the run of the call whose password starts there. *)
Theorem Go_user_body_is_not_escaped
  (L : Go.Libs) (u x p e : string) (a : Z) (s : Go.State) :
  u <> "" -> p <> "" ->
  Go.run L (Go.CAddUserRequest (u +:+ Go_field_break +:+ x) p e a) s
  = Go.run L (Go.CAddUserRequest u (x +:+ Go_field_break +:+ p) e a) s
  /\ forall target,
      Go.run L (Go.CUpdateUserRequest target (u +:+ Go_field_break +:+ x) p a e) s
      = Go.run L (Go.CUpdateUserRequest target u (x +:+ Go_field_break +:+ p) a e) s.
Proof.
  intros Hu Hp.
  assert (Htext : forall pre rest : string,
             pre +:+ (u +:+ Go_field_break +:+ x) +:+ dquote +:+ ", password: "
                 +:+ dquote +:+ p +:+ rest
             = pre +:+ u +:+ dquote +:+ ", password: " +:+ dquote
                   +:+ (x +:+ Go_field_break +:+ p) +:+ rest).
  { intros pre rest. unfold Go_field_break.
    rewrite !PatternFacts.append_assoc. reflexivity. }
  assert (Hl : Go.is_empty (u +:+ Go_field_break +:+ x) = false).
  { rewrite Go_is_empty_app, (Go_is_empty_false _ Hu). reflexivity. }
  assert (Hr : Go.is_empty (x +:+ Go_field_break +:+ p) = false).
  { rewrite !Go_is_empty_app, (Go_is_empty_false _ Hp), !andb_false_r.
    reflexivity. }
  split; [ | intros target ];
    unfold Go.run, Go.AddUserRequest, Go.UpdateUserRequest;
    rewrite Hl, Hr, (Go_is_empty_false _ Hu), (Go_is_empty_false _ Hp);
    cbn [orb]; rewrite (Htext dquote); reflexivity.
Qed.

Lemma Go_user_body_witness :
  Go.sent (snd (Go.run (Demo.go_libs (Demo.go_response 200 [] "{}"))
     (Go.CAddUserRequest ("bob" +:+ Go_field_break +:+ "x") "secret"
        "bob@example.com" 1) (Demo.go_state "t0")))
  = Go.sent (snd (Go.run (Demo.go_libs (Demo.go_response 200 [] "{}"))
     (Go.CAddUserRequest "bob" ("x" +:+ Go_field_break +:+ "secret")
        "bob@example.com" 1) (Demo.go_state "t0"))).
Proof.
  rewrite (proj1 (Go_user_body_is_not_escaped
                    (Demo.go_libs (Demo.go_response 200 [] "{}"))
                    "bob" "x" "secret" "bob@example.com" 1 (Demo.go_state "t0")
                    ltac:(discriminate) ltac:(discriminate))).
  reflexivity.
Defined.

(** A user name is put into the path as it is, in both clients: removing
    the user [blocked/u] makes the request that unblocks the user [u]. *)
Theorem user_name_is_not_escaped_in_the_path :
  (forall (L : Go.Libs) (u : string) (s : Go.State),
      u <> "" ->
      Go.sent (snd (Go.run L (Go.CRemoveUserRequest ("blocked/" +:+ u)) s))
      = Go.sent (snd (Go.run L (Go.CUnBlockUserRequest u) s)))
  /\
  (forall (L : JS.Libs) (u : string) (s : JS.State),
      u <> "" ->
      JS.sent (snd (JS.run L (JS.CremoveUserRequest (JS.Str ("blocked/" +:+ u))) s))
      = JS.sent (snd (JS.run L (JS.CunblockUserRequest (JS.Str u)) s))).
Proof.
  split.
  - intros L u s Hu.
    rewrite !(proj1 (Go_run_table L _ s)). f_equal. f_equal.
    unfold Go_wire, Go_checked.
    cbn [Go.required Go.email_of forallb andb].
    rewrite (Go_is_empty_false _ Hu). cbn [negb andb].
    change (Go.is_empty ("blocked/" +:+ u)) with false. cbn [negb andb].
    reflexivity.
  - intros L u s Hu.
    assert (Ht : JS.truthy (JS.Str u) = true).
    { cbn [JS.truthy]. apply negb_true_iff. apply String.eqb_neq. exact Hu. }
    assert (Hv : JS_valid (JS.CunblockUserRequest (JS.Str u)) = true)
      by (cbn [JS_valid JS_required forallb]; rewrite Ht; reflexivity).
    destruct (JS.URL_error L (JS.apiUrl (JS.self s))) as [message | ] eqn:Hurl.
    + rewrite (JS_thrown_unchanged L _ s _
                 (JS_valid_unparsed_thrown L
                    (JS.CremoveUserRequest (JS.Str ("blocked/" +:+ u))) s
                    message eq_refl Hurl)).
      rewrite (JS_thrown_unchanged L _ s _
                 (JS_valid_unparsed_thrown L _ s message Hv Hurl)).
      reflexivity.
    + rewrite (JS_run_sends L _ s
                 (JS_valid_not_thrown L
                    (JS.CremoveUserRequest (JS.Str ("blocked/" +:+ u))) s
                    eq_refl Hurl)).
      rewrite (JS_run_sends L _ s (JS_valid_not_thrown L _ s Hv Hurl)).
      reflexivity.
Qed.

Lemma user_name_in_the_path_witness :
  Go.sent (snd (Go.run (Demo.go_libs (Demo.go_response 200 [] "{}"))
                  (Go.CRemoveUserRequest "blocked/bob") (Demo.go_state "t0")))
  = Go.sent (snd (Go.run (Demo.go_libs (Demo.go_response 200 [] "{}"))
                    (Go.CUnBlockUserRequest "bob") (Demo.go_state "t0"))).
Proof.
  exact (proj1 user_name_is_not_escaped_in_the_path
           (Demo.go_libs (Demo.go_response 200 [] "{}")) "bob"
           (Demo.go_state "t0") ltac:(discriminate)).
Defined.

(** ** The answer to [AddRegularUserRequest] *)

(** [AddRegularUserRequest] reads the answer and returns, whatever the
    status; it neither decodes nor prints the body.  When the body cannot be
    read it prints what was read and panics with the read error. *)
Theorem Go_AddRegularUserRequest_answer
  (L : Go.Libs) (u p e : string) (s : Go.State)
  (cl : Go.Client) (r : Go.Request) (response : Go.Response) :
  Go_wire L (Go.self s) (Go.CAddRegularUserRequest u p e) = Some (cl, r) ->
  Go.roundTrip L cl r = Go.Ok response ->
  Go.run L (Go.CAddRegularUserRequest u p e) s =
  match Go.body_err (Go.RespBody response) with
  | None => (Go.Returned None, Go_after s (Go.self s) cl r [])
  | Some err =>
      (Go.Panicked (Go.PanicError err),
       Go_after s (Go.self s) cl r [Go.body_bytes (Go.RespBody response)])
  end.
Proof.
  assert (Hnil : forall l : list string, (l ++ [])%list = l)
    by (intros l; apply app_nil_r).
  unfold Go_after.
  go_table L; intros Hw Hrt; go_tidy;
    cbv [String.append] in *; go_tidy;
    rewrite ?Hnil; try reflexivity; try discriminate.
Qed.

Lemma Go_AddRegularUserRequest_answer_witness :
  fst (Go.run (Demo.go_libs (Demo.go_response 500 [] "not json"))
         (Go.CAddRegularUserRequest "bob" "secret" "bob@example.com")
         (Demo.go_state "t0")) = Go.Returned None
  /\ Go.stdout (snd (Go.run (Demo.go_libs (Demo.go_response 500 [] "not json"))
                       (Go.CAddRegularUserRequest "bob" "secret" "bob@example.com")
                       (Demo.go_state "t0"))) = [].
Proof.
  rewrite (Go_AddRegularUserRequest_answer
             (Demo.go_libs (Demo.go_response 500 [] "not json"))
             "bob" "secret" "bob@example.com" (Demo.go_state "t0") _ _
             (Demo.go_response 500 [] "not json") eq_refl eq_refl).
  split; reflexivity.
Defined.

(** ** A transport that rejects, in the JavaScript client *)

(** When the transport rejects the request of a call, the promise of the
    call is rejected with the transport's error as it is: no handler runs,
    and [login] stores no token.  (On a base URL that [new URL] rejects
    there is no request to reject: the call throws the [TypeError] of
    [new URL].) *)
Theorem JS_transport_rejection_propagates
  (L : JS.Libs) (c : JS.call) (s : JS.State) (e : JS.error) :
  JS_valid c = true ->
  JS.axios_request L (JS.http (JS.self s)) (JS_request_of L (JS.self s) c)
  = inr e ->
  (JS.URL_error L (JS.apiUrl (JS.self s)) = None ->
   JS.run L c s
   = (JS.Rejected e,
      JS_after s (JS_client_after c (JS.self s))
        (JS_request_of L (JS.self s) c)))
  /\ (forall message,
        JS.URL_error L (JS.apiUrl (JS.self s)) = Some message ->
        JS.run L c s = (JS.Thrown (JS.TypeError message), s)).
Proof.
  intros Hv Hreq.
  split; [ | exact (fun m Hm => JS_valid_unparsed_run L c s m Hv Hm) ].
  intros Hurl. destruct s as [[url h i] sent].
  revert Hv.
  destruct c; cbn [JS_valid JS_required forallb]; js_unfold;
    unfold JS.http_get, JS.http_post, JS.http_put, JS.http_delete,
      JS.http_request, JS.json_or_status, JS.json, JS.set_this_header,
      JS.reject, JS.ret;
    cbn [JS.self JS.sent JS.this_headers JS.http JS.apiUrl] in *;
    rewrite ?Hurl;
    repeat match goal with
           | |- context [JS.truthy ?v] => destruct (JS.truthy v)
           | |- context [JS.nullish ?v] => destruct (JS.nullish v)
           | |- context [JS.length_is_zero ?v] => destruct (JS.length_is_zero v)
           end;
    cbn [negb orb andb]; intros Hv; try discriminate Hv;
    cbn [JS.self JS.sent JS.this_headers JS.http JS.apiUrl];
    rewrite ?Hurl; cbn [JS.self JS.sent JS.this_headers JS.http JS.apiUrl];
    match type of Hreq with
    | JS.axios_request _ _ ?q = _ =>
        match goal with
        | |- context [JS.axios_request L ?i ?r] => change r with q
        end
    end;
    rewrite Hreq; reflexivity.
Qed.

Lemma JS_transport_rejection_witness :
  JS.run {| JS.JSON := string;
            JS.URL_error := Demo.js_URL_error;
            JS.axios_request :=
              fun _ _ => inr (JS.LibraryError "AxiosError" "timeout");
            JS.response_json := Demo.js_response_json;
            JS.JSON_stringify := Demo.js_JSON_stringify |}
    (JS.Clogin (JS.Str "alice") (JS.Str "secret")) Demo.js_state
  = (JS.Rejected (JS.LibraryError "AxiosError" "timeout"),
     JS_after Demo.js_state Demo.js_client
       (JS_login_request Demo.js_client (JS.Str "alice") (JS.Str "secret"))).
Proof.
  apply (fun H1 H2 => proj1 (JS_transport_rejection_propagates
           {| JS.JSON := string;
              JS.URL_error := Demo.js_URL_error;
              JS.axios_request :=
                fun _ _ => inr (JS.LibraryError "AxiosError" "timeout");
              JS.response_json := Demo.js_response_json;
              JS.JSON_stringify := Demo.js_JSON_stringify |}
           (JS.Clogin (JS.Str "alice") (JS.Str "secret")) Demo.js_state
           (JS.LibraryError "AxiosError" "timeout") H1 H2));
    reflexivity.
Defined.

(** ** Calls in sequence on the JavaScript client *)

Lemma JS_headers_after_other (c : JS.call) (h : gmap string JS.value)
  (name : string) :
  name <> "key" -> JS_headers_after c h !! name = h !! name.
Proof.
  intros Hname. destruct c; cbn [JS_headers_after]; try reflexivity;
    apply lookup_insert_ne; congruence.
Qed.

Lemma JS_request_of_base (L : JS.Libs) (b : JS.Bassa) (c : JS.call) :
  JS.url_base (JS.url (JS_request_of L b c)) = JS.apiUrl b
  /\ JS.headers (JS_request_of L b c) = JS_headers_after c (JS.this_headers b).
Proof.
  unfold JS_request_of. destruct (JS_wire L c) as [[[m p] q] d].
  split; reflexivity.
Qed.

(** One call: the base URL and the transport stay, the stored headers
    other than [token] and [key] stay, and at most one request is made, on
    the base URL and with the stored headers. *)
Lemma JS_call_keeps_configuration (L : JS.Libs) (c : JS.call) (s : JS.State) :
  JS.apiUrl (JS.self (snd (JS.run L c s))) = JS.apiUrl (JS.self s)
  /\ JS.http (JS.self (snd (JS.run L c s))) = JS.http (JS.self s)
  /\ (forall name, name <> "token" -> name <> "key" ->
        JS.this_headers (JS.self (snd (JS.run L c s))) !! name
        = JS.this_headers (JS.self s) !! name)
  /\ exists reqs : list JS.Request,
       JS.sent (snd (JS.run L c s)) = (JS.sent s ++ reqs)%list
       /\ (length reqs <= 1)%nat
       /\ Forall (fun r => JS.url_base (JS.url r) = JS.apiUrl (JS.self s)
                           /\ forall name, name <> "key" ->
                                JS.headers r !! name
                                = JS.this_headers (JS.self s) !! name) reqs.
Proof.
  assert (Hself : JS.apiUrl (JS.self (snd (JS.run L c s))) = JS.apiUrl (JS.self s)
                  /\ JS.http (JS.self (snd (JS.run L c s))) = JS.http (JS.self s)
                  /\ (forall name, name <> "token" -> name <> "key" ->
                        JS.this_headers (JS.self (snd (JS.run L c s))) !! name
                        = JS.this_headers (JS.self s) !! name)).
  { destruct (JS_is_login c) eqn:Hc.
    - destruct c; try discriminate Hc.
      assert (Hsnd : snd (JS.run L (JS.Clogin user_name password) s)
                     = snd (JS.login L user_name password s)).
      { unfold JS.run, JS.nothing, JS.bind, JS.ret.
        destruct (JS.login L user_name password s) as [[ [] | e | e ] s'];
          reflexivity. }
      rewrite Hsnd.
      destruct (JS_state_after_login L user_name password s)
        as [-> | (response & _ & _ & ->)].
      + repeat split.
      + repeat split. intros name Ht _. cbn [JS_with_header JS.this_headers].
        apply lookup_insert_ne. congruence.
    - rewrite (JS_state_after_call L c s Hc).
      cbn [JS.apiUrl JS.http JS.this_headers].
      repeat split. intros name _ Hk.
      destruct (JS.URL_error L _); [ reflexivity | ].
      apply JS_headers_after_other. exact Hk. }
  destruct Hself as (Hurl & Hhttp & Hhdr).
  repeat split; try assumption.
  assert (Hnone : forall e, fst (JS.run L c s) = JS.Thrown e ->
            exists reqs : list JS.Request,
              JS.sent (snd (JS.run L c s)) = (JS.sent s ++ reqs)%list
              /\ (length reqs <= 1)%nat
              /\ Forall (fun r => JS.url_base (JS.url r) = JS.apiUrl (JS.self s)
                                  /\ forall name, name <> "key" ->
                                       JS.headers r !! name
                                       = JS.this_headers (JS.self s) !! name)
                   reqs).
  { intros e Hthrown. rewrite (JS_thrown_unchanged L c s _ Hthrown).
    exists []. rewrite app_nil_r. repeat split; [ simpl; lia | constructor ]. }
  destruct (JS_valid c) eqn:Hv;
    [ destruct (JS.URL_error L (JS.apiUrl (JS.self s))) as [message | ] eqn:Hu | ].
  - exact (Hnone _ (JS_valid_unparsed_thrown L c s message Hv Hu)).
  - pose proof (JS_valid_not_thrown L c s Hv Hu) as Hok.
    exists [JS_request_of L (JS.self s) c].
    split; [ exact (JS_run_sends L c s Hok) | ].
    split; [ simpl; lia | ].
    constructor; [ | constructor ].
    destruct (JS_request_of_base L (JS.self s) c) as [Hb Hh].
    split; [ exact Hb | ].
    intros name Hk. rewrite Hh. apply JS_headers_after_other. exact Hk.
  - exact (Hnone _ (JS_invalid_thrown L c s Hv)).
Qed.

Lemma JS_session_invariant (L : JS.Libs) (cs : list JS.call) :
  forall s : JS.State,
    JS.apiUrl (JS.self (JS_session L cs s)) = JS.apiUrl (JS.self s)
    /\ JS.http (JS.self (JS_session L cs s)) = JS.http (JS.self s)
    /\ (forall name, name <> "token" -> name <> "key" ->
          JS.this_headers (JS.self (JS_session L cs s)) !! name
          = JS.this_headers (JS.self s) !! name)
    /\ exists reqs : list JS.Request,
         JS.sent (JS_session L cs s) = (JS.sent s ++ reqs)%list
         /\ (length reqs <= length cs)%nat
         /\ Forall (fun r => JS.url_base (JS.url r) = JS.apiUrl (JS.self s)
                             /\ forall name, name <> "token" -> name <> "key" ->
                                  JS.headers r !! name
                                  = JS.this_headers (JS.self s) !! name) reqs.
Proof.
  induction cs as [ | c cs IH ]; intros s; cbn [JS_session].
  - repeat split. exists []. rewrite app_nil_r.
    repeat split; [ simpl; lia | constructor ].
  - destruct (JS_call_keeps_configuration L c s)
      as (Hurl & Hhttp & Hhdr & reqs1 & Hsent1 & Hlen1 & Hall1).
    destruct (IH (snd (JS.run L c s)))
      as (Hurl' & Hhttp' & Hhdr' & reqs2 & Hsent2 & Hlen2 & Hall2).
    split; [ congruence | ]. split; [ congruence | ].
    split.
    { intros name Ht Hk. rewrite (Hhdr' name Ht Hk). exact (Hhdr name Ht Hk). }
    exists (reqs1 ++ reqs2)%list.
    split; [ rewrite Hsent2, Hsent1, app_assoc; reflexivity | ].
    split; [ rewrite length_app; simpl; lia | ].
    apply Forall_app. split.
    + eapply Forall_impl; [ exact Hall1 | ].
      intros r [Hb Hh]. split; [ exact Hb | ].
      intros name _ Hk. exact (Hh name Hk).
    + eapply Forall_impl; [ exact Hall2 | ].
      intros r [Hb Hh]. split; [ congruence | ].
      intros name Ht Hk. rewrite (Hh name Ht Hk). exact (Hhdr name Ht Hk).
Qed.

(** On a client the constructor built, whatever calls are made and however
    they end: the base URL and the transport settings stay as constructed;
    at most one request is made per call; every request is made on the base
    URL and carries the header [Content-Type:
    application/x-www-form-urlencoded], the requests with a JSON text as
    body included. *)
Theorem JS_session_keeps_configuration
  (L : JS.Libs) (apiUrl : string) (total backoffFactor timeout : option Z)
  (b : JS.Bassa) (cs : list JS.call) :
  JS.constructor apiUrl total backoffFactor timeout = inr b ->
  JS.apiUrl (JS.self (JS_session L cs {| JS.self := b; JS.sent := [] |})) = apiUrl
  /\ JS.http (JS.self (JS_session L cs {| JS.self := b; JS.sent := [] |}))
     = {| JS.baseURL := apiUrl;
          JS.axios_timeout := default 5 timeout * 1000;
          JS.httpAgent := {| JS.total := default 1 total;
                             JS.backoffFactor := default 1 backoffFactor;
                             JS.retry := [429; 500; 502; 503; 504] |} |}
  /\ (length (JS.sent (JS_session L cs {| JS.self := b; JS.sent := [] |}))
      <= length cs)%nat
  /\ Forall (fun r => JS.url_base (JS.url r) = apiUrl
                      /\ JS.headers r !! "Content-Type"
                         = Some (JS.Str "application/x-www-form-urlencoded"))
       (JS.sent (JS_session L cs {| JS.self := b; JS.sent := [] |})).
Proof.
  intros Hb. unfold JS.constructor in Hb.
  destruct (negb (Regexp.matches JS.reg apiUrl)); [ discriminate Hb | ].
  injection Hb as <-.
  match goal with
  | |- context [JS_session L cs ?s0] =>
      destruct (JS_session_invariant L cs s0)
        as (Hurl & Hhttp & _ & reqs & Hsent & Hlen & Hall)
  end.
  cbn [JS.self JS.sent JS.apiUrl JS.http JS.this_headers app] in *.
  split; [ exact Hurl | ]. split; [ exact Hhttp | ].
  rewrite Hsent. split; [ exact Hlen | ].
  eapply Forall_impl; [ exact Hall | ].
  intros r [Hbase Hh]. split; [ exact Hbase | ].
  rewrite Hh by discriminate. apply lookup_singleton_eq.
Qed.

Lemma JS_session_witness :
  Forall (fun r => JS.url_base (JS.url r) = "http://localhost:5000"
                   /\ JS.headers r !! "Content-Type"
                      = Some (JS.Str "application/x-www-form-urlencoded"))
    (JS.sent (JS_session (Demo.js_libs (Demo.js_response 200 [("token", "abc123")] "{}"))
                [JS.Clogin (JS.Str "alice") (JS.Str "secret");
                 JS.CaddDownloadRequest (JS.Str "http://example.com/file")]
                {| JS.self := Demo.js_client; JS.sent := [] |})).
Proof.
  exact (proj2 (proj2 (proj2 (JS_session_keeps_configuration
           (Demo.js_libs (Demo.js_response 200 [("token", "abc123")] "{}"))
           "http://localhost:5000" None None None Demo.js_client
           [JS.Clogin (JS.Str "alice") (JS.Str "secret");
            JS.CaddDownloadRequest (JS.Str "http://example.com/file")]
           eq_refl)))).
Defined.

(** ** Calls in sequence on the Go client *)

Lemma Go_wire_shape (L : Go.Libs) (b : Go.Bassa) (c : Go.call)
  (cl : Go.Client) (r : Go.Request) :
  Go_wire L b c = Some (cl, r) ->
  Go_login_shaped b (cl, r) \/ Go_session_shaped b (cl, r).
Proof.
  destruct c; unfold Go_wire, Go_via;
    destruct (negb (Go_checked _)); try discriminate;
    repeat match goal with
           | |- context [match ?x with _ => _ end] => destruct x eqn:?
           end;
    intros Hw; try discriminate Hw; injection Hw as <- <-;
    first [ left; repeat split; reflexivity
          | right; eexists _, _, _; cbn [fst snd Go_request Go.URL Go.ReqHeader];
            repeat split;
            first [ eassumption | reflexivity
                  | cbv [String.append]; reflexivity ] ].
Qed.

Lemma Go_with_token_self (b : Go.Bassa) : b = Go_with_token b (Go.token b).
Proof. destruct b. reflexivity. Qed.

(** One call: nothing of the client changes but the token, and at most one
    request is made, of one of the two kinds. *)
Lemma Go_call_keeps_configuration (L : Go.Libs) (c : Go.call) (s : Go.State) :
  (exists t, Go.self (snd (Go.run L c s)) = Go_with_token (Go.self s) t)
  /\ exists reqs : list (Go.Client * Go.Request),
       Go.sent (snd (Go.run L c s)) = (Go.sent s ++ reqs)%list
       /\ (length reqs <= 1)%nat
       /\ Forall (fun cr => Go_login_shaped (Go.self s) cr
                            \/ Go_session_shaped (Go.self s) cr) reqs.
Proof.
  split.
  - destruct (Go_is_login c) eqn:Hc.
    + destruct c; try discriminate Hc.
      assert (Hsnd : snd (Go.run L (Go.CLogin userName password) s)
                     = snd (Go.Login L userName password s)).
      { unfold Go.run, Go.discard, Go.bind, Go.ret.
        destruct (Go.Login L userName password s) as [[ [] | p ] s'];
          reflexivity. }
      rewrite Hsnd. apply Go_state_after_Login.
    + rewrite (Go_state_after_call L c s Hc).
      exists (Go.token (Go.self s)). apply Go_with_token_self.
  - exists (option_list (Go_wire L (Go.self s) c)).
    split; [ exact (proj1 (Go_run_table L c s)) | ].
    destruct (Go_wire L (Go.self s) c) as [[cl r] | ] eqn:Hw; cbn [option_list].
    + split; [ simpl; lia | ].
      constructor; [ | constructor ].
      exact (Go_wire_shape L _ c cl r Hw).
    + split; [ simpl; lia | constructor ].
Qed.

(** Whatever calls a Go program makes, up to its first panic: nothing of
    the client changes but the session token; at most one request is made
    per call; every request is either the login form, posted to
    [/api/login] by the default client of [net/http] (so without the
    timeout and the retries of the client) and without a token, or a
    request under [/api/] made by the one HTTP client of the receiver, with
    a [Token] header as its only header. *)
Theorem Go_session_keeps_configuration
  (L : Go.Libs) (cs : list Go.call) :
  forall s : Go.State,
    (exists t, Go.self (Go_session L cs s) = Go_with_token (Go.self s) t)
    /\ exists reqs : list (Go.Client * Go.Request),
         Go.sent (Go_session L cs s) = (Go.sent s ++ reqs)%list
         /\ (length reqs <= length cs)%nat
         /\ Forall (fun cr => Go_login_shaped (Go.self s) cr
                              \/ Go_session_shaped (Go.self s) cr) reqs.
Proof.
  induction cs as [ | c cs IH ]; intros s; cbn [Go_session].
  - split; [ exists (Go.token (Go.self s)); apply Go_with_token_self | ].
    exists []. rewrite app_nil_r. repeat split; [ simpl; lia | constructor ].
  - destruct (Go_call_keeps_configuration L c s)
      as ((t1 & Hself1) & reqs1 & Hsent1 & Hlen1 & Hall1).
    destruct (Go.run L c s) as [[a | p] s1] eqn:Hrun; cbn [snd] in *.
    + destruct (IH s1) as ((t2 & Hself2) & reqs2 & Hsent2 & Hlen2 & Hall2).
      split; [ exists t2; rewrite Hself2, Hself1; reflexivity | ].
      exists (reqs1 ++ reqs2)%list.
      split; [ rewrite Hsent2, Hsent1, app_assoc; reflexivity | ].
      split; [ rewrite length_app; simpl; lia | ].
      apply Forall_app. split; [ exact Hall1 | ].
      eapply Forall_impl; [ exact Hall2 | ].
      intros cr. rewrite Hself1. exact (fun H => H).
    + split; [ exists t1; exact Hself1 | ].
      exists reqs1. split; [ exact Hsent1 | ].
      split; [ simpl; lia | exact Hall1 ].
Qed.

(** ** The server key stays among the headers *)

(** The server key [startDownload] or [killDownload] stores is not taken
    back: every request of every later call carries it as its [key] header,
    the login request included, until one of the two stores another. *)
Theorem JS_server_key_is_sent_on_later_requests
  (L : JS.Libs) (server_key : JS.value) (k c : JS.call) (s : JS.State) :
  In k [JS.CstartDownload server_key; JS.CkillDownload server_key] ->
  JS_stores_key c = false ->
  Forall (fun r => JS.headers r !! "key"
                   = Some (JS.or_default (JS.Str "123456789") server_key))
    (drop (length (JS.sent (snd (JS.run L k s))))
       (JS.sent (snd (JS.run L c (snd (JS.run L k s)))))).
Proof.
  intros Hk Hc.
  assert (Hlogin : JS_is_login k = false)
    by (destruct Hk as [<- | [<- | []]]; reflexivity).
  pose proof (JS_state_after_call L k s Hlogin) as Hself.
  set (s1 := snd (JS.run L k s)) in *.
  assert (Hbase : JS.apiUrl (JS.self s1) = JS.apiUrl (JS.self s))
    by (rewrite Hself; reflexivity).
  assert (Hnone : forall e, fst (JS.run L c s1) = JS.Thrown e ->
            Forall (fun r => JS.headers r !! "key"
                             = Some (JS.or_default (JS.Str "123456789")
                                       server_key))
              (drop (length (JS.sent s1)) (JS.sent (snd (JS.run L c s1))))).
  { intros e Hthrown.
    rewrite (JS_thrown_unchanged L c s1 _ Hthrown), drop_all. constructor. }
  destruct (JS_valid c) eqn:Hv;
    [ destruct (JS.URL_error L (JS.apiUrl (JS.self s1)))
        as [message | ] eqn:Hu | ].
  - exact (Hnone _ (JS_valid_unparsed_thrown L c s1 message Hv Hu)).
  - pose proof (JS_valid_not_thrown L c s1 Hv Hu) as Hok.
    rewrite (JS_run_sends L c s1 Hok), drop_app_length.
    constructor; [ | constructor ].
    unfold JS_request_of. destruct (JS_wire L c) as [[[m p] q] d].
    cbn [JS.headers]. rewrite Hself. cbn [JS.this_headers].
    rewrite <- Hbase, Hu.
    assert (Hsame : forall h, JS_headers_after c h = h)
      by (intros h; destruct c; try discriminate Hc; reflexivity).
    rewrite Hsame.
    destruct Hk as [<- | [<- | []]]; cbn [JS_headers_after];
      apply lookup_insert_eq.
  - exact (Hnone _ (JS_invalid_thrown L c s1 Hv)).
Qed.

Lemma JS_server_key_witness :
  Forall (fun r => JS.headers r !! "key" = Some (JS.Str "123456789"))
    (drop 1
       (JS.sent (snd (JS.run (Demo.js_libs (Demo.js_response 200 [] "{}"))
                        (JS.Clogin (JS.Str "alice") (JS.Str "secret"))
                        (snd (JS.run (Demo.js_libs (Demo.js_response 200 [] "{}"))
                                (JS.CstartDownload JS.Undefined) Demo.js_state)))))).
Proof.
  exact (JS_server_key_is_sent_on_later_requests
           (Demo.js_libs (Demo.js_response 200 [] "{}")) JS.Undefined
           (JS.CstartDownload JS.Undefined)
           (JS.Clogin (JS.Str "alice") (JS.Str "secret"))
           Demo.js_state (or_introl eq_refl) eq_refl).
Defined.
